(** * Recyleto pharmacy back end: transaction, cart and checkout rules

    A shallow embedding of [models/Transaction.js], [models/Cart.js] and
    the checkout controller ([controllers/checkoutController.js], which the
    sources carry inside [routes/sales.js]), followed by the two sale
    handlers of [controllers/salesController.js] (in the same file) and the
    delete and set-default handlers of
    [controllers/paymentMethodController.js].

    Conventions of the embedding.
    - A JavaScript [Number] holding money or a rate is an exact rational
      ([Q]); equality of amounts is [Qeq] ([==]).  Rounding, [NaN] and the
      infinities of IEEE doubles are outside the model.
    - A quantity is an integer ([Z]), as the schemas' [Number.isInteger]
      validators demand.
    - A [Date] is its millisecond timestamp ([Z]); every function that
      reads the clock takes the reading [now] as an argument.
    - An [ObjectId] is its string form.
    - A field read through [x || 0] is an [option Q]; [None] stands for
      [undefined]/[null].
    - A thrown [Error] is the [Err] case of [Result], carrying the message. *)

From Stdlib Require Import QArith Qminmax Lqa ZArith String Ascii List Bool Lia.
From Stdlib Require Import DecimalString DecimalN DecimalZ.
From stdpp Require Import base gmap strings.
Import ListNotations.

Open Scope Q_scope.
Open Scope string_scope.

(** ** JavaScript helpers *)

Abbreviation ObjectId := string (only parsing).
Abbreviation Date := Z (only parsing).

Inductive Result (A : Type) : Type :=
| Ok (a : A)
| Err (message : string).
Arguments Ok {A} a.
Arguments Err {A} message.

Definition bindR {A B} (r : Result A) (k : A -> Result B) : Result B :=
  match r with
  | Ok a => k a
  | Err m => Err m
  end.

Notation "'let*' x := r 'in' k" := (bindR r (fun x => k))
  (at level 10, x name, r at level 100, k at level 200).

(** [x || 0] on a numeric field ([0] itself gives [0] either way). *)
Definition orZero (x : option Q) : Q :=
  match x with
  | Some v => v
  | None => 0
  end.

(** [a || b] on a field holding an object or nothing, and the default
    of a destructuring pattern. *)
Definition orElse {A} (a : option A) (b : A) : A :=
  match a with
  | Some v => v
  | None => b
  end.

(** [!s] on a string field: unset, or the empty string. *)
Definition falsyStr (s : option string) : bool :=
  match s with
  | None => true
  | Some v => String.eqb v ""
  end.

Definition Qltb (x y : Q) : bool := negb (Qle_bool y x).

(** [Math.max] and [Math.min] on two numbers. *)
Definition Math_max (a b : Q) : Q := Qmax a b.
Definition Math_min (a b : Q) : Q := Qmin a b.

(** The sum of a list of amounts, by recursion on the list: the
    reference the folds of the code are compared with. *)
Fixpoint Qsum (l : list Q) : Q :=
  match l with
  | [] => 0
  | a :: rest => a + Qsum rest
  end.

Fixpoint Zsum (l : list Z) : Z :=
  match l with
  | [] => 0%Z
  | a :: rest => (a + Zsum rest)%Z
  end.

(** ** models/Transaction.js *)

Module Transaction.

Inductive Status :=
| draft | pending | completed | cancelled | refunded | partially_refunded | on_hold.

Module Pay.
Inductive Status :=
| pending | completed | failed | refunded | partially_refunded | authorized.
End Pay.

Definition status_eqb (a b : Status) : bool :=
  match a, b with
  | draft, draft | pending, pending | completed, completed
  | cancelled, cancelled | refunded, refunded
  | partially_refunded, partially_refunded | on_hold, on_hold => true
  | _, _ => false
  end.

Definition pay_eqb (a b : Pay.Status) : bool :=
  match a, b with
  | Pay.pending, Pay.pending | Pay.completed, Pay.completed
  | Pay.failed, Pay.failed | Pay.refunded, Pay.refunded
  | Pay.partially_refunded, Pay.partially_refunded
  | Pay.authorized, Pay.authorized => true
  | _, _ => false
  end.

(** transactionItemSchema *)
Record Item := mkItem {
  medicineId : ObjectId;
  medicineName : string;
  quantity : Z;
  unitPrice : Q;
  totalPrice : option Q;
  costPrice : option Q
}.

(** refundSchema *)
Record Refund := mkRefund {
  refundId : ObjectId;
  r_amount : option Q;
  r_date : Date;
  r_reason : string;
  r_paymentMethod : string;
  r_processedBy : ObjectId
}.

(** The method-specific paths of the [payment] sub-document, as the
    payment handlers fill them. *)
Inductive Details :=
| NoDetails
| CardDetails (cardLastFour transactionId authorizationCode : option string)
| BankDetails (bankReference : string) (bankName accountLastFour : option string)
| WalletDetails (walletProvider phoneNumber transactionId : option string).

Record Payment := mkPayment {
  method : string;
  paymentMethodId : option ObjectId;
  amount : Q;
  p_status : Pay.Status;
  details : Details;
  paidAt : option Date;
  failedAt : option Date;
  refundedAt : option Date
}.

Record t := mk {
  isNew : bool;
  pharmacyId : ObjectId;
  transactionType : string;
  transactionId : option string;
  transactionNumber : option string;
  transactionRef : option string;
  description : option string;
  items : list Item;
  subtotal : Q;
  tax : option Q;
  discount : option Q;
  totalAmount : Q;
  payment : Payment;
  status : Status;
  transactionDate : Date;
  refunds : list Refund;
  deliveryAddress : option ObjectId;
  deliveryOption : string;
  deliveryStatus : string;
  deliveryFee : option Q;
  createdBy : option ObjectId;
  updatedBy : option ObjectId;
  profit : Q;
  marginPercentage : Q
}.

(** Field writes. *)
Definition set_status (s : Status) (x : t) : t :=
  mk (isNew x) (pharmacyId x) (transactionType x) (transactionId x)
     (transactionNumber x) (transactionRef x) (description x) (items x)
     (subtotal x) (tax x) (discount x) (totalAmount x) (payment x) s
     (transactionDate x) (refunds x) (deliveryAddress x) (deliveryOption x)
     (deliveryStatus x) (deliveryFee x) (createdBy x) (updatedBy x)
     (profit x) (marginPercentage x).

Definition set_payment (p : Payment) (x : t) : t :=
  mk (isNew x) (pharmacyId x) (transactionType x) (transactionId x)
     (transactionNumber x) (transactionRef x) (description x) (items x)
     (subtotal x) (tax x) (discount x) (totalAmount x) p (status x)
     (transactionDate x) (refunds x) (deliveryAddress x) (deliveryOption x)
     (deliveryStatus x) (deliveryFee x) (createdBy x) (updatedBy x)
     (profit x) (marginPercentage x).

Definition set_refunds (r : list Refund) (x : t) : t :=
  mk (isNew x) (pharmacyId x) (transactionType x) (transactionId x)
     (transactionNumber x) (transactionRef x) (description x) (items x)
     (subtotal x) (tax x) (discount x) (totalAmount x) (payment x) (status x)
     (transactionDate x) r (deliveryAddress x) (deliveryOption x)
     (deliveryStatus x) (deliveryFee x) (createdBy x) (updatedBy x)
     (profit x) (marginPercentage x).

Definition set_financials (sub tot : Q) (x : t) : t :=
  mk (isNew x) (pharmacyId x) (transactionType x) (transactionId x)
     (transactionNumber x) (transactionRef x) (description x) (items x)
     sub (tax x) (discount x) tot (payment x) (status x)
     (transactionDate x) (refunds x) (deliveryAddress x) (deliveryOption x)
     (deliveryStatus x) (deliveryFee x) (createdBy x) (updatedBy x)
     (profit x) (marginPercentage x).

Definition set_profit (pr mg : Q) (x : t) : t :=
  mk (isNew x) (pharmacyId x) (transactionType x) (transactionId x)
     (transactionNumber x) (transactionRef x) (description x) (items x)
     (subtotal x) (tax x) (discount x) (totalAmount x) (payment x) (status x)
     (transactionDate x) (refunds x) (deliveryAddress x) (deliveryOption x)
     (deliveryStatus x) (deliveryFee x) (createdBy x) (updatedBy x)
     pr mg.

Definition set_updatedBy (u : option ObjectId) (x : t) : t :=
  mk (isNew x) (pharmacyId x) (transactionType x) (transactionId x)
     (transactionNumber x) (transactionRef x) (description x) (items x)
     (subtotal x) (tax x) (discount x) (totalAmount x) (payment x) (status x)
     (transactionDate x) (refunds x) (deliveryAddress x) (deliveryOption x)
     (deliveryStatus x) (deliveryFee x) (createdBy x) u
     (profit x) (marginPercentage x).

Definition set_isNew (b : bool) (x : t) : t :=
  mk b (pharmacyId x) (transactionType x) (transactionId x)
     (transactionNumber x) (transactionRef x) (description x) (items x)
     (subtotal x) (tax x) (discount x) (totalAmount x) (payment x) (status x)
     (transactionDate x) (refunds x) (deliveryAddress x) (deliveryOption x)
     (deliveryStatus x) (deliveryFee x) (createdBy x) (updatedBy x)
     (profit x) (marginPercentage x).

Definition set_pay_status (s : Pay.Status) (p : Payment) : Payment :=
  mkPayment (method p) (paymentMethodId p) (amount p) s (details p)
            (paidAt p) (failedAt p) (refundedAt p).

Definition set_pay_amount (a : Q) (p : Payment) : Payment :=
  mkPayment (method p) (paymentMethodId p) a (p_status p) (details p)
            (paidAt p) (failedAt p) (refundedAt p).

Definition set_paidAt (d : option Date) (p : Payment) : Payment :=
  mkPayment (method p) (paymentMethodId p) (amount p) (p_status p) (details p)
            d (failedAt p) (refundedAt p).

Definition set_failedAt (d : option Date) (p : Payment) : Payment :=
  mkPayment (method p) (paymentMethodId p) (amount p) (p_status p) (details p)
            (paidAt p) d (refundedAt p).

Definition set_refundedAt (d : option Date) (p : Payment) : Payment :=
  mkPayment (method p) (paymentMethodId p) (amount p) (p_status p) (details p)
            (paidAt p) (failedAt p) d.

(** The three identifier paths are declared [immutable: true]: Mongoose
    drops a write to such a path unless the document is new. *)
Definition set_transactionId (v : option string) (x : t) : t :=
  if isNew x then
    mk (isNew x) (pharmacyId x) (transactionType x) v
       (transactionNumber x) (transactionRef x) (description x) (items x)
       (subtotal x) (tax x) (discount x) (totalAmount x) (payment x) (status x)
       (transactionDate x) (refunds x) (deliveryAddress x) (deliveryOption x)
       (deliveryStatus x) (deliveryFee x) (createdBy x) (updatedBy x)
       (profit x) (marginPercentage x)
  else x.

Definition set_transactionNumber (v : option string) (x : t) : t :=
  if isNew x then
    mk (isNew x) (pharmacyId x) (transactionType x) (transactionId x)
       v (transactionRef x) (description x) (items x)
       (subtotal x) (tax x) (discount x) (totalAmount x) (payment x) (status x)
       (transactionDate x) (refunds x) (deliveryAddress x) (deliveryOption x)
       (deliveryStatus x) (deliveryFee x) (createdBy x) (updatedBy x)
       (profit x) (marginPercentage x)
  else x.

Definition set_transactionRef (v : option string) (x : t) : t :=
  if isNew x then
    mk (isNew x) (pharmacyId x) (transactionType x) (transactionId x)
       (transactionNumber x) v (description x) (items x)
       (subtotal x) (tax x) (discount x) (totalAmount x) (payment x) (status x)
       (transactionDate x) (refunds x) (deliveryAddress x) (deliveryOption x)
       (deliveryStatus x) (deliveryFee x) (createdBy x) (updatedBy x)
       (profit x) (marginPercentage x)
  else x.

(** *** Virtual fields *)

Definition totalRefunded (x : t) : Q :=
  fold_left (fun total refund => total + orZero (r_amount refund)) (refunds x) 0.

(** *** Instance methods *)

Definition calculateProfit (x : t) : t :=
  let pr := fold_left
              (fun total item =>
                 let cost := orZero (costPrice item) in
                 total + (unitPrice item - cost) * inject_Z (quantity item))
              (items x) 0 in
  let mg := if Qltb 0 (subtotal x) then (pr / subtotal x) * 100 else 0 in
  set_profit pr mg x.

Definition ninetyDays : Z := 90 * 24 * 60 * 60 * 1000.

Definition canRefund (now : Date) (x : t) : bool :=
  status_eqb (status x) completed
  && Qltb (totalRefunded x) (totalAmount x)
  && (now - ninetyDays <? transactionDate x)%Z.

Definition updateRefundStatus (now : Date) (x : t) : t :=
  let total := totalRefunded x in
  if Qle_bool (totalAmount x) total then
    set_payment
      (set_refundedAt (Some now) (set_pay_status Pay.refunded (payment x)))
      (set_status refunded x)
  else if Qltb 0 total then
    set_payment (set_pay_status Pay.partially_refunded (payment x))
                (set_status partially_refunded x)
  else x.

(** The argument of [processRefund]. *)
Record RefundData := mkRefundData {
  rd_amount : Q;
  rd_reason : string;
  rd_paymentMethod : string;
  rd_processedBy : ObjectId
}.

(** [fresh] is the [new mongoose.Types.ObjectId()] of the refund record.
    The result is the returned amount and the mutated document; on [Err]
    the document was not touched. *)
Definition processRefund (now : Date) (fresh : ObjectId) (refundData : RefundData)
    (x : t) : Result (Q * t) :=
  if negb (canRefund now x) then Err "Transaction cannot be refunded"
  else
    let refundAmount :=
      Math_min (rd_amount refundData) (totalAmount x - totalRefunded x) in
    let x1 :=
      set_refunds
        (refunds x ++
           [mkRefund fresh (Some refundAmount) now (rd_reason refundData)
                     (rd_paymentMethod refundData) (rd_processedBy refundData)])
        x in
    Ok (refundAmount, updateRefundStatus now x1).

(** [validTransitions], an object literal keyed by the current status. *)
Definition validTransitions : list (string * list string) :=
  [ ("pending", ["confirmed"; "cancelled"]);
    ("confirmed", ["preparing"; "cancelled"]);
    ("preparing", ["out_for_delivery"; "cancelled"]);
    ("out_for_delivery", ["delivered"; "failed"; "cancelled"]);
    ("delivered", []);
    ("cancelled", []);
    ("failed", ["cancelled"]) ].

Fixpoint lookupKey {A} (k : string) (l : list (string * A)) : option A :=
  match l with
  | [] => None
  | (k', v) :: rest => if String.eqb k' k then Some v else lookupKey k rest
  end.

Definition includes (l : list string) (s : string) : bool :=
  existsb (String.eqb s) l.

(** [validTransitions[currentStatus]?.includes(newStatus) || false] *)
Definition validateDeliveryTransition (x : t) (newStatus : string) : bool :=
  match lookupKey (deliveryStatus x) validTransitions with
  | Some allowed => includes allowed newStatus || false
  | None => false
  end.

Definition calculateFinancials (x : t) : t :=
  let sub := fold_left (fun total item => total + orZero (totalPrice item))
                       (items x) 0 in
  let tot := Math_max 0 (sub + orZero (tax x) - orZero (discount x)
                         + orZero (deliveryFee x)) in
  let x1 := set_financials sub tot x in
  if negb (Qeq_bool (amount (payment x1)) (totalAmount x1)) then
    set_payment (set_pay_amount (totalAmount x1) (payment x1)) x1
  else x1.

Definition autoUpdateStatus (now : Date) (x : t) : t :=
  let x1 :=
    if pay_eqb (p_status (payment x)) Pay.completed
       && status_eqb (status x) pending
    then set_payment
           (set_paidAt (Some (orElse (paidAt (payment x)) now)) (payment x))
           (set_status completed x)
    else x in
  if pay_eqb (p_status (payment x1)) Pay.failed
     && negb (status_eqb (status x1) cancelled)
  then set_payment (set_failedAt (Some now) (payment x1))
                   (set_status pending x1)
  else x1.

(** *** Identifier generation *)

(** One reading of the clock and of [Math.random] made by an attempt of
    [generateUniqueId]: [stamp] is [Date.now().toString(36).toUpperCase()],
    [rand] is [Math.random().toString(36).substring(2, 8).toUpperCase()]. *)
Record Draw := mkDraw { stamp : string; rand : string }.

Definition retryCount : nat := 3.

(** [taken uniqueId] is the outcome of [findOne({ transactionId: uniqueId })];
    [draw attempt] is what attempt number [attempt] reads. *)
Definition generateUniqueId (taken : string -> bool) (draw : nat -> Draw)
    (prefix : string) : Result string :=
  (fix loop (attempts : list nat) : Result string :=
     match attempts with
     | [] => Err "Failed to generate unique transaction ID"
     | attempt :: rest =>
         let uniqueId :=
           prefix ++ "-" ++ stamp (draw attempt) ++ "-" ++ rand (draw attempt) in
         if taken uniqueId then loop rest else Ok uniqueId
     end) (seq 0 retryCount).

(** Modelled from the spec: [Counter.getNextSequence] of [models/Counter.js],
    which is not among the sources.  It increments the counter of the
    category and returns the new value; a category never used starts at 1. *)
Definition getNextSequence (category : string) (counters : gmap string N)
    : N * gmap string N :=
  let n := (default 0%N (counters !! category) + 1)%N in
  (n, <[category := n]> counters).

(** [c.toUpperCase()] on an ASCII character. *)
Definition upperAscii (c : ascii) : ascii :=
  let n := nat_of_ascii c in
  if (97 <=? n)%nat && (n <=? 122)%nat then ascii_of_nat (n - 32) else c.

Fixpoint toUpperCase (s : string) : string :=
  match s with
  | EmptyString => EmptyString
  | String c rest => String (upperAscii c) (toUpperCase rest)
  end.

(** [s.slice(0, n)] *)
Definition slice0 (n : nat) (s : string) : string := substring 0 n s.

Fixpoint repeatChar (c : ascii) (n : nat) : string :=
  match n with
  | O => EmptyString
  | S k => String c (repeatChar c k)
  end.

(** [s.padStart(n, '0')] *)
Definition padStart0 (n : nat) (s : string) : string :=
  repeatChar "0"%char (n - String.length s) ++ s.

(** [String(counter)] on a non-negative integer. *)
Definition String_of (counter : N) : string :=
  NilEmpty.string_of_uint (N.to_uint counter).

Definition formatTransactionNumber (type : string) (counter : N) : string :=
  toUpperCase (slice0 3 type) ++ padStart0 8 (String_of counter).

(** *** Pre-save middleware *)

Record Env := mkEnv {
  now : Date;
  idDraw : nat -> Draw;
  refDraw : nat -> Draw
}.

(** The identifier block of the hook.  The counter store is returned in
    every case: an increment made before a later throw stays made. *)
Definition assignIdentifiers (env : Env) (taken : string -> bool)
    (counters : gmap string N) (x : t) : Result t * gmap string N :=
  if isNew x then
    match (if falsyStr (transactionId x)
           then let* uid := generateUniqueId taken (idDraw env) "TXN" in
                Ok (set_transactionId (Some uid) x)
           else Ok x) with
    | Err m => (Err m, counters)
    | Ok x1 =>
        let '(x2, counters2) :=
          if falsyStr (transactionNumber x1) then
            let '(counter, counters') :=
              getNextSequence (transactionType x1 ++ "_number") counters in
            (set_transactionNumber
               (Some (formatTransactionNumber (transactionType x1) counter)) x1,
             counters')
          else (x1, counters) in
        if falsyStr (transactionRef x2) then
          match generateUniqueId taken (refDraw env) "REF" with
          | Err m => (Err m, counters2)
          | Ok ref => (Ok (set_transactionRef (Some ref) x2), counters2)
          end
        else (Ok x2, counters2)
    end
  else (Ok x, counters).

Definition pre_save (env : Env) (taken : string -> bool)
    (counters : gmap string N) (x : t) : Result t * gmap string N :=
  match assignIdentifiers env taken counters x with
  | (Err m, counters') => (Err m, counters')
  | (Ok x1, counters') =>
      let x2 := calculateFinancials x1 in
      let x3 := calculateProfit x2 in
      let x4 := autoUpdateStatus (now env) x3 in
      (Ok (set_updatedBy (match updatedBy x4 with
                          | Some u => Some u
                          | None => createdBy x4
                          end) x4),
       counters')
  end.

Section Save.

(** Schema validation is Mongoose's built-in first [pre('save')] step: it
    sees the document as the caller left it and can only refuse the write.
    The schema's validators are kept abstract. *)
Variable validate : t -> bool.

(** [doc.save()]: validation, the middleware above, then the write, after
    which the document is no longer new. *)
Definition save (env : Env) (taken : string -> bool)
    (counters : gmap string N) (x : t) : Result t * gmap string N :=
  if validate x then
    match pre_save env taken counters x with
    | (Err m, counters') => (Err m, counters')
    | (Ok x', counters') => (Ok (set_isNew false x'), counters')
    end
  else (Err "Validation failed", counters).

(** What may happen to a persisted document afterwards: another save, a
    refund, or an assignment to one of the identifier paths. *)
Inductive Later :=
| LaterSave (env : Env) (taken : string -> bool) (counters : gmap string N)
| LaterRefund (now : Date) (fresh : ObjectId) (refundData : RefundData)
| LaterSetId (v : option string)
| LaterSetNumber (v : option string)
| LaterSetRef (v : option string).

(** A step that throws leaves the persisted document as it was. *)
Definition later (op : Later) (x : t) : t :=
  match op with
  | LaterSave env taken counters =>
      match save env taken counters x with
      | (Ok x', _) => x'
      | (Err _, _) => x
      end
  | LaterRefund now fresh refundData =>
      match processRefund now fresh refundData x with
      | Ok (_, x') => x'
      | Err _ => x
      end
  | LaterSetId v => set_transactionId v x
  | LaterSetNumber v => set_transactionNumber v x
  | LaterSetRef v => set_transactionRef v x
  end.

End Save.

(** Refund requests made one after the other on a document; a request
    that throws leaves the document as it was. *)
Definition refundAll (requests : list (Date * ObjectId * RefundData)) (x : t)
    : t :=
  fold_left
    (fun y request =>
       match processRefund (fst (fst request)) (snd (fst request))
                           (snd request) y with
       | Ok (_, y') => y'
       | Err _ => y
       end)
    requests x.

Definition identifiers (x : t) : option string * option string * option string :=
  (transactionId x, transactionNumber x, transactionRef x).

(** The newness flag with the identifiers. *)
Definition stamp_view (x : t)
    : bool * (option string * option string * option string) :=
  (isNew x, identifiers x).

(** The fields the financial recompute reads and writes. *)
Definition ledger (x : t)
    : list Item * Q * option Q * option Q * option Q * Q * Q :=
  (items x, subtotal x, tax x, discount x, deliveryFee x, totalAmount x,
   amount (payment x)).

End Transaction.

(** ** models/Cart.js *)

Module Cart.

Inductive Status := active | completed | abandoned | cancelled.

(** cartItemSchema; the schema gives every line its own [_id]. *)
Record Item := mkItem {
  _id : ObjectId;
  medicineId : ObjectId;
  medicineName : string;
  quantity : Z;
  unitPrice : Q;
  totalPrice : Q;
  expiryDate : option Date;
  i_pharmacyId : option ObjectId
}.

Record Discount := mkDiscount {
  d_amount : Q;
  d_type : string;
  d_reason : string
}.

Record t := mk {
  pharmacyId : option ObjectId;
  transactionType : string;
  items : list Item;
  totalAmount : Q;
  totalItems : nat;
  totalQuantity : Z;
  paymentMethod : string;
  status : Status;
  expiresAt : Date;
  lastActivity : Date;
  discount : Discount;
  taxAmount : Q;
  finalAmount : Q
}.

Definition set_items (l : list Item) (c : t) : t :=
  mk (pharmacyId c) (transactionType c) l (totalAmount c) (totalItems c)
     (totalQuantity c) (paymentMethod c) (status c) (expiresAt c)
     (lastActivity c) (discount c) (taxAmount c) (finalAmount c).

Definition set_totals (amount : Q) (count : nat) (qty : Z) (c : t) : t :=
  mk (pharmacyId c) (transactionType c) (items c) amount count
     qty (paymentMethod c) (status c) (expiresAt c)
     (lastActivity c) (discount c) (taxAmount c) (finalAmount c).

Definition set_status (s : Status) (c : t) : t :=
  mk (pharmacyId c) (transactionType c) (items c) (totalAmount c) (totalItems c)
     (totalQuantity c) (paymentMethod c) s (expiresAt c)
     (lastActivity c) (discount c) (taxAmount c) (finalAmount c).

Definition set_lastActivity (d : Date) (c : t) : t :=
  mk (pharmacyId c) (transactionType c) (items c) (totalAmount c) (totalItems c)
     (totalQuantity c) (paymentMethod c) (status c) (expiresAt c)
     d (discount c) (taxAmount c) (finalAmount c).

Definition set_discount (d : Discount) (c : t) : t :=
  mk (pharmacyId c) (transactionType c) (items c) (totalAmount c) (totalItems c)
     (totalQuantity c) (paymentMethod c) (status c) (expiresAt c)
     (lastActivity c) d (taxAmount c) (finalAmount c).

Definition set_taxAmount (a : Q) (c : t) : t :=
  mk (pharmacyId c) (transactionType c) (items c) (totalAmount c) (totalItems c)
     (totalQuantity c) (paymentMethod c) (status c) (expiresAt c)
     (lastActivity c) (discount c) a (finalAmount c).

Definition set_finalAmount (a : Q) (c : t) : t :=
  mk (pharmacyId c) (transactionType c) (items c) (totalAmount c) (totalItems c)
     (totalQuantity c) (paymentMethod c) (status c) (expiresAt c)
     (lastActivity c) (discount c) (taxAmount c) a.

Definition set_paymentMethod (m : string) (c : t) : t :=
  mk (pharmacyId c) (transactionType c) (items c) (totalAmount c) (totalItems c)
     (totalQuantity c) m (status c) (expiresAt c)
     (lastActivity c) (discount c) (taxAmount c) (finalAmount c).

Definition set_quantity (q : Z) (i : Item) : Item :=
  mkItem (_id i) (medicineId i) (medicineName i) q (unitPrice i)
         (totalPrice i) (expiryDate i) (i_pharmacyId i).

Definition set_totalPrice (p : Q) (i : Item) : Item :=
  mkItem (_id i) (medicineId i) (medicineName i) (quantity i) (unitPrice i)
         p (expiryDate i) (i_pharmacyId i).

(** [cartItemSchema.pre('save')] *)
Definition item_pre_save (now : Date) (i : Item) : Result Item :=
  let i1 := set_totalPrice (inject_Z (quantity i) * unitPrice i) i in
  match expiryDate i1 with
  | Some d => if (d <=? now)%Z then Err "Expiry date must be in the future"
              else Ok i1
  | None => Ok i1
  end.

Fixpoint items_pre_save (now : Date) (l : list Item) : Result (list Item) :=
  match l with
  | [] => Ok []
  | i :: rest =>
      let* i' := item_pre_save now i in
      let* rest' := items_pre_save now rest in
      Ok (i' :: rest')
  end.

(** [cartSchema.pre('save')] *)
Definition pre_save (now : Date) (c : t) : t :=
  let c1 :=
    set_totals
      (fold_left (fun sum item => sum + totalPrice item) (items c) 0)
      (length (items c))
      (fold_left (fun sum item => (sum + quantity item)%Z) (items c) 0%Z)
      c in
  let c2 := set_lastActivity now c1 in
  let discountValue :=
    if String.eqb (d_type (discount c2)) "percentage"
    then (totalAmount c2 * d_amount (discount c2)) / 100
    else d_amount (discount c2) in
  set_finalAmount (totalAmount c2 - discountValue + taxAmount c2) c2.

Fixpoint findIndex {A} (p : A -> bool) (l : list A) : option nat :=
  match l with
  | [] => None
  | a :: rest => if p a then Some O else option_map S (findIndex p rest)
  end.

(** The argument of [addItem]. *)
Record ItemData := mkItemData {
  id_medicineId : ObjectId;
  id_medicineName : string;
  id_quantity : Z;
  id_unitPrice : Q;
  id_expiryDate : option Date
}.

Section Save.

(** Schema validation, as for transactions: it runs before the
    middleware, on the document as the caller left it. *)
Variable validate : t -> bool.

(** [cart.save()]: validation, then the item middleware on every line,
    then the cart middleware. *)
Definition save (now : Date) (c : t) : Result t :=
  if validate c then
    let* items' := items_pre_save now (items c) in
    Ok (pre_save now (set_items items' c))
  else Err "Validation failed".

(** [fresh] is the [_id] Mongoose gives a pushed line. *)
Definition addItem (now : Date) (fresh : ObjectId) (itemData : ItemData)
    (c : t) : Result t :=
  match findIndex
          (fun item => String.eqb (medicineId item) (id_medicineId itemData))
          (items c) with
  | Some existingItemIndex =>
      save now
        (set_items
           (alter (fun item =>
                     let item1 :=
                       set_quantity (quantity item + id_quantity itemData) item in
                     set_totalPrice
                       (inject_Z (quantity item1) * unitPrice item1) item1)
                  existingItemIndex (items c))
           c)
  | None =>
      save now
        (set_items
           (items c ++
              [mkItem fresh (id_medicineId itemData) (id_medicineName itemData)
                      (id_quantity itemData) (id_unitPrice itemData)
                      (inject_Z (id_quantity itemData) * id_unitPrice itemData)
                      (id_expiryDate itemData) (pharmacyId c)])
           c)
  end.

Definition removeItem (now : Date) (itemId : ObjectId) (c : t) : Result t :=
  save now
    (set_items
       (List.filter (fun item => negb (String.eqb (_id item) itemId)) (items c))
       c).

Definition updateItemQuantity (now : Date) (itemId : ObjectId) (qty : Z)
    (c : t) : Result t :=
  if (qty <? 1)%Z then Err "Quantity must be at least 1"
  else
    match findIndex (fun item => String.eqb (_id item) itemId) (items c) with
    | Some i =>
        save now
          (set_items
             (alter (fun item =>
                       set_totalPrice (inject_Z qty * unitPrice item)
                                      (set_quantity qty item))
                    i (items c))
             c)
    | None => Err "Item not found in cart"
    end.

Definition clearCart (now : Date) (c : t) : Result t :=
  save now (set_status completed (set_totals 0 0%nat 0%Z (set_items [] c))).

(** [type] and [reason] default to ['fixed'] and [''] when omitted. *)
Definition applyDiscount (now : Date) (amount : Q)
    (type reason : option string) (c : t) : Result t :=
  save now
    (set_discount (mkDiscount amount (orElse type "fixed") (orElse reason "")) c).

Definition setTax (now : Date) (taxAmount : Q) (c : t) : Result t :=
  save now (set_taxAmount taxAmount c).

Definition isExpired (now : Date) (c : t) : bool := (expiresAt c <? now)%Z.

Definition abandonCart (now : Date) (c : t) : Result t :=
  save now (set_status abandoned c).

Definition completeCart (now : Date) (paymentMethod : option string)
    (c : t) : Result t :=
  let c1 := match paymentMethod with
            | Some m => if String.eqb m "" then c else set_paymentMethod m c
            | None => c
            end in
  save now (set_status completed c1).

(** The discount read off the saved cart, in the spec's words:
    [discount.amount] when fixed, [totalAmount * discount.amount / 100]
    when a percentage. *)
Definition discountValue (c : t) : Q :=
  if String.eqb (d_type (discount c)) "percentage"
  then totalAmount c * d_amount (discount c) / 100
  else d_amount (discount c).

(** The mutating operations the controllers call, as one type. *)
Inductive Op :=
| OpAddItem (fresh : ObjectId) (itemData : ItemData)
| OpRemoveItem (itemId : ObjectId)
| OpUpdateItemQuantity (itemId : ObjectId) (qty : Z)
| OpApplyDiscount (amount : Q) (type reason : option string)
| OpSetTax (taxAmount : Q).

Definition run (now : Date) (op : Op) (c : t) : Result t :=
  match op with
  | OpAddItem fresh itemData => addItem now fresh itemData c
  | OpRemoveItem itemId => removeItem now itemId c
  | OpUpdateItemQuantity itemId qty => updateItemQuantity now itemId qty c
  | OpApplyDiscount amount type reason => applyDiscount now amount type reason c
  | OpSetTax taxAmount => setTax now taxAmount c
  end.

End Save.

End Cart.

(** ** controllers/checkoutController.js (in routes/sales.js) *)

Module Checkout.

(** What the controller reads of a [Medicine] document. *)
Record Medicine := mkMedicine {
  m_name : string;
  m_price : Q;
  m_quantity : Z
}.

Definition set_m_quantity (q : Z) (m : Medicine) : Medicine :=
  mkMedicine (m_name m) (m_price m) q.

(** What the payment handlers read of a stored [PaymentMethod]. *)
Record PaymentMethodDoc := mkPaymentMethodDoc {
  pm_userId : ObjectId;
  pm_isActive : bool;
  pm_cardLastFour : option string;
  pm_bankName : option string;
  pm_accountNumber : option string;
  pm_walletProvider : option string;
  pm_phoneNumber : option string
}.

(** The collections, the sequence store, and the requests handed to the
    payment dispatch (type and amount, latest first).  No code reads
    [dispatched]; it records what the payment side was asked to charge. *)
Record World := mkWorld {
  medicines : gmap ObjectId Medicine;
  transactions : gmap ObjectId Transaction.t;
  carts : gmap ObjectId Cart.t;
  addresses : gset ObjectId;
  paymentMethods : gmap ObjectId PaymentMethodDoc;
  counters : gmap string N;
  dispatched : list (string * Q)
}.

(** What one request reads from outside: the clock, [Math.random] (as a
    number and as base-36 text), the draw of [generateTransactionRef], the
    draws of the transaction middleware and the [_id] of a created
    document. *)
Record Env := mkEnv {
  now : Date;
  random : Q;
  randomText : string;
  refDraw : Transaction.Draw;
  saveEnv : Transaction.Env;
  freshId : ObjectId
}.

Record User := mkUser {
  u_pharmacyId : option ObjectId;
  u__id : option ObjectId;
  u_id : ObjectId
}.

(** A line of [req.body.items] (quick checkout). *)
Record BodyItem := mkBodyItem {
  bi_medicineId : ObjectId;
  bi_quantity : Z;
  bi_unitPrice : option Q
}.

(** [req.body]; an absent field is [None] and takes the default of the
    destructuring pattern. *)
Record Body := mkBody {
  b_transactionType : option string;
  b_description : option string;
  b_items : list BodyItem;
  b_paymentType : option string;
  b_paymentMethodId : option ObjectId;
  b_discount : option Q;
  b_deliveryOption : option string;
  b_deliveryAddressId : option ObjectId;
  b_saveAsDraft : option bool
}.

(** [res.status(code).json({ success, message, data })] *)
Record Response := mkResponse {
  code : nat;
  success : bool;
  message : option string;
  data : option Transaction.t
}.

Definition fail (code : nat) (message : string) : Response :=
  mkResponse code false (Some message) None.

(** [`${n}`] on an integer. *)
Definition String_ofZ (n : Z) : string := NilZero.string_of_int (Z.to_int n).

(** [s.slice(-n)] *)
Definition sliceLast (n : nat) (s : string) : string :=
  substring (String.length s - n) n s.

(** [generateTransactionRef] *)
Definition generateTransactionRef (d : Transaction.Draw) : string :=
  Transaction.toUpperCase
    ("TXN-" ++ Transaction.stamp d ++ "-" ++ Transaction.rand d).

Record Totals := mkTotals {
  subtotal : Q;
  tax : Q;
  deliveryFee : Q;
  total : Q;
  deliveryAddress : option ObjectId
}.

(** [calculateTotal]; [taxRate = None] is the omitted fourth argument. *)
Definition calculateTotal (addresses : gset ObjectId)
    (items : list Transaction.Item) (deliveryOption : string)
    (deliveryAddressId : option ObjectId) (taxRate : option Q) : Totals :=
  let taxRate := orElse taxRate 0.08 in
  let subtotal :=
    fold_left (fun total item =>
                 total + Transaction.unitPrice item
                         * inject_Z (Transaction.quantity item))
              items 0 in
  let '(deliveryFee, deliveryAddress) :=
    if String.eqb deliveryOption "delivery" then
      (5.00,
       match deliveryAddressId with
       | Some a =>
           if negb (String.eqb a "") && bool_decide (a ∈ addresses)
           then Some a else None
       | None => None
       end)
    else (0, None) in
  let tax := subtotal * taxRate in
  let total := subtotal + tax + deliveryFee in
  mkTotals subtotal tax deliveryFee total deliveryAddress.

(** *** Payment handlers *)

Inductive PaymentData :=
| CashData (cashReceived changeGiven : Q)
| Stored (d : Transaction.Details).

Record PaymentResult := mkPaymentResult {
  pr_success : bool;
  pr_data : option PaymentData;
  pr_message : option string
}.

Record GatewayResult := mkGatewayResult {
  g_success : bool;
  g_transactionId : option string;
  g_authorizationCode : option string;
  g_message : string
}.

Definition mockCardPaymentGateway (env : Env) (amount : Q)
    (paymentMethod : option PaymentMethodDoc) : GatewayResult :=
  if Qltb (random env) 0.05 then
    mkGatewayResult false None None "Payment declined by bank"
  else
    mkGatewayResult true (Some ("CARD" ++ String_ofZ (now env)))
      (Some ("AUTH" ++ Transaction.toUpperCase (randomText env)))
      "Payment approved".

Definition mockDigitalWalletPayment (env : Env) (amount : Q)
    (paymentMethod : option PaymentMethodDoc) : GatewayResult :=
  if Qltb (random env) 0.03 then
    mkGatewayResult false None None "Wallet transaction failed"
  else
    mkGatewayResult true (Some ("WALLET" ++ String_ofZ (now env))) None
      "Wallet payment successful".

Definition processCashPayment (amount : Q) : PaymentResult :=
  mkPaymentResult true (Some (CashData amount 0)) None.

Definition processCardPayment (env : Env) (amount : Q)
    (paymentMethod : option PaymentMethodDoc) : PaymentResult :=
  let paymentResult := mockCardPaymentGateway env amount paymentMethod in
  mkPaymentResult (g_success paymentResult)
    (Some (Stored (Transaction.CardDetails
                     (mbind pm_cardLastFour paymentMethod)
                     (g_transactionId paymentResult)
                     (g_authorizationCode paymentResult))))
    (Some (g_message paymentResult)).

Definition processBankTransfer (env : Env) (amount : Q)
    (paymentMethod : option PaymentMethodDoc) : PaymentResult :=
  let reference := "BT" ++ String_ofZ (now env) ++ randomText env in
  mkPaymentResult true
    (Some (Stored (Transaction.BankDetails reference
                     (mbind pm_bankName paymentMethod)
                     (sliceLast 4 <$> mbind pm_accountNumber paymentMethod))))
    None.

Definition processDigitalWallet (env : Env) (amount : Q)
    (paymentMethod : option PaymentMethodDoc) : PaymentResult :=
  let walletResult := mockDigitalWalletPayment env amount paymentMethod in
  mkPaymentResult (g_success walletResult)
    (Some (Stored (Transaction.WalletDetails
                     (mbind pm_walletProvider paymentMethod)
                     (mbind pm_phoneNumber paymentMethod)
                     (g_transactionId walletResult))))
    (Some (g_message walletResult)).

Definition processPaymentByType (env : Env) (type : string) (amount : Q)
    (paymentMethod : option PaymentMethodDoc) : PaymentResult :=
  if String.eqb type "cash" then processCashPayment amount
  else if String.eqb type "card" then processCardPayment env amount paymentMethod
  else if String.eqb type "bank_transfer"
       then processBankTransfer env amount paymentMethod
  else if String.eqb type "digital_wallet"
       then processDigitalWallet env amount paymentMethod
  else mkPaymentResult false None (Some "Unsupported payment method").

(** *** Queries *)

(** [Model.findOne(filter)]: the first match in the order of the
    collection. *)
Definition findOne {A} (p : A -> bool) (m : gmap ObjectId A)
    : option (ObjectId * A) :=
  head (List.filter (fun kv => p (snd kv)) (map_to_list m)).

(** [PaymentMethod.findOne({ _id, userId, isActive: true })] *)
Definition findPaymentMethod (w : World) (paymentMethodId : option ObjectId)
    (userId : ObjectId) : option PaymentMethodDoc :=
  match paymentMethodId with
  | Some i =>
      if String.eqb i "" then None
      else
        match paymentMethods w !! i with
        | Some doc =>
            if String.eqb (pm_userId doc) userId && pm_isActive doc
            then Some doc else None
        | None => None
        end
  | None => None
  end.

(** [Transaction.findOne({ transactionId: uniqueId })], as a test. *)
Definition idTaken (w : World) (uniqueId : string) : bool :=
  bool_decide
    (Exists (fun kv => Transaction.transactionId (snd kv) = Some uniqueId)
            (map_to_list (transactions w))).

(** [req.user?.pharmacyId || req.user?._id] *)
Definition pharmacyOf (user : option User) : option ObjectId :=
  match user with
  | Some u =>
      match u_pharmacyId u with
      | Some p => if String.eqb p "" then u__id u else Some p
      | None => u__id u
      end
  | None => None
  end.

Definition truthy (s : option string) : bool := negb (falsyStr s).

(** The filter [{ pharmacyId, transactionType, status: 'pending' }]. *)
Definition pendingFor (pharmacyId : ObjectId) (transactionType : string)
    (x : Transaction.t) : bool :=
  String.eqb (Transaction.pharmacyId x) pharmacyId
  && String.eqb (Transaction.transactionType x) transactionType
  && Transaction.status_eqb (Transaction.status x) Transaction.pending.

(** The filter [{ pharmacyId, transactionType, status: 'active' }]. *)
Definition activeCartFor (pharmacyId : ObjectId) (transactionType : string)
    (c : Cart.t) : bool :=
  bool_decide (Cart.pharmacyId c = Some pharmacyId)
  && String.eqb (Cart.transactionType c) transactionType
  && match Cart.status c with Cart.active => true | _ => false end.

(** *** Stock *)

(** The stock loop of [processCheckout]: the first line that fails ends
    the request with its response; [None] when every line passes. *)
Fixpoint validateStock (meds : gmap ObjectId Medicine)
    (items : list Transaction.Item) : option Response :=
  match items with
  | [] => None
  | item :: rest =>
      match meds !! Transaction.medicineId item with
      | None =>
          Some (fail 404 ("Medicine " ++ Transaction.medicineName item
                          ++ " not found"))
      | Some medicine =>
          if (m_quantity medicine <? Transaction.quantity item)%Z then
            Some (fail 400 ("Insufficient stock for " ++ m_name medicine
                            ++ ". Available: "
                            ++ String_ofZ (m_quantity medicine)))
          else validateStock meds rest
      end
  end.

(** A line the stock loop lets through: its medicine resolves and holds
    at least the quantity asked. *)
Definition inStock (meds : gmap ObjectId Medicine) (item : Transaction.Item)
    : Prop :=
  exists medicine,
    meds !! Transaction.medicineId item = Some medicine
    /\ (Transaction.quantity item <= m_quantity medicine)%Z.

(** [Medicine.findByIdAndUpdate(id, { $inc: { quantity: -qty } })] for
    every line, in order; an id that resolves to nothing updates nothing. *)
Definition decrementStock (lines : list (ObjectId * Z))
    (meds : gmap ObjectId Medicine) : gmap ObjectId Medicine :=
  fold_left
    (fun m line =>
       alter (fun med => set_m_quantity (m_quantity med - snd line) med)
             (fst line) m)
    lines meds.

Definition set_medicines (m : gmap ObjectId Medicine) (w : World) : World :=
  mkWorld m (transactions w) (carts w) (addresses w) (paymentMethods w)
          (counters w) (dispatched w).

Definition set_transactions (m : gmap ObjectId Transaction.t) (w : World)
    : World :=
  mkWorld (medicines w) m (carts w) (addresses w) (paymentMethods w)
          (counters w) (dispatched w).

Definition set_carts (m : gmap ObjectId Cart.t) (w : World) : World :=
  mkWorld (medicines w) (transactions w) m (addresses w) (paymentMethods w)
          (counters w) (dispatched w).

Definition set_counters (m : gmap string N) (w : World) : World :=
  mkWorld (medicines w) (transactions w) (carts w) (addresses w)
          (paymentMethods w) m (dispatched w).

Definition log_dispatch (type : string) (amount : Q) (w : World) : World :=
  mkWorld (medicines w) (transactions w) (carts w) (addresses w)
          (paymentMethods w) (counters w) ((type, amount) :: dispatched w).

(** The payment step shared by both checkouts: look the stored method up,
    dispatch, and keep the result.  [None] when the step is skipped. *)
Definition payIfAsked (env : Env) (user : option User) (asked : bool)
    (paymentType : option string) (paymentMethodId : option ObjectId)
    (amount : Q) (w : World) : option PaymentResult * World :=
  if asked && truthy paymentType then
    let type := orElse paymentType "" in
    let paymentMethodDoc :=
      findPaymentMethod w paymentMethodId
                        (match user with Some u => u_id u | None => "" end) in
    (Some (processPaymentByType env type amount paymentMethodDoc),
     log_dispatch type amount w)
  else (None, w).

(** The [payment] object both checkouts build from a successful result.
    [cashReceived] and [changeGiven] are not paths of the schema and are
    not stored. *)
Definition paymentOf (env : Env) (paymentType : option string)
    (paymentMethodId : option ObjectId) (amount : Q) (r : PaymentResult)
    : Transaction.Payment :=
  Transaction.mkPayment (orElse paymentType "") paymentMethodId amount
    Transaction.Pay.completed
    (match pr_data r with
     | Some (Stored d) => d
     | _ => Transaction.NoDetails
     end)
    (Some (now env)) None None.

Definition lines_of (items : list Transaction.Item) : list (ObjectId * Z) :=
  map (fun item => (Transaction.medicineId item, Transaction.quantity item))
      items.

Section Handlers.

Variable validateTransaction : Transaction.t -> bool.
Variable validateCart : Cart.t -> bool.

(** [generateTransactionNumber] of [utils/helpers], which is not among the
    sources: taken as given, with whatever it does to the sequence store. *)
Variable generateTransactionNumber :
  string -> gmap string N -> string * gmap string N.

(** [transaction.save()] against the collections. *)
Definition saveTransaction (env : Env) (tid : ObjectId) (x : Transaction.t)
    (w : World) : Result Transaction.t * World :=
  let '(r, counters') :=
    Transaction.save validateTransaction (saveEnv env) (idTaken w)
                     (counters w) x in
  match r with
  | Ok x' => (Ok x', set_transactions (<[tid := x']> (transactions w))
                                      (set_counters counters' w))
  | Err m => (Err m, set_counters counters' w)
  end.

(** The checkout fields written on the pending transaction, from
    [transaction.description = ...] to the [payment] object.  The write to
    [transactionRef] goes through the immutable path.  [customerInfo] and
    [paymentMethod] (not a path of the schema) are read by no rule here
    and are left out. *)
Definition applyCheckout (env : Env) (body : Body) (totals : Totals)
    (paymentResult : option PaymentResult) (x : Transaction.t)
    : Transaction.t :=
  let discount := orElse (b_discount body) 0 in
  let deliveryOption := orElse (b_deliveryOption body) "pickup" in
  let saveAsDraft := orElse (b_saveAsDraft body) false in
  let totalAmount :=
    Math_max 0 (subtotal totals + tax totals - discount + deliveryFee totals) in
  let x1 :=
    Transaction.mk
      (Transaction.isNew x) (Transaction.pharmacyId x)
      (Transaction.transactionType x) (Transaction.transactionId x)
      (Transaction.transactionNumber x) (Transaction.transactionRef x)
      (match b_description body with
       | Some d => if String.eqb d "" then Transaction.description x else Some d
       | None => Transaction.description x
       end)
      (Transaction.items x)
      (subtotal totals) (Some (tax totals)) (Some discount) totalAmount
      (Transaction.payment x)
      (if saveAsDraft then Transaction.draft else Transaction.completed)
      (Transaction.transactionDate x) (Transaction.refunds x)
      (Transaction.deliveryAddress x) (Transaction.deliveryOption x)
      (Transaction.deliveryStatus x) (Some (deliveryFee totals))
      (Transaction.createdBy x) (Transaction.updatedBy x)
      (Transaction.profit x) (Transaction.marginPercentage x) in
  let x2 :=
    Transaction.set_transactionRef
      (Some (generateTransactionRef (refDraw env))) x1 in
  let x3 :=
    Transaction.mk
      (Transaction.isNew x2) (Transaction.pharmacyId x2)
      (Transaction.transactionType x2) (Transaction.transactionId x2)
      (Transaction.transactionNumber x2) (Transaction.transactionRef x2)
      (Transaction.description x2) (Transaction.items x2)
      (Transaction.subtotal x2) (Transaction.tax x2) (Transaction.discount x2)
      (Transaction.totalAmount x2) (Transaction.payment x2)
      (Transaction.status x2)
      (now env) (Transaction.refunds x2)
      (if String.eqb deliveryOption "delivery"
       then match deliveryAddress totals with
            | Some a => Some a
            | None => Transaction.deliveryAddress x2
            end
       else Transaction.deliveryAddress x2)
      deliveryOption
      (if String.eqb deliveryOption "delivery"
       then "pending" else "not_applicable")
      (Transaction.deliveryFee x2)
      (Transaction.createdBy x2) (Transaction.updatedBy x2)
      (Transaction.profit x2) (Transaction.marginPercentage x2) in
  match paymentResult with
  | Some r =>
      if negb saveAsDraft then
        Transaction.set_payment
          (paymentOf env (b_paymentType body) (b_paymentMethodId body)
                     (Transaction.totalAmount x3) r)
          x3
      else x3
  | None => x3
  end.

(** The inline clearing of the active cart at the end of
    [processCheckout]. *)
Definition clearActiveCart (env : Env) (pharmacyId : ObjectId)
    (transactionType : string) (w : World) : Result World :=
  match findOne (activeCartFor pharmacyId transactionType) (carts w) with
  | Some (cid, cart) =>
      let* cart' :=
        Cart.save validateCart (now env)
          (Cart.set_status Cart.completed
             (Cart.set_totals 0 0%nat 0%Z (Cart.set_items [] cart))) in
      Ok (set_carts (<[cid := cart']> (carts w)) w)
  | None => Ok w
  end.

Definition processCheckout (env : Env) (user : option User) (body : Body)
    (w : World) : Response * World :=
  match pharmacyOf user with
  | None => (fail 401 "Unauthorized: user not found", w)
  | Some pharmacyId =>
  let transactionType := orElse (b_transactionType body) "sale" in
  let deliveryOption := orElse (b_deliveryOption body) "pickup" in
  let saveAsDraft := orElse (b_saveAsDraft body) false in
  match findOne (pendingFor pharmacyId transactionType) (transactions w) with
  | None => (fail 400 "Cart is empty", w)
  | Some (tid, transaction) =>
  if (length (Transaction.items transaction) =? 0)%nat
  then (fail 400 "Cart is empty", w) else
  let totals :=
    calculateTotal (addresses w) (Transaction.items transaction)
                   deliveryOption (b_deliveryAddressId body) None in
  (* Validate stock for sale transactions *)
  match (if String.eqb transactionType "sale" && negb saveAsDraft
         then validateStock (medicines w) (Transaction.items transaction)
         else None) with
  | Some failure => (failure, w)
  | None =>
  (* Process payment if not a draft *)
  let '(paymentResult, w1) :=
    payIfAsked env user (negb saveAsDraft) (b_paymentType body)
               (b_paymentMethodId body) (total totals) w in
  match paymentResult with
  | Some (mkPaymentResult false _ m) => (mkResponse 400 false m None, w1)
  | _ =>
  match saveTransaction env tid
          (applyCheckout env body totals paymentResult transaction) w1 with
  | (Err _, w2) => (fail 500 "Error during checkout process", w2)
  | (Ok saved, w2) =>
  (* If not a draft, update stock and clear cart *)
  let w3 :=
    if negb saveAsDraft && String.eqb transactionType "sale"
    then set_medicines
           (decrementStock (lines_of (Transaction.items saved)) (medicines w2))
           w2
    else w2 in
  match (if negb saveAsDraft
         then clearActiveCart env pharmacyId transactionType w3
         else Ok w3) with
  | Err _ => (fail 500 "Error during checkout process", w3)
  | Ok w4 =>
      (mkResponse 201 true
         (Some (if saveAsDraft then "Transaction saved as draft"
                else "Transaction completed successfully"))
         (transactions w4 !! tid),
       w4)
  end end end end end end.

(** The item loop of [quickCheckout]: every line is resolved and, for a
    sale, checked against the stock before it is pushed. *)
Fixpoint prepareItems (transactionType : string)
    (meds : gmap ObjectId Medicine) (items : list BodyItem)
    : Response + list Transaction.Item :=
  match items with
  | [] => inr []
  | item :: rest =>
      match meds !! bi_medicineId item with
      | None =>
          inl (fail 404 ("Medicine with ID " ++ bi_medicineId item
                         ++ " not found"))
      | Some medicine =>
          if String.eqb transactionType "sale"
             && (m_quantity medicine <? bi_quantity item)%Z
          then inl (fail 400 ("Insufficient stock for " ++ m_name medicine
                              ++ ". Available: "
                              ++ String_ofZ (m_quantity medicine)))
          else
            let unitPrice :=
              match bi_unitPrice item with
              | Some p => if Qeq_bool p 0 then m_price medicine else p
              | None => m_price medicine
              end in
            let totalPrice := inject_Z (bi_quantity item) * unitPrice in
            match prepareItems transactionType meds rest with
            | inl failure => inl failure
            | inr pushed =>
                inr (Transaction.mkItem (bi_medicineId item) (m_name medicine)
                                        (bi_quantity item) unitPrice
                                        (Some totalPrice) None
                     :: pushed)
            end
      end
  end.

(** The schema defaults of [payment] when the caller gives none; the
    missing [amount] is filled by the middleware whatever it starts as. *)
Definition defaultPayment : Transaction.Payment :=
  Transaction.mkPayment "cash" None 0 Transaction.Pay.pending
                        Transaction.NoDetails None None None.

Definition quickCheckout (env : Env) (user : option User) (body : Body)
    (w : World) : Response * World :=
  match pharmacyOf user with
  | None => (fail 401 "Unauthorized: user not found", w)
  | Some pharmacyId =>
  let transactionType := orElse (b_transactionType body) "sale" in
  let discount := orElse (b_discount body) 0 in
  let deliveryOption := orElse (b_deliveryOption body) "pickup" in
  if (length (b_items body) =? 0)%nat
  then (fail 400 "No items provided for checkout", w) else
  match prepareItems transactionType (medicines w) (b_items body) with
  | inl failure => (failure, w)
  | inr transactionItems =>
  let totals :=
    calculateTotal (addresses w) transactionItems deliveryOption
                   (b_deliveryAddressId body) None in
  let totalAmount :=
    Math_max 0 (subtotal totals + tax totals - discount + deliveryFee totals) in
  (* Process payment *)
  let '(paymentResult, w1) :=
    payIfAsked env user true (b_paymentType body) (b_paymentMethodId body)
               totalAmount w in
  match paymentResult with
  | Some (mkPaymentResult false _ m) => (mkResponse 400 false m None, w1)
  | _ =>
  let '(transactionNumber, counters') :=
    generateTransactionNumber transactionType (counters w1) in
  let w2 := set_counters counters' w1 in
  let transaction :=
    Transaction.mk true pharmacyId transactionType None
      (Some transactionNumber)
      (Some (generateTransactionRef (refDraw env)))
      (b_description body) transactionItems
      (subtotal totals) (Some (tax totals)) (Some discount) totalAmount
      (match paymentResult with
       | Some r => paymentOf env (b_paymentType body) (b_paymentMethodId body)
                             totalAmount r
       | None => defaultPayment
       end)
      Transaction.completed (now env) []
      (if String.eqb deliveryOption "delivery"
       then deliveryAddress totals else None)
      deliveryOption
      (if String.eqb deliveryOption "delivery"
       then "pending" else "not_applicable")
      (Some (deliveryFee totals)) None None 0 0 in
  match saveTransaction env (freshId env) transaction w2 with
  | (Err _, w3) => (fail 500 "Error during quick checkout", w3)
  | (Ok saved, w3) =>
  let w4 :=
    if String.eqb transactionType "sale"
    then set_medicines
           (decrementStock
              (map (fun item => (bi_medicineId item, bi_quantity item))
                   (b_items body))
              (medicines w3))
           w3
    else w3 in
  (mkResponse 201 true (Some "Quick checkout completed successfully")
              (transactions w4 !! freshId env),
   w4)
  end end end end.

End Handlers.

End Checkout.

(** ** Sample documents *)

Module Samples.
Import Transaction.

(** A completed sale whose payment is marked failed. *)
Definition failed_after_completion : t :=
  mk false "ph1" "sale" (Some "TXN-A-B") (Some "SAL00000001")
     (Some "REF-A-B") None
     [mkItem "m1" "Aspirin" 1 10 (Some 10) None]
     10 None None 10
     (mkPayment "card" None 10 Pay.failed NoDetails None None None)
     completed 0 [] None "pickup" "pending" None (Some "u1") None 0 0.

(** A completed, paid sale of 100 with nothing refunded, made at time 0. *)
Definition paid_100 : t :=
  mk false "ph1" "sale" (Some "TXN-A-B") (Some "SAL00000001")
     (Some "REF-A-B") None
     [mkItem "m1" "Aspirin" 10 10 (Some 100) None]
     100 None None 100
     (mkPayment "cash" None 100 Pay.completed NoDetails (Some 0%Z) None None)
     completed 0 [] None "pickup" "pending" None (Some "u1") None 0 0.

(** The same sale once delivered. *)
Definition delivered_sale : t :=
  mk false "ph1" "sale" (Some "TXN-A-B") (Some "SAL00000001")
     (Some "REF-A-B") None
     [mkItem "m1" "Aspirin" 10 10 (Some 100) None]
     100 None None 100
     (mkPayment "cash" None 100 Pay.completed NoDetails (Some 0%Z) None None)
     completed 0 [] None "delivery" "delivered" (Some 5) (Some "u1") None 0 0.

Definition refund_60 : RefundData := mkRefundData 60 "damaged" "cash" "u1".

(** A new pending sale of two lines with stale totals, a tax of 2, a
    discount of 1 and a delivery fee of 5. *)
Definition unsaved_sale : t :=
  mk true "ph1" "sale" None None None None
     [mkItem "m1" "Aspirin" 2 10 (Some 20) (Some 6);
      mkItem "m2" "Zinc" 1 5 (Some 5) None]
     0 (Some 2) (Some 1) 0
     (mkPayment "cash" None 999 Pay.pending NoDetails None None None)
     pending 0 [] None "delivery" "pending" (Some 5) (Some "u1") None 0 0.

Definition env0 : Env :=
  mkEnv 1000 (fun _ => mkDraw "LX1" "AB12CD") (fun _ => mkDraw "LX2" "EF34GH").

End Samples.

Module CartSamples.
Import Cart.

Definition empty_cart : t :=
  mk (Some "ph1") "sale" [] 0 0 0 "cash" active 100000 0
     (mkDiscount 0 "fixed" "") 0 0.

(** Item A: 2 at 10.00; item B: 1 at 5.00. *)
Definition item_A : ItemData := mkItemData "m1" "Aspirin" 2 10 None.
Definition item_B : ItemData := mkItemData "m2" "Zinc" 1 5 None.

(** The cart after item A was added at time 1000. *)
Definition c1_sample : t :=
  mk (Some "ph1") "sale"
     [mkItem "i1" "m1" "Aspirin" 2 10 (inject_Z 2 * 10) None (Some "ph1")]
     (0 + inject_Z 2 * 10) 1 2 "cash" active 100000 1000
     (mkDiscount 0 "fixed" "") 0
     (0 + inject_Z 2 * 10 - 0 + 0).

(** A cart holding one line, with a tax of 5 and a fixed discount of 5. *)
Definition taxed_discounted_cart : t :=
  mk (Some "ph1") "sale"
     [mkItem "i1" "m1" "Aspirin" 2 10 20 None (Some "ph1")]
     20 1 2 "cash" active 100000 0
     (mkDiscount 5 "fixed" "loyalty") 5 20.

(** The same cart with a tax of 2 and no discount. *)
Definition taxed_cart : t :=
  mk (Some "ph1") "sale"
     [mkItem "i1" "m1" "Aspirin" 2 10 20 None (Some "ph1")]
     20 1 2 "cash" active 100000 0
     (mkDiscount 0 "fixed" "") 2 22.

End CartSamples.

Module CheckoutSamples.
Import Checkout.

(** A pending sale of one Aspirin at 10.00, already persisted. *)
Definition pending_sale : Transaction.t :=
  Transaction.mk false "ph1" "sale" (Some "TXN-A-B") (Some "SAL00000001")
     (Some "REF-A-B") None
     [Transaction.mkItem "m1" "Aspirin" 1 10 (Some 10) None]
     10 None None 10
     (Transaction.mkPayment "cash" None 10 Transaction.Pay.pending
        Transaction.NoDetails None None None)
     Transaction.pending 0 [] None "pickup" "pending" None (Some "u1") None 0 0.

(** The same sale asking for two Aspirin. *)
Definition pending_sale_of_two : Transaction.t :=
  Transaction.mk false "ph1" "sale" (Some "TXN-A-B") (Some "SAL00000001")
     (Some "REF-A-B") None
     [Transaction.mkItem "m1" "Aspirin" 2 10 (Some 20) None]
     20 None None 20
     (Transaction.mkPayment "cash" None 20 Transaction.Pay.pending
        Transaction.NoDetails None None None)
     Transaction.pending 0 [] None "pickup" "pending" None (Some "u1") None 0 0.

(** Seven Aspirin in stock and the pending sale of one. *)
Definition world0 : World :=
  mkWorld {[ "m1" := mkMedicine "Aspirin" 10 7 ]}
          {[ "t1" := pending_sale ]}
          ∅ ∅ ∅ ∅ [].

(** One Aspirin in stock and the pending sale of two. *)
Definition world_short : World :=
  mkWorld {[ "m1" := mkMedicine "Aspirin" 10 1 ]}
          {[ "t1" := pending_sale_of_two ]}
          ∅ ∅ ∅ ∅ [].

Definition env0 : Env :=
  mkEnv 5000 (1 # 2) "k3j9x2a1b" (Transaction.mkDraw "lx9" "q1w2e3")
        Samples.env0 "t2".

(** A request whose draw of [Math.random] makes the card gateway decline. *)
Definition env_declined : Env :=
  mkEnv 5000 (1 # 100) "k3j9x2a1b" (Transaction.mkDraw "lx9" "q1w2e3")
        Samples.env0 "t2".

Definition user0 : option User := Some (mkUser (Some "ph1") (Some "u1") "u1").

(** Cash, home delivery, a discount of 5. *)
Definition body_cash_discount : Body :=
  mkBody None None [] (Some "cash") None (Some 5) (Some "delivery") None None.

(** The same as a quick checkout of one Aspirin. *)
Definition body_quick_cash_discount : Body :=
  mkBody None None [mkBodyItem "m1" 1 None] (Some "cash") None (Some 5)
         (Some "delivery") None None.

(** Card, pickup, no discount. *)
Definition body_card : Body :=
  mkBody None None [mkBodyItem "m1" 1 None] (Some "card") None None None None
         None.

Definition helper0 (type : string) (c : gmap string N) : string * gmap string N :=
  ("SAL00000002", c).

End CheckoutSamples.

(** ** Virtual fields of a transaction *)

Module Virtuals.
Import Transaction.

(** [amountDue]; [payment.amount || 0] is [payment.amount] on a number. *)
Definition amountDue (x : t) : Q :=
  Math_max 0 (totalAmount x - amount (payment x)).

(** [isPaid] *)
Definition isPaid (x : t) : bool :=
  pay_eqb (p_status (payment x)) Pay.completed
  && Qle_bool (totalAmount x) (amount (payment x)).

Definition msPerDay : Z := 1000 * 60 * 60 * 24.

(** [ageInDays]: [Math.floor] of the quotient by a positive number is the
    floored division of [Z]. *)
Definition ageInDays (now : Date) (x : t) : Z :=
  ((now - transactionDate x) / msPerDay)%Z.

End Virtuals.

(** ** Vocabulary for the cart middleware *)

Module CartViews.
Import Cart.

(** A line as the item middleware leaves it. *)
Definition repriced (i : Item) : Item :=
  set_totalPrice (inject_Z (quantity i) * unitPrice i) i.

(** A line whose expiry date is not after [now]. *)
Definition expired (now : Date) (i : Item) : bool :=
  match expiryDate i with
  | Some d => (d <=? now)%Z
  | None => false
  end.

End CartViews.

Module CartSamples2.
Import Cart.


(** Two lines: Aspirin (2 at 10.00) and Zinc (1 at 5.00). *)
Definition two_line_cart : t :=
  mk (Some "ph1") "sale"
     [mkItem "i1" "m1" "Aspirin" 2 10 20 None (Some "ph1");
      mkItem "i2" "m2" "Zinc" 1 5 5 None (Some "ph1")]
     25 2 3 "cash" active 100000 0
     (mkDiscount 0 "fixed" "") 0 25.

End CartSamples2.

(** ** Vocabulary for the checkout *)

Module CheckoutViews.
Import Checkout.

(** The quantity the lines ask of one medicine, all its lines together. *)
Definition asked (lines : list (ObjectId * Z)) (medicineId : ObjectId) : Z :=
  Zsum (map snd (List.filter (fun line => String.eqb (fst line) medicineId)
                             lines)).

(** A line of a quick checkout that the item loop lets through: its
    medicine resolves and, for a sale, holds the quantity asked. *)
Definition accepted (transactionType : string)
    (meds : gmap ObjectId Medicine) (item : BodyItem) : Prop :=
  exists medicine,
    meds !! bi_medicineId item = Some medicine
    /\ (transactionType = "sale" ->
        (bi_quantity item <= m_quantity medicine)%Z).

(** The unit price a quick-checkout line is sold at: the one given,
    unless it is missing or 0, in which case the catalog price. *)
Definition priceOf (medicine : Medicine) (item : BodyItem) : Q :=
  match bi_unitPrice item with
  | Some p => if Qeq_bool p 0 then m_price medicine else p
  | None => m_price medicine
  end.

End CheckoutViews.

(** ** controllers/checkoutController.js: payment and delivery of an
    existing transaction *)

Module CheckoutLater.
Import Checkout.

(** [`${transaction.status}`] *)
Definition statusName (s : Transaction.Status) : string :=
  match s with
  | Transaction.draft => "draft"
  | Transaction.pending => "pending"
  | Transaction.completed => "completed"
  | Transaction.cancelled => "cancelled"
  | Transaction.refunded => "refunded"
  | Transaction.partially_refunded => "partially_refunded"
  | Transaction.on_hold => "on_hold"
  end.

(** [req.body] of [processPayment]. *)
Record PaymentBody := mkPaymentBody {
  pb_transactionId : option ObjectId;
  pb_paymentType : option string;
  pb_paymentMethodId : option ObjectId
}.

(** [req.body] of [updateDeliveryOption]. *)
Record DeliveryBody := mkDeliveryBody {
  db_transactionId : ObjectId;
  db_deliveryOption : string;
  db_deliveryAddressId : option ObjectId
}.

(** [['pending', 'draft'].includes(status)] *)
Definition payable (s : Transaction.Status) : bool :=
  match s with
  | Transaction.pending | Transaction.draft => true
  | _ => false
  end.

(** [m || 'Payment failed'] *)
Definition orPaymentFailed (m : option string) : string :=
  match m with
  | Some s => if String.eqb s "" then "Payment failed" else s
  | None => "Payment failed"
  end.

(** The fields [processPayment] writes before saving.  [transactionDate]
    always holds a date here, so its [if (!transactionDate)] never fires. *)
Definition applyPayment (env : Env) (body : PaymentBody) (amount : Q)
    (r : PaymentResult) (x : Transaction.t) : Transaction.t :=
  let x1 :=
    Transaction.set_status Transaction.completed
      (Transaction.set_payment
         (paymentOf env (pb_paymentType body)
            (match pb_paymentMethodId body with
             | Some i => if String.eqb i "" then None else Some i
             | None => None
             end)
            amount r)
         x) in
  if falsyStr (Transaction.transactionRef x1)
  then Transaction.set_transactionRef
         (Some (generateTransactionRef (refDraw env))) x1
  else x1.

Section Handlers.

Variable validateTransaction : Transaction.t -> bool.
Variable validateCart : Cart.t -> bool.

Definition processPayment (env : Env) (user : option User)
    (body : PaymentBody) (w : World) : Response * World :=
  match pb_transactionId body with
  | None => (fail 400 "transactionId is required", w)
  | Some transactionId =>
  if String.eqb transactionId ""
  then (fail 400 "transactionId is required", w) else
  match transactions w !! transactionId with
  | None => (fail 404 "Transaction not found", w)
  | Some transaction =>
  if negb (payable (Transaction.status transaction))
  then (fail 400 ("Cannot process payment for transaction with status: "
                  ++ statusName (Transaction.status transaction)), w)
  else
  (* transaction.totalAmount ?? totals.total: the stored total is a number *)
  let amount := Transaction.totalAmount transaction in
  let type := orElse (pb_paymentType body) "" in
  let paymentMethodDoc :=
    findPaymentMethod w (pb_paymentMethodId body)
                      (match user with Some u => u_id u | None => "" end) in
  let paymentResult := processPaymentByType env type amount paymentMethodDoc in
  let w1 := log_dispatch type amount w in
  if negb (pr_success paymentResult)
  then (mkResponse 400 false
          (Some (orPaymentFailed (pr_message paymentResult))) None, w1)
  else
  match saveTransaction validateTransaction env transactionId
          (applyPayment env body amount paymentResult transaction) w1 with
  | (Err _, w2) => (fail 500 "Server error processing payment", w2)
  | (Ok saved, w2) =>
  let w3 :=
    if String.eqb (Transaction.transactionType saved) "sale"
    then set_medicines
           (decrementStock (lines_of (Transaction.items saved)) (medicines w2))
           w2
    else w2 in
  match clearActiveCart validateCart env (Transaction.pharmacyId saved)
                        (Transaction.transactionType saved) w3 with
  | Err _ => (fail 500 "Server error processing payment", w3)
  | Ok w4 =>
      (mkResponse 200 true (Some "Payment processed successfully")
                  (transactions w4 !! transactionId),
       w4)
  end end end end.

(** [Transaction.findOne({ _id, status: { $in: ['pending', 'draft'] } })] *)
Definition findEditable (w : World) (transactionId : ObjectId)
    : option Transaction.t :=
  match transactions w !! transactionId with
  | Some x => if payable (Transaction.status x) then Some x else None
  | None => None
  end.

(** The fields [updateDeliveryOption] writes before saving. *)
Definition applyDelivery (body : DeliveryBody) (totals : Totals)
    (x : Transaction.t) : Transaction.t :=
  let resolved :=
    if String.eqb (db_deliveryOption body) "delivery"
    then deliveryAddress totals else None in
  Transaction.mk
    (Transaction.isNew x) (Transaction.pharmacyId x)
    (Transaction.transactionType x) (Transaction.transactionId x)
    (Transaction.transactionNumber x) (Transaction.transactionRef x)
    (Transaction.description x) (Transaction.items x)
    (subtotal totals) (Some (tax totals)) (Transaction.discount x)
    (Math_max 0 (subtotal totals + tax totals
                 - orZero (Transaction.discount x) + deliveryFee totals))
    (Transaction.payment x) (Transaction.status x)
    (Transaction.transactionDate x) (Transaction.refunds x)
    resolved
    (db_deliveryOption body)
    (match resolved with Some _ => "pending" | None => "not_applicable" end)
    (Some (deliveryFee totals))
    (Transaction.createdBy x) (Transaction.updatedBy x)
    (Transaction.profit x) (Transaction.marginPercentage x).

Definition updateDeliveryOption (env : Env) (body : DeliveryBody) (w : World)
    : Response * World :=
  match findEditable w (db_transactionId body) with
  | None => (fail 404 "Transaction not found or not editable", w)
  | Some transaction =>
      let totals :=
        calculateTotal (addresses w) (Transaction.items transaction)
                       (db_deliveryOption body) (db_deliveryAddressId body)
                       None in
      match saveTransaction validateTransaction env (db_transactionId body)
              (applyDelivery body totals transaction) w with
      | (Err _, w1) => (fail 500 "Error updating delivery option", w1)
      | (Ok saved, w1) =>
          (mkResponse 200 true (Some "Delivery option updated successfully")
                      (transactions w1 !! db_transactionId body),
           w1)
      end
  end.

End Handlers.

(** The fields of the owner and of the delivery, which no step of a save
    writes. *)
Definition routing (x : Transaction.t)
    : ObjectId * string * option ObjectId * string * string :=
  (Transaction.pharmacyId x, Transaction.transactionType x,
   Transaction.deliveryAddress x, Transaction.deliveryOption x,
   Transaction.deliveryStatus x).

End CheckoutLater.

(** ** models/Transaction.js: the enum of [deliveryStatus] *)

Module TransactionSchema.

Definition deliveryStatusEnum : list string :=
  ["pending"; "confirmed"; "preparing"; "out_for_delivery"; "delivered";
   "cancelled"; "failed"].

(** The enum validator of the [deliveryStatus] path, one of the checks
    schema validation makes on a document whose path was written. *)
Definition deliveryStatusValid (x : Transaction.t) : bool :=
  Transaction.includes deliveryStatusEnum (Transaction.deliveryStatus x).

End TransactionSchema.

(** ** controllers/salesController.js: the two sale handlers *)

Module Sales.
Import Checkout.

(** [req.body] of both handlers; [sb_items] is read by
    [processPerMedicineSale] only. *)
Record SaleBody := mkSaleBody {
  sb_items : option (list BodyItem);
  sb_paymentMethod : option string;
  sb_tax : option Q;
  sb_discount : option Q;
  sb_deliveryOption : option string;
  sb_deliveryAddressId : option ObjectId;
  sb_description : option string
}.

(** [!req.user || !req.user._id] guards the handler; what it lets through
    is [req.user._id] with [req.user.pharmacyId || req.user._id]. *)
Definition authorised (user : option User) : option (ObjectId * ObjectId) :=
  match user with
  | Some u =>
      match u__id u with
      | Some i =>
          if String.eqb i "" then None
          else Some (i, match u_pharmacyId u with
                        | Some p => if String.eqb p "" then i else p
                        | None => i
                        end)
      | None => None
      end
  | None => None
  end.

(** The filter [{ pharmacyId, status: 'active' }]. *)
Definition activeCartOf (pharmacyId : ObjectId) (c : Cart.t) : bool :=
  bool_decide (Cart.pharmacyId c = Some pharmacyId)
  && match Cart.status c with Cart.active => true | _ => false end.

(** The loop of [processFullSale] over the lines of the cart: the first
    line that fails ends the request, the others are pushed with the price
    and the total the cart holds. *)
Fixpoint cartLines (meds : gmap ObjectId Medicine) (items : list Cart.Item)
    : Response + list Transaction.Item :=
  match items with
  | [] => inr []
  | cartItem :: rest =>
      match meds !! Cart.medicineId cartItem with
      | None =>
          inl (fail 404 ("Medicine " ++ Cart.medicineName cartItem
                         ++ " not found"))
      | Some medicine =>
          if (m_quantity medicine <? Cart.quantity cartItem)%Z
          then inl (fail 400 ("Insufficient stock for " ++ m_name medicine
                              ++ ". Available: "
                              ++ String_ofZ (m_quantity medicine)))
          else
            match cartLines meds rest with
            | inl failure => inl failure
            | inr pushed =>
                inr (Transaction.mkItem (Cart.medicineId cartItem)
                       (m_name medicine) (Cart.quantity cartItem)
                       (Cart.unitPrice cartItem)
                       (Some (Cart.totalPrice cartItem)) None
                     :: pushed)
            end
      end
  end.

(** [`TXN-${Date.now()}-${Math.random().toString(36).substr(2, 9)}`
    .toUpperCase()] *)
Definition saleRef (env : Env) : string :=
  Transaction.toUpperCase
    ("TXN-" ++ String_ofZ (now env) ++ "-" ++ randomText env).

(** The document both handlers build.  Every pushed line has its
    [totalPrice].  [deliveryStatus] is written for a delivery only and has
    the schema default ['pending'] otherwise; [deliveryAddress] is the id
    of the request, which is not looked up.  [customerInfo], [saleType]
    and [paymentMethod] are read by no rule here and are left out. *)
Definition saleDocument (env : Env) (userId pharmacyId : ObjectId)
    (body : SaleBody) (defaultDescription : string)
    (transactionItems : list Transaction.Item) (transactionNumber : string)
    : Transaction.t :=
  let tax := orElse (sb_tax body) 0 in
  let discount := orElse (sb_discount body) 0 in
  let deliveryOption := orElse (sb_deliveryOption body) "pickup" in
  let subtotal :=
    fold_left (fun sum item => sum + orZero (Transaction.totalPrice item))
              transactionItems 0 in
  let deliveryFee :=
    if String.eqb deliveryOption "delivery" then 5.00 else 0 in
  let totalAmount := Math_max 0 (subtotal + tax + deliveryFee - discount) in
  Transaction.mk true pharmacyId "sale" None
    (Some transactionNumber) (Some (saleRef env))
    (Some (orElse (sb_description body) defaultDescription))
    transactionItems subtotal (Some tax) (Some discount) totalAmount
    (Transaction.mkPayment
       (match sb_paymentMethod body with
        | Some m => if String.eqb m "" then "cash" else m
        | None => "cash"
        end)
       None totalAmount Transaction.Pay.pending Transaction.NoDetails
       None None None)
    Transaction.completed (now env) []
    (if String.eqb deliveryOption "delivery"
     then match sb_deliveryAddressId body with
          | Some a => if String.eqb a "" then None else Some a
          | None => None
          end
     else None)
    deliveryOption "pending" (Some deliveryFee)
    (Some userId) None 0 0.

Section Handlers.

Variable validateTransaction : Transaction.t -> bool.
Variable validateCart : Cart.t -> bool.

(** [generateTransactionNumber] of [utils/helpers], which is not among the
    sources: taken as given, with whatever it does to the sequence store. *)
Variable generateTransactionNumber :
  string -> gmap string N -> string * gmap string N.

(** From [generateTransactionNumber('sale')] to the stock update, which
    both handlers share; an [Err] is what the handler's [catch] sees. *)
Definition recordSale (env : Env) (userId pharmacyId : ObjectId)
    (body : SaleBody) (defaultDescription : string)
    (transactionItems : list Transaction.Item) (w : World)
    : Result Transaction.t * World :=
  let '(transactionNumber, counters') :=
    generateTransactionNumber "sale" (counters w) in
  let w1 := set_counters counters' w in
  match saveTransaction validateTransaction env (freshId env)
          (saleDocument env userId pharmacyId body defaultDescription
                        transactionItems transactionNumber)
          w1 with
  | (Err m, w2) => (Err m, w2)
  | (Ok saved, w2) =>
      (Ok saved,
       set_medicines (decrementStock (lines_of transactionItems) (medicines w2))
                     w2)
  end.

Definition processFullSale (env : Env) (user : option User) (body : SaleBody)
    (w : World) : Response * World :=
  match authorised user with
  | None => (fail 401 "Unauthorized", w)
  | Some (userId, pharmacyId) =>
  match findOne (activeCartOf pharmacyId) (carts w) with
  | None => (fail 400 "Cart is empty", w)
  | Some (cid, cart) =>
  if (length (Cart.items cart) =? 0)%nat
  then (fail 400 "Cart is empty", w) else
  match cartLines (medicines w) (Cart.items cart) with
  | inl failure => (failure, w)
  | inr transactionItems =>
  match recordSale env userId pharmacyId body "Full sale transaction"
                   transactionItems w with
  | (Err _, w2) => (fail 500 "Error processing full sale", w2)
  | (Ok saved, w3) =>
  match Cart.clearCart validateCart (now env) cart with
  | Err _ => (fail 500 "Error processing full sale", w3)
  | Ok cart' =>
      let w4 := set_carts (<[cid := cart']> (carts w3)) w3 in
      (mkResponse 201 true (Some "Full sale completed successfully")
                  (transactions w4 !! freshId env),
       w4)
  end end end end end.

Definition processPerMedicineSale (env : Env) (user : option User)
    (body : SaleBody) (w : World) : Response * World :=
  match authorised user with
  | None => (fail 401 "Unauthorized", w)
  | Some (userId, pharmacyId) =>
  match sb_items body with
  | None | Some [] => (fail 400 "No items provided for sale", w)
  | Some items =>
  match prepareItems "sale" (medicines w) items with
  | inl failure => (failure, w)
  | inr transactionItems =>
  match recordSale env userId pharmacyId body "Per medicine sale"
                   transactionItems w with
  | (Err _, w2) => (fail 500 "Error processing per-medicine sale", w2)
  | (Ok saved, w3) =>
      (mkResponse 201 true (Some "Per-medicine sale completed successfully")
                  (transactions w3 !! freshId env),
       w3)
  end end end end.

End Handlers.

End Sales.

Module SalesSamples.
Import Checkout Sales.

(** Seven Aspirin in stock and an active cart holding two of them. *)
Definition world_cart : World :=
  mkWorld {[ "m1" := mkMedicine "Aspirin" 10 7 ]} ∅
          {[ "c1" := CartSamples.taxed_cart ]} ∅ ∅ ∅ [].

(** Seven Aspirin in stock, the pending sale of one and a known address. *)
Definition world_address : World :=
  mkWorld {[ "m1" := mkMedicine "Aspirin" 10 7 ]}
          {[ "t1" := CheckoutSamples.pending_sale ]}
          ∅ {[ "a1" ]} ∅ ∅ [].

(** A pickup with a tax of 2 and a discount of 1. *)
Definition body_sale : SaleBody :=
  mkSaleBody None None (Some 2) (Some 1) None None None.

(** The same for two lines of five Aspirin each. *)
Definition body_sale_twice : SaleBody :=
  mkSaleBody (Some [mkBodyItem "m1" 5 None; mkBodyItem "m1" 5 None])
             None (Some 2) (Some 1) None None None.

End SalesSamples.

(** ** controllers/paymentMethodController.js: deleting a method and
    choosing the default *)

Module PaymentMethods.
Import Checkout.

(** A stored [PaymentMethod]: what the checkout reads of it, and the
    [isDefault] flag. *)
Record Doc := mkDoc {
  doc : PaymentMethodDoc;
  isDefault : bool
}.

Definition userId (d : Doc) : ObjectId := pm_userId (doc d).
Definition isActive (d : Doc) : bool := pm_isActive (doc d).

Definition set_isDefault (b : bool) (d : Doc) : Doc := mkDoc (doc d) b.

Definition set_isActive (b : bool) (d : Doc) : Doc :=
  mkDoc (mkPaymentMethodDoc (pm_userId (doc d)) b (pm_cardLastFour (doc d))
           (pm_bankName (doc d)) (pm_accountNumber (doc d))
           (pm_walletProvider (doc d)) (pm_phoneNumber (doc d)))
        (isDefault d).

(** [res.status(code).json({ success, message, data })] *)
Record Reply := mkReply {
  r_code : nat;
  r_success : bool;
  r_message : string;
  r_data : option Doc
}.

(** [PaymentMethod.updateMany({ userId, isDefault: true },
    { isDefault: false })] *)
Definition unsetDefaults (user : ObjectId) (s : gmap ObjectId Doc)
    : gmap ObjectId Doc :=
  (fun d => if String.eqb (userId d) user && isDefault d
            then set_isDefault false d else d) <$> s.

(** [PaymentMethod.findOneAndUpdate({ _id: id, userId }, update,
    { new: true })] *)
Definition findOneAndUpdate (id user : ObjectId) (update : Doc -> Doc)
    (s : gmap ObjectId Doc) : option Doc * gmap ObjectId Doc :=
  match s !! id with
  | Some d =>
      if String.eqb (userId d) user
      then (Some (update d), <[id := update d]> s)
      else (None, s)
  | None => (None, s)
  end.

(** [req.user.id] throws when there is no user, which the [catch] of each
    handler answers with 500. *)
Definition deletePaymentMethod (user : option User) (id : ObjectId)
    (s : gmap ObjectId Doc) : Reply * gmap ObjectId Doc :=
  match user with
  | None => (mkReply 500 false "Error deleting payment method" None, s)
  | Some u =>
      match findOneAndUpdate id (u_id u) (set_isActive false) s with
      | (None, s') =>
          (mkReply 404 false "Payment method not found" None, s')
      | (Some _, s') =>
          (mkReply 200 true "Payment method deleted successfully" None, s')
      end
  end.

Definition setDefaultPaymentMethod (user : option User) (id : ObjectId)
    (s : gmap ObjectId Doc) : Reply * gmap ObjectId Doc :=
  match user with
  | None => (mkReply 500 false "Error setting default payment method" None, s)
  | Some u =>
      (* Unset all other default payment methods *)
      let s1 := unsetDefaults (u_id u) s in
      (* Set new default *)
      match findOneAndUpdate id (u_id u) (set_isDefault true) s1 with
      | (None, s2) =>
          (mkReply 404 false "Payment method not found" None, s2)
      | (Some paymentMethod, s2) =>
          (mkReply 200 true "Default payment method updated successfully"
                   (Some paymentMethod),
           s2)
      end
  end.

(** The collection as the checkout sees it. *)
Definition stored (s : gmap ObjectId Doc) (w : World) : World :=
  mkWorld (medicines w) (transactions w) (carts w) (addresses w)
          (doc <$> s) (counters w) (dispatched w).

End PaymentMethods.

Module PaymentMethodSamples.
Import Checkout PaymentMethods.

(** Two cards of user u1, the first the default, and a wallet of u2. *)
Definition methods0 : gmap ObjectId Doc :=
  {[ "p1" := mkDoc (mkPaymentMethodDoc "u1" true (Some "4242") None None
                                       None None) true;
     "p2" := mkDoc (mkPaymentMethodDoc "u1" true (Some "1881") None None
                                       None None) false;
     "p3" := mkDoc (mkPaymentMethodDoc "u2" true None None None
                                       (Some "vodafone_cash")
                                       (Some "0100")) true ]}.

End PaymentMethodSamples.

(** * Properties *)

(** ** Arithmetic and folds *)

Lemma Qltb_lt x y : Qltb x y = true <-> x < y.
Proof.
  unfold Qltb. rewrite negb_true_iff, <- not_true_iff_false, Qle_bool_iff.
  split; [apply Qnot_le_lt | apply Qlt_not_le].
Qed.

Lemma Qltb_ge x y : Qltb x y = false <-> y <= x.
Proof.
  unfold Qltb. rewrite negb_false_iff. apply Qle_bool_iff.
Qed.

Lemma fold_left_Qplus_acc {A} (f : A -> Q) (l : list A) (a : Q) :
  fold_left (fun acc x => acc + f x) l a == a + Qsum (map f l).
Proof.
  revert a. induction l as [|x l IH]; intros a; simpl.
  - lra.
  - rewrite IH. lra.
Qed.

Lemma fold_left_Qsum {A} (f : A -> Q) (l : list A) :
  fold_left (fun acc x => acc + f x) l 0 == Qsum (map f l).
Proof. rewrite fold_left_Qplus_acc. lra. Qed.

Lemma fold_left_Zplus_acc {A} (f : A -> Z) (l : list A) (a : Z) :
  fold_left (fun acc x => (acc + f x)%Z) l a = (a + Zsum (map f l))%Z.
Proof.
  revert a. induction l as [|x l IH]; intros a; simpl.
  - lia.
  - rewrite IH. lia.
Qed.

Lemma fold_left_Zsum {A} (f : A -> Z) (l : list A) :
  fold_left (fun acc x => (acc + f x)%Z) l 0%Z = Zsum (map f l).
Proof. rewrite fold_left_Zplus_acc. lia. Qed.

(** ** Decimal text of a counter *)

Module NumberText.
Import Decimal.

Lemma string_of_uint_length d :
  String.length (NilEmpty.string_of_uint d) = nb_digits d.
Proof. induction d; cbn; congruence. Qed.

Lemma of_uint_acc_lower d acc :
  (Z.pos acc * 10 ^ Z.of_nat (nb_digits d) <= Z.pos (Pos.of_uint_acc d acc))%Z.
Proof.
  revert acc. induction d; intros acc; cbn [Pos.of_uint_acc nb_digits];
    [ change (10 ^ Z.of_nat 0)%Z with 1%Z; lia | .. ];
    rewrite Nat2Z.inj_succ, Z.pow_succ_r by lia;
    (etransitivity; [|apply IHd]);
    assert (0 <= 10 ^ Z.of_nat (nb_digits d))%Z by (apply Z.pow_nonneg; lia);
    nia.
Qed.

Lemma nzhead_not_D0 d u : nzhead d <> D0 u.
Proof. induction d; cbn; try discriminate. exact IHd. Qed.

Lemma of_uint_lower d :
  nzhead d = d -> d <> Nil ->
  (10 ^ Z.of_nat (nb_digits d - 1) <= Z.of_N (N.of_uint d))%Z.
Proof.
  intros Hn Hd. destruct d; try congruence;
    try (cbn [N.of_uint Pos.of_uint nb_digits Z.of_N];
         rewrite Nat.sub_succ, Nat.sub_0_r;
         etransitivity; [|apply of_uint_acc_lower];
         assert (0 <= 10 ^ Z.of_nat (nb_digits d))%Z by (apply Z.pow_nonneg; lia);
         nia).
  exfalso. exact (nzhead_not_D0 _ _ Hn).
Qed.

Lemma to_uint_normal n : unorm (N.to_uint n) = N.to_uint n.
Proof.
  rewrite <- (DecimalN.Unsigned.to_of (N.to_uint n)).
  now rewrite DecimalN.Unsigned.of_to.
Qed.

Lemma to_uint_digits n :
  (n < 10 ^ 8)%N -> (nb_digits (N.to_uint n) <= 8)%nat.
Proof.
  intros Hn. pose proof (to_uint_normal n) as U.
  unfold unorm in U. destruct (nzhead (N.to_uint n)) eqn:E;
    try (rewrite <- U; cbn; lia);
    try (exfalso; exact (nzhead_not_D0 _ _ E)).
  all: rewrite U in E;
    pose proof (of_uint_lower (N.to_uint n) E) as L;
    rewrite DecimalN.Unsigned.of_to in L;
    assert (N.to_uint n <> Nil) as NE by (rewrite <- U; discriminate);
    specialize (L NE);
    assert (Z.of_N n < 10 ^ 8)%Z as B by (change (10 ^ 8)%Z with (Z.of_N (10 ^ 8)); lia);
    assert (Z.of_nat (nb_digits (N.to_uint n) - 1) < 8)%Z
      by (apply (Z.pow_lt_mono_r_iff 10); lia);
    lia.
Qed.

Lemma uint_of_string_zeros k s d :
  NilEmpty.uint_of_string s = Some d ->
  NilEmpty.uint_of_string (Transaction.repeatChar "0"%char k ++ s)
    = Some (Nat.iter k D0 d).
Proof.
  intros H. induction k as [|k IH]; cbn [Transaction.repeatChar Nat.iter].
  - exact H.
  - change (String "0"%char (Transaction.repeatChar "0"%char k) ++ s)
      with (String "0"%char (Transaction.repeatChar "0"%char k ++ s)).
    cbn [NilEmpty.uint_of_string]. rewrite IH. reflexivity.
Qed.

Lemma of_uint_zeros k d : N.of_uint (Nat.iter k D0 d) = N.of_uint d.
Proof. induction k as [|k IH]; [reflexivity|exact IH]. Qed.

Lemma repeatChar_length c k : String.length (Transaction.repeatChar c k) = k.
Proof. induction k; cbn; congruence. Qed.

Lemma append_length (a b : string) :
  String.length (a ++ b) = (String.length a + String.length b)%nat.
Proof.
  induction a as [|c a IH]; [reflexivity|].
  change (String c a ++ b) with (String c (a ++ b)).
  cbn [String.length Nat.add]. congruence.
Qed.

(** [String(counter).padStart(8, '0')] reads back as [counter], has at
    least 8 characters, and exactly 8 below 10^8. *)
Lemma padded_counter counter :
  let digits := Transaction.padStart0 8 (Transaction.String_of counter) in
  (exists d, NilEmpty.uint_of_string digits = Some d /\ N.of_uint d = counter)
  /\ (8 <= String.length digits)%nat
  /\ ((counter < 10 ^ 8)%N -> String.length digits = 8%nat).
Proof.
  unfold Transaction.padStart0, Transaction.String_of. cbv zeta.
  set (s := NilEmpty.string_of_uint (N.to_uint counter)).
  assert (Hs : String.length s = nb_digits (N.to_uint counter))
    by apply string_of_uint_length.
  split; [|split].
  - exists (Nat.iter (8 - String.length s) D0 (N.to_uint counter)). split.
    + apply uint_of_string_zeros, NilEmpty.usu.
    + rewrite of_uint_zeros. apply DecimalN.Unsigned.of_to.
  - rewrite append_length, repeatChar_length. lia.
  - intros H. apply to_uint_digits in H.
    rewrite append_length, repeatChar_length. lia.
Qed.

End NumberText.

(** ** Transaction *)

Module TransactionFacts.
Import Transaction Samples.

Lemma status_eqb_eq a b : status_eqb a b = true <-> a = b.
Proof. destruct a, b; simpl; split; congruence. Qed.

Lemma pay_eqb_eq a b : pay_eqb a b = true <-> a = b.
Proof. destruct a, b; simpl; split; congruence. Qed.

Lemma status_eqb_neq a b : status_eqb a b = false <-> a <> b.
Proof. destruct a, b; simpl; split; congruence. Qed.

Lemma pay_eqb_neq a b : pay_eqb a b = false <-> a <> b.
Proof. destruct a, b; simpl; split; congruence. Qed.

(** *** Delivery transitions *)

Ltac split_eqb s k :=
  destruct (String.eqb_spec k s) as [<-|?]; cbn [existsb orb].

(** C9. [validateDeliveryTransition] answers [true] exactly on the pairs
    pending->confirmed/cancelled, confirmed->preparing/cancelled,
    preparing->out_for_delivery/cancelled,
    out_for_delivery->delivered/failed/cancelled and failed->cancelled,
    and [false] on every other pair of a current and a requested status;
    so it refuses every self-transition and every move out of delivered
    or cancelled. *)
Theorem validateDeliveryTransition_table (x : t) (newStatus : string) :
  (validateDeliveryTransition x newStatus = true <->
     (deliveryStatus x = "pending"
        /\ (newStatus = "confirmed" \/ newStatus = "cancelled"))
     \/ (deliveryStatus x = "confirmed"
        /\ (newStatus = "preparing" \/ newStatus = "cancelled"))
     \/ (deliveryStatus x = "preparing"
        /\ (newStatus = "out_for_delivery" \/ newStatus = "cancelled"))
     \/ (deliveryStatus x = "out_for_delivery"
        /\ (newStatus = "delivered" \/ newStatus = "failed"
            \/ newStatus = "cancelled"))
     \/ (deliveryStatus x = "failed" /\ newStatus = "cancelled"))
  /\ validateDeliveryTransition x (deliveryStatus x) = false
  /\ (deliveryStatus x = "delivered" \/ deliveryStatus x = "cancelled" ->
      validateDeliveryTransition x newStatus = false).
Proof.
  unfold validateDeliveryTransition, validTransitions, includes.
  generalize (deliveryStatus x) as cur. intros cur.
  split; [|split].
  - split.
    + cbn [lookupKey existsb orb].
      split_eqb cur "pending".
      { split_eqb "confirmed" newStatus; [tauto|].
        split_eqb "cancelled" newStatus; [tauto|]. discriminate. }
      split_eqb cur "confirmed".
      { split_eqb "preparing" newStatus; [tauto|].
        split_eqb "cancelled" newStatus; [tauto|]. discriminate. }
      split_eqb cur "preparing".
      { split_eqb "out_for_delivery" newStatus; [tauto|].
        split_eqb "cancelled" newStatus; [tauto|]. discriminate. }
      split_eqb cur "out_for_delivery".
      { split_eqb "delivered" newStatus; [tauto|].
        split_eqb "failed" newStatus; [tauto|].
        split_eqb "cancelled" newStatus; [intuition|]. discriminate. }
      split_eqb cur "delivered"; [discriminate|].
      split_eqb cur "cancelled"; [discriminate|].
      split_eqb cur "failed".
      { split_eqb "cancelled" newStatus; [tauto|]. discriminate. }
      discriminate.
    + intros H.
      repeat match goal with
             | H : _ \/ _ |- _ => destruct H
             | H : _ /\ _ |- _ => destruct H
             end; subst; reflexivity.
  - cbn [lookupKey].
    repeat match goal with
           | |- context [String.eqb ?k cur] =>
               destruct (String.eqb_spec k cur) as [<-|?]; [reflexivity|]
           end.
    reflexivity.
  - intros [-> | ->]; reflexivity.
Qed.

Lemma validateDeliveryTransition_table_witness :
  validateDeliveryTransition paid_100 "confirmed" = true
  /\ validateDeliveryTransition paid_100 "pending" = false
  /\ validateDeliveryTransition delivered_sale "cancelled" = false.
Proof.
  split; [|split].
  - apply (proj1 (validateDeliveryTransition_table paid_100 "confirmed")).
    left. split; [reflexivity|left; reflexivity].
  - exact (proj1 (proj2 (validateDeliveryTransition_table paid_100 "pending"))).
  - apply (proj2 (proj2 (validateDeliveryTransition_table delivered_sale
                           "cancelled"))).
    left. reflexivity.
Defined.

(** *** Automatic status *)

(** C3, the case the code decides otherwise: a completed transaction
    whose payment is failed is put back to pending. *)
Lemma autoUpdateStatus_regresses_completed :
  status failed_after_completion = completed
  /\ p_status (payment failed_after_completion) = Pay.failed
  /\ status (autoUpdateStatus 1000 failed_after_completion) = pending.
Proof. repeat split. Qed.

(** C3, as the code has it.  The rule promotes pending to completed when
    the payment is completed, stamping [paidAt] if absent; it puts the
    status to pending and stamps [failedAt] when the payment is failed and
    the status is not cancelled, whatever else the status is, completed
    and refunded included; in every other case the document is left as it
    is, so a completed or refunded transaction keeps its status for every
    payment status but failed. *)
Theorem autoUpdateStatus_cases (now : Date) (x : t) :
  (p_status (payment x) = Pay.completed -> status x = pending ->
     status (autoUpdateStatus now x) = completed
     /\ paidAt (payment (autoUpdateStatus now x))
        = Some (orElse (paidAt (payment x)) now))
  /\ (p_status (payment x) = Pay.failed -> status x <> cancelled ->
     status (autoUpdateStatus now x) = pending
     /\ failedAt (payment (autoUpdateStatus now x)) = Some now)
  /\ (p_status (payment x) <> Pay.failed ->
      status x = completed \/ status x = refunded ->
      autoUpdateStatus now x = x)
  /\ (~ (p_status (payment x) = Pay.completed /\ status x = pending) ->
      ~ (p_status (payment x) = Pay.failed /\ status x <> cancelled) ->
      autoUpdateStatus now x = x).
Proof.
  unfold autoUpdateStatus.
  destruct x as [? ? ? ? ? ? ? ? ? ? ? ? [? ? ? ps ? ? ? ?] st ? ? ? ? ? ? ? ? ? ?].
  simpl. split; [|split; [|split]].
  - intros -> ->. split; reflexivity.
  - intros -> H. destruct st; simpl; try (split; reflexivity). congruence.
  - intros Hp [-> | ->]; destruct ps; simpl; try reflexivity; congruence.
  - intros H1 H2. destruct ps, st; simpl; try reflexivity;
      try (exfalso; apply H1; split; reflexivity);
      exfalso; apply H2; split; congruence.
Qed.

Lemma autoUpdateStatus_cases_witness :
  status (autoUpdateStatus 1000 failed_after_completion) = pending
  /\ failedAt (payment (autoUpdateStatus 1000 failed_after_completion))
     = Some 1000%Z.
Proof.
  apply (autoUpdateStatus_cases 1000 failed_after_completion).
  - reflexivity.
  - discriminate.
Defined.

(** *** Financial recompute *)

Lemma ledger_calculateProfit x : ledger (calculateProfit x) = ledger x.
Proof. reflexivity. Qed.

Lemma ledger_autoUpdateStatus now x : ledger (autoUpdateStatus now x) = ledger x.
Proof.
  unfold autoUpdateStatus.
  destruct (pay_eqb _ _ && status_eqb _ _);
    match goal with |- context [if ?b then _ else _] => destruct b end;
    reflexivity.
Qed.

Lemma calculateFinancials_ledger x :
  let y := calculateFinancials x in
  items y = items x
  /\ subtotal y == Qsum (map (fun i => orZero (totalPrice i)) (items y))
  /\ totalAmount y ==
       Qmax 0 (subtotal y + orZero (tax y) - orZero (discount y)
               + orZero (deliveryFee y))
  /\ amount (payment y) == totalAmount y.
Proof.
  unfold calculateFinancials.
  destruct (negb (Qeq_bool _ _)) eqn:E; cbn -[Qmax fold_left Qsum].
  - repeat split; try reflexivity. apply fold_left_Qsum.
  - apply negb_false_iff, Qeq_bool_iff in E. cbn -[Qmax fold_left Qsum] in E.
    repeat split; try reflexivity; [apply fold_left_Qsum | exact E].
Qed.

Lemma ledger_consistent a b :
  ledger a = ledger b ->
  (subtotal b == Qsum (map (fun i => orZero (totalPrice i)) (items b))
   /\ totalAmount b ==
        Qmax 0 (subtotal b + orZero (tax b) - orZero (discount b)
                + orZero (deliveryFee b))
   /\ amount (payment b) == totalAmount b) ->
  subtotal a == Qsum (map (fun i => orZero (totalPrice i)) (items a))
  /\ totalAmount a ==
       Qmax 0 (subtotal a + orZero (tax a) - orZero (discount a)
               + orZero (deliveryFee a))
  /\ amount (payment a) == totalAmount a.
Proof.
  unfold ledger. intros E. injection E as E1 E2 E3 E4 E5 E6 E7.
  rewrite E1, E2, E3, E4, E5, E6, E7. tauto.
Qed.

Lemma transaction_pre_save_ok env taken counters x x' counters' :
  pre_save env taken counters x = (Ok x', counters') ->
  exists x1,
    assignIdentifiers env taken counters x = (Ok x1, counters')
    /\ x' = set_updatedBy
              (match updatedBy (autoUpdateStatus (now env)
                                  (calculateProfit (calculateFinancials x1))) with
               | Some u => Some u
               | None => createdBy (autoUpdateStatus (now env)
                                      (calculateProfit (calculateFinancials x1)))
               end)
              (autoUpdateStatus (now env)
                 (calculateProfit (calculateFinancials x1))).
Proof.
  unfold pre_save.
  destruct (assignIdentifiers env taken counters x) as [[x1|m] c]; intros H;
    inversion H; subst. eauto.
Qed.

Lemma transaction_save_ok validate env taken counters x x' counters' :
  save validate env taken counters x = (Ok x', counters') ->
  validate x = true
  /\ exists y, pre_save env taken counters x = (Ok y, counters')
               /\ x' = set_isNew false y.
Proof.
  unfold save. destruct (validate x); [|discriminate].
  destruct (pre_save env taken counters x) as [[y|m] c]; intros H;
    inversion H; subst. eauto.
Qed.

(** C2. After a save, [subtotal] is the sum of the lines' [totalPrice],
    [totalAmount] is [max(0, subtotal + tax - discount + deliveryFee)] and
    [payment.amount] equals [totalAmount], whatever these fields held
    before the save. *)
Theorem save_recomputes_financials validate env taken counters x x' counters' :
  save validate env taken counters x = (Ok x', counters') ->
  subtotal x' == Qsum (map (fun i => orZero (totalPrice i)) (items x'))
  /\ totalAmount x' ==
       Qmax 0 (subtotal x' + orZero (tax x') - orZero (discount x')
               + orZero (deliveryFee x'))
  /\ amount (payment x') == totalAmount x'.
Proof.
  intros H. apply transaction_save_ok in H as (_ & y & Hy & ->).
  apply transaction_pre_save_ok in Hy as (x1 & _ & ->).
  apply (ledger_consistent _ (calculateFinancials x1)).
  - etransitivity; [|apply ledger_calculateProfit].
    etransitivity; [|apply ledger_autoUpdateStatus]. reflexivity.
  - apply calculateFinancials_ledger.
Qed.

Lemma save_recomputes_financials_witness :
  exists x',
    save (fun _ => true) env0 (fun _ => false) ∅ unsaved_sale
      = (Ok x', <["sale_number" := 1%N]> ∅)
    /\ subtotal x' == 25 /\ totalAmount x' == 31
    /\ amount (payment x') == totalAmount x'.
Proof.
  eexists. split; [reflexivity|].
  destruct (save_recomputes_financials (fun _ => true) env0 (fun _ => false)
              ∅ unsaved_sale _ _ eq_refl) as (H1 & H2 & H3).
  split; [|split]; [rewrite H1 | rewrite H2, H1 | exact H3]; reflexivity.
Defined.

(** *** Refunds *)

Lemma canRefund_iff now x :
  canRefund now x = true <->
  status x = completed /\ totalRefunded x < totalAmount x
  /\ (now - ninetyDays < transactionDate x)%Z.
Proof.
  unfold canRefund.
  rewrite !andb_true_iff, status_eqb_eq, Qltb_lt, Z.ltb_lt. tauto.
Qed.

Lemma updateRefundStatus_frame now x :
  refunds (updateRefundStatus now x) = refunds x
  /\ totalAmount (updateRefundStatus now x) = totalAmount x
  /\ identifiers (updateRefundStatus now x) = identifiers x
  /\ isNew (updateRefundStatus now x) = isNew x.
Proof.
  unfold updateRefundStatus.
  destruct (Qle_bool _ _); [|destruct (Qltb _ _)]; repeat split.
Qed.

Lemma totalRefunded_updateRefundStatus now x :
  totalRefunded (updateRefundStatus now x) = totalRefunded x.
Proof.
  unfold totalRefunded.
  destruct (updateRefundStatus_frame now x) as (-> & _). reflexivity.
Qed.

Lemma updateRefundStatus_status now x :
  (totalAmount x <= totalRefunded x ->
     status (updateRefundStatus now x) = refunded
     /\ p_status (payment (updateRefundStatus now x)) = Pay.refunded
     /\ refundedAt (payment (updateRefundStatus now x)) = Some now)
  /\ (0 < totalRefunded x /\ totalRefunded x < totalAmount x ->
     status (updateRefundStatus now x) = partially_refunded
     /\ p_status (payment (updateRefundStatus now x)) = Pay.partially_refunded).
Proof.
  unfold updateRefundStatus. split.
  - intros H. apply Qle_bool_iff in H. rewrite H. repeat split.
  - intros [H0 H1].
    destruct (Qle_bool (totalAmount x) (totalRefunded x)) eqn:E.
    + apply Qle_bool_iff in E. lra.
    + apply Qltb_lt in H0. rewrite H0. repeat split.
Qed.

Lemma processRefund_ok now fresh refundData x :
  canRefund now x = true ->
  let refundAmount :=
    Qmin (rd_amount refundData) (totalAmount x - totalRefunded x) in
  exists x',
    processRefund now fresh refundData x = Ok (refundAmount, x')
    /\ totalAmount x' = totalAmount x
    /\ totalRefunded x' == totalRefunded x + refundAmount
    /\ totalRefunded x' <= totalAmount x'.
Proof.
  intros C refundAmount. unfold processRefund. rewrite C. cbn [negb].
  unfold Math_min. fold refundAmount.
  set (y := set_refunds _ x). exists (updateRefundStatus now y).
  split; [reflexivity|].
  destruct (updateRefundStatus_frame now y) as (_ & HT & _).
  rewrite HT, totalRefunded_updateRefundStatus.
  assert (E : totalRefunded y == totalRefunded x + refundAmount).
  { unfold totalRefunded, y. cbn [refunds set_refunds].
    rewrite fold_left_app. cbn [fold_left r_amount orZero]. reflexivity. }
  split; [reflexivity|]. split; [exact E|].
  rewrite E. unfold y. cbn [totalAmount set_refunds].
  apply canRefund_iff in C as (_ & C & _).
  unfold refundAmount.
  destruct (Q.min_spec (rd_amount refundData) (totalAmount x - totalRefunded x))
    as [[H1 H2]|[H1 H2]]; rewrite H2; lra.
Qed.

Lemma processRefund_err now fresh refundData x :
  canRefund now x = false ->
  processRefund now fresh refundData x = Err "Transaction cannot be refunded".
Proof. intros C. unfold processRefund. rewrite C. reflexivity. Qed.

Lemma refundAll_capped requests x :
  totalRefunded x <= totalAmount x ->
  totalRefunded (refundAll requests x) <= totalAmount (refundAll requests x).
Proof.
  unfold refundAll. revert x.
  induction requests as [|[[now fresh] refundData] rest IH]; intros x Hx.
  - exact Hx.
  - cbn [fold_left fst snd]. apply IH.
    destruct (canRefund now x) eqn:C.
    + destruct (processRefund_ok now fresh refundData x C) as (x' & -> & _ & _ & H).
      exact H.
    + rewrite (processRefund_err now fresh refundData x C). exact Hx.
Qed.

(** Once a refund has left the status at partially_refunded or refunded,
    [canRefund] is false: a later request on the same document throws. *)
Lemma refund_closes_refunds now now' x :
  status (updateRefundStatus now x) <> completed ->
  canRefund now' (updateRefundStatus now x) = false.
Proof.
  intros H. unfold canRefund.
  apply status_eqb_neq in H. rewrite H. reflexivity.
Qed.

(** C1. [processRefund] throws exactly when [canRefund] is false, that is
    unless the status is completed, less than the total has been refunded
    and the transaction is less than 90 days old; otherwise it appends a
    refund of [min(amount, totalAmount - totalRefunded)] and returns that
    amount.  The refunded total never exceeds [totalAmount], after one
    refund and after any sequence of requests; once it reaches
    [totalAmount] the status and the payment status are refunded and
    [refundedAt] is stamped, and while it lies strictly between 0 and
    [totalAmount] the status is partially_refunded. *)
Theorem processRefund_spec (now : Date) (fresh : ObjectId)
    (refundData : RefundData) (x : t) :
  (canRefund now x = true <->
     status x = completed /\ totalRefunded x < totalAmount x
     /\ (now - ninetyDays < transactionDate x)%Z)
  /\ (canRefund now x = false ->
      processRefund now fresh refundData x
        = Err "Transaction cannot be refunded")
  /\ (canRefund now x = true ->
      exists x',
        processRefund now fresh refundData x
          = Ok (Qmin (rd_amount refundData) (totalAmount x - totalRefunded x), x')
        /\ totalAmount x' = totalAmount x
        /\ totalRefunded x' ==
             totalRefunded x
             + Qmin (rd_amount refundData) (totalAmount x - totalRefunded x)
        /\ totalRefunded x' <= totalAmount x'
        /\ (totalAmount x' <= totalRefunded x' ->
            status x' = refunded
            /\ p_status (payment x') = Pay.refunded
            /\ refundedAt (payment x') = Some now)
        /\ (0 < totalRefunded x' /\ totalRefunded x' < totalAmount x' ->
            status x' = partially_refunded))
  /\ (forall requests,
        totalRefunded x <= totalAmount x ->
        totalRefunded (refundAll requests x)
          <= totalAmount (refundAll requests x)).
Proof.
  split; [apply canRefund_iff|].
  split; [apply processRefund_err|].
  split; [|intros requests; apply refundAll_capped].
  intros C.
  destruct (processRefund_ok now fresh refundData x C) as (x' & E & H1 & H2 & H3).
  exists x'. repeat (split; [assumption|]).
  assert (Ex : x' = updateRefundStatus now
                 (set_refunds
                    (refunds x ++
                       [mkRefund fresh
                          (Some (Math_min (rd_amount refundData)
                                          (totalAmount x - totalRefunded x)))
                          now (rd_reason refundData)
                          (rd_paymentMethod refundData)
                          (rd_processedBy refundData)])
                    x)).
  { unfold processRefund in E. rewrite C in E. cbn [negb] in E.
    inversion E. reflexivity. }
  set (y := set_refunds _ x) in Ex.
  destruct (updateRefundStatus_frame now y) as (_ & HT & _).
  pose proof (totalRefunded_updateRefundStatus now y) as HR.
  destruct (updateRefundStatus_status now y) as [S1 S2].
  rewrite <- Ex in HT, HR, S1, S2. rewrite HT, HR.
  split; [exact S1|]. intros H. apply S2 in H. tauto.
Qed.

Lemma processRefund_spec_witness :
  exists x',
    processRefund 1000 "r1" refund_60 paid_100 = Ok (Qmin 60 (100 - 0), x')
    /\ totalRefunded x' == 60
    /\ status x' = partially_refunded.
Proof.
  destruct (processRefund_spec 1000 "r1" refund_60 paid_100)
    as (_ & _ & H & _).
  destruct (H eq_refl) as (x' & E & _ & HR & _ & _ & HP).
  exists x'. split; [exact E|].
  assert (R : totalRefunded x' == 60).
  { rewrite HR. reflexivity. }
  split; [exact R|]. apply HP.
  assert (HT : totalAmount x' == 100).
  { unfold processRefund in E. cbn in E. inversion E. reflexivity. }
  rewrite R, HT. split; reflexivity.
Defined.

(** *** Identifiers *)

Lemma generateUniqueId_shape taken draw prefix uid :
  generateUniqueId taken draw prefix = Ok uid ->
  taken uid = false
  /\ exists attempt,
       (attempt < retryCount)%nat
       /\ uid = prefix ++ "-" ++ stamp (draw attempt) ++ "-" ++ rand (draw attempt).
Proof.
  unfold generateUniqueId, retryCount. cbn [seq].
  destruct (taken (prefix ++ "-" ++ stamp (draw 0%nat) ++ "-" ++ rand (draw 0%nat)))
    eqn:T0;
    [|intros H; inversion H; subst; split; [exact T0|];
      exists 0%nat; split; [lia|reflexivity]].
  destruct (taken (prefix ++ "-" ++ stamp (draw 1%nat) ++ "-" ++ rand (draw 1%nat)))
    eqn:T1;
    [|intros H; inversion H; subst; split; [exact T1|];
      exists 1%nat; split; [lia|reflexivity]].
  destruct (taken (prefix ++ "-" ++ stamp (draw 2%nat) ++ "-" ++ rand (draw 2%nat)))
    eqn:T2;
    [discriminate|intros H; inversion H; subst; split; [exact T2|];
      exists 2%nat; split; [lia|reflexivity]].
Qed.

Lemma stamp_view_calculateFinancials x :
  stamp_view (calculateFinancials x) = stamp_view x.
Proof.
  unfold calculateFinancials.
  match goal with |- context [if ?b then _ else _] => destruct b end;
    reflexivity.
Qed.

Lemma stamp_view_autoUpdateStatus now x :
  stamp_view (autoUpdateStatus now x) = stamp_view x.
Proof.
  unfold autoUpdateStatus.
  destruct (pay_eqb _ _ && status_eqb _ _);
    match goal with |- context [if ?b then _ else _] => destruct b end;
    reflexivity.
Qed.

Lemma stamp_view_after_identifiers env x :
  stamp_view
    (set_updatedBy
       (match updatedBy (autoUpdateStatus (now env)
                           (calculateProfit (calculateFinancials x))) with
        | Some u => Some u
        | None => createdBy (autoUpdateStatus (now env)
                               (calculateProfit (calculateFinancials x)))
        end)
       (autoUpdateStatus (now env) (calculateProfit (calculateFinancials x))))
  = stamp_view x.
Proof.
  transitivity (stamp_view (autoUpdateStatus (now env)
                              (calculateProfit (calculateFinancials x))));
    [reflexivity|].
  rewrite stamp_view_autoUpdateStatus.
  transitivity (stamp_view (calculateFinancials x)); [reflexivity|].
  apply stamp_view_calculateFinancials.
Qed.

Lemma set_identifier_dropped x v :
  isNew x = false ->
  set_transactionId v x = x /\ set_transactionNumber v x = x
  /\ set_transactionRef v x = x.
Proof.
  intros H. unfold set_transactionId, set_transactionNumber, set_transactionRef.
  rewrite H. auto.
Qed.

Lemma later_keeps validate op x :
  isNew x = false ->
  stamp_view (later validate op x) = stamp_view x.
Proof.
  intros N. destruct op as [env taken counters|now fresh refundData|v|v|v];
    cbn [later].
  - destruct (save validate env taken counters x) as [[x'|m] c] eqn:E;
      [|reflexivity].
    apply transaction_save_ok in E as (_ & y & Hy & ->).
    apply transaction_pre_save_ok in Hy as (x1 & Hx1 & ->).
    unfold assignIdentifiers in Hx1. rewrite N in Hx1. inversion Hx1; subst.
    pose proof (stamp_view_after_identifiers env x1) as V.
    unfold stamp_view, identifiers in *.
    cbn [isNew set_isNew set_updatedBy transactionId transactionNumber
         transactionRef] in *.
    injection V as V1 V2 V3 V4. rewrite N in V1.
    rewrite N. congruence.
  - unfold processRefund. destruct (negb (canRefund now x)); [reflexivity|].
    match goal with
    | |- stamp_view (updateRefundStatus ?n ?y) = _ =>
        destruct (updateRefundStatus_frame n y) as (_ & _ & HI & HN);
        unfold stamp_view; rewrite HI, HN
    end.
    reflexivity.
  - now destruct (set_identifier_dropped x v N) as (-> & _ & _).
  - now destruct (set_identifier_dropped x v N) as (_ & -> & _).
  - now destruct (set_identifier_dropped x v N) as (_ & _ & ->).
Qed.

Lemma laters_keep validate ops x :
  isNew x = false ->
  identifiers (fold_left (fun y op => later validate op y) ops x)
  = identifiers x.
Proof.
  revert x. induction ops as [|op ops IH]; intros x N; [reflexivity|].
  cbn [fold_left].
  pose proof (later_keeps validate op x N) as K.
  assert (K1 : isNew (later validate op x) = false)
    by (rewrite <- N; exact (f_equal fst K)).
  rewrite (IH _ K1). exact (f_equal snd K).
Qed.

Lemma falsyStr_nonempty s :
  (0 < String.length s)%nat -> falsyStr (Some s) = false.
Proof. destruct s; cbn; [lia|reflexivity]. Qed.

Lemma formatTransactionNumber_set type counter :
  falsyStr (Some (formatTransactionNumber type counter)) = false.
Proof.
  apply falsyStr_nonempty. unfold formatTransactionNumber.
  rewrite NumberText.append_length.
  destruct (NumberText.padded_counter counter) as (_ & H & _).
  cbv zeta in H. lia.
Qed.

Lemma assignIdentifiers_new env taken counters x x1 counters' :
  isNew x = true ->
  assignIdentifiers env taken counters x = (Ok x1, counters') ->
  isNew x1 = true
  /\ (if falsyStr (transactionId x)
      then exists uid, generateUniqueId taken (idDraw env) "TXN" = Ok uid
                       /\ transactionId x1 = Some uid
      else transactionId x1 = transactionId x)
  /\ (if falsyStr (transactionNumber x)
      then transactionNumber x1
           = Some (formatTransactionNumber (transactionType x)
                     (fst (getNextSequence (transactionType x ++ "_number")
                                           counters)))
      else transactionNumber x1 = transactionNumber x)
  /\ (if falsyStr (transactionRef x)
      then exists ref, generateUniqueId taken (refDraw env) "REF" = Ok ref
                       /\ transactionRef x1 = Some ref
      else transactionRef x1 = transactionRef x).
Proof.
  intros N. unfold assignIdentifiers. rewrite N.
  destruct x as [nw ph ty tid tnum tref ? ? ? ? ? ? ? ? ? ? ? ? ? ? ? ? ? ?].
  cbn in N. subst nw.
  unfold set_transactionId, set_transactionNumber, set_transactionRef, bindR.
  cbn [isNew transactionId transactionNumber transactionRef transactionType].
  destruct (getNextSequence (ty ++ "_number") counters) as [counter cs'] eqn:GN.
  cbn [fst].
  destruct (falsyStr tid) eqn:F1;
    [destruct (generateUniqueId taken (idDraw env) "TXN") as [uid|m] eqn:G1;
       [|discriminate]|];
    cbn [isNew transactionId transactionNumber transactionRef transactionType];
    (destruct (falsyStr tnum) eqn:F2;
     cbn [isNew transactionId transactionNumber transactionRef transactionType];
     rewrite ?GN;
     cbn [isNew transactionId transactionNumber transactionRef transactionType];
     (destruct (falsyStr tref) eqn:F3;
      [destruct (generateUniqueId taken (refDraw env) "REF") as [ref|m'] eqn:G3;
         [|discriminate]|];
      intros H; inversion H; subst;
      cbn [isNew transactionId transactionNumber transactionRef transactionType];
      repeat split; eauto)).
Qed.

Lemma applyCheckout_identifiers cenv body totals paymentResult x :
  isNew x = false ->
  identifiers (Checkout.applyCheckout cenv body totals paymentResult x)
  = identifiers x.
Proof.
  intros N. unfold Checkout.applyCheckout, set_transactionRef.
  cbn [isNew]. rewrite N.
  destruct paymentResult as [r|]; [destruct (negb _)|]; reflexivity.
Qed.

(** C8. At the first save each of [transactionId], [transactionNumber]
    and [transactionRef] is given a value if, and only if, it has none
    yet; a number given there is the first three letters of the type in
    upper case followed by the sequence number in decimal, padded with
    zeros to 8 digits.  After that save all three are set, and no later
    save, refund or assignment to these paths changes any of them; the
    assignment to [transactionRef] made by [processCheckout] is one of
    those and is dropped. *)
Theorem identifiers_assigned_once validate env taken counters x x' counters' :
  isNew x = true ->
  save validate env taken counters x = (Ok x', counters') ->
  (if falsyStr (transactionId x)
   then exists uid, generateUniqueId taken (idDraw env) "TXN" = Ok uid
                    /\ transactionId x' = Some uid
   else transactionId x' = transactionId x)
  /\ (if falsyStr (transactionNumber x)
      then exists counter digits d,
             counter = fst (getNextSequence (transactionType x ++ "_number")
                                            counters)
             /\ transactionNumber x'
                = Some (toUpperCase (substring 0 3 (transactionType x)) ++ digits)
             /\ NilEmpty.uint_of_string digits = Some d
             /\ N.of_uint d = counter
             /\ (8 <= String.length digits)%nat
             /\ ((counter < 10 ^ 8)%N -> String.length digits = 8%nat)
      else transactionNumber x' = transactionNumber x)
  /\ (if falsyStr (transactionRef x)
      then exists ref, generateUniqueId taken (refDraw env) "REF" = Ok ref
                       /\ transactionRef x' = Some ref
      else transactionRef x' = transactionRef x)
  /\ falsyStr (transactionId x') = false
  /\ falsyStr (transactionNumber x') = false
  /\ falsyStr (transactionRef x') = false
  /\ isNew x' = false
  /\ (forall ops,
       identifiers (fold_left (fun y op => later validate op y) ops x')
       = identifiers x')
  /\ (forall cenv body totals paymentResult,
       identifiers (Checkout.applyCheckout cenv body totals paymentResult x')
       = identifiers x').
Proof.
  intros N H. apply transaction_save_ok in H as (_ & y & Hy & ->).
  apply transaction_pre_save_ok in Hy as (x1 & Hx1 & ->).
  pose proof (stamp_view_after_identifiers env x1) as V.
  destruct (assignIdentifiers_new _ _ _ _ _ _ N Hx1) as (_ & A1 & A2 & A3).
  unfold stamp_view, identifiers in V. injection V as _ V1 V2 V3.
  cbn [transactionId transactionNumber transactionRef set_isNew isNew
       set_updatedBy].
  rewrite V1, V2, V3.
  assert (S1 : falsyStr (transactionId x1) = false).
  { destruct (falsyStr (transactionId x)) eqn:F.
    - destruct A1 as (uid & G & ->).
      apply generateUniqueId_shape in G as (_ & a & _ & ->). reflexivity.
    - now rewrite A1. }
  assert (S2 : falsyStr (transactionNumber x1) = false).
  { destruct (falsyStr (transactionNumber x)) eqn:F.
    - rewrite A2. apply formatTransactionNumber_set.
    - now rewrite A2. }
  assert (S3 : falsyStr (transactionRef x1) = false).
  { destruct (falsyStr (transactionRef x)) eqn:F.
    - destruct A3 as (ref & G & ->).
      apply generateUniqueId_shape in G as (_ & a & _ & ->). reflexivity.
    - now rewrite A3. }
  repeat (split; [assumption|]).
  split.
  - destruct (falsyStr (transactionNumber x)); [|exact A2].
    set (counter := fst (getNextSequence (transactionType x ++ "_number") counters)) in *.
    destruct (NumberText.padded_counter counter) as ((d & P1 & P2) & P3 & P4).
    cbv zeta in *.
    exists counter, (padStart0 8 (String_of counter)), d.
    repeat split; assumption.
  - split; [exact A3|]. repeat (split; [assumption|]).
    split; [reflexivity|]. split.
    + intros ops. apply laters_keep. reflexivity.
    + intros. apply applyCheckout_identifiers. reflexivity.
Qed.

Lemma identifiers_assigned_once_witness :
  exists x',
    save (fun _ => true) env0 (fun _ => false) ∅ unsaved_sale
      = (Ok x', <["sale_number" := 1%N]> ∅)
    /\ identifiers x'
       = (Some "TXN-LX1-AB12CD", Some "SAL00000001", Some "REF-LX2-EF34GH")
    /\ identifiers
         (later (fun _ => true) (LaterSetRef (Some "TXN-OTHER")) x')
       = identifiers x'.
Proof.
  eexists. split; [reflexivity|]. split; [reflexivity|].
  destruct (identifiers_assigned_once (fun _ => true) env0 (fun _ => false)
              ∅ unsaved_sale _ _ eq_refl eq_refl)
    as (_ & _ & _ & _ & _ & _ & _ & K & _).
  exact (K [LaterSetRef (Some "TXN-OTHER")]).
Defined.

End TransactionFacts.

(** ** Cart *)

Module CartFacts.
Import Cart CartSamples.

Lemma items_pre_save_prices now l l' :
  items_pre_save now l = Ok l' ->
  Forall (fun i => totalPrice i = inject_Z (quantity i) * unitPrice i) l'.
Proof.
  revert l'. induction l as [|i l IH]; intros l' H; cbn in H.
  - inversion H. constructor.
  - unfold item_pre_save in H. cbn [expiryDate set_totalPrice] in H.
    destruct (expiryDate i) as [d|]; [destruct (d <=? now)%Z|];
      cbn [bindR] in H; try discriminate;
      (destruct (items_pre_save now l) as [r|m]; cbn [bindR] in H;
       [|discriminate]; inversion H; subst; constructor;
       [reflexivity | apply IH; reflexivity]).
Qed.

Lemma cart_save_ok validate now c c' :
  save validate now c = Ok c' ->
  exists l, items_pre_save now (items c) = Ok l
            /\ c' = pre_save now (set_items l c).
Proof.
  unfold save. destruct (validate c); [|discriminate].
  destruct (items_pre_save now (items c)) as [l|m]; cbn [bindR];
    intros H; inversion H. eauto.
Qed.

Lemma run_is_save validate now op c c' :
  run validate now op c = Ok c' ->
  exists c0, save validate now c0 = Ok c'.
Proof.
  destruct op; cbn [run];
    unfold addItem, removeItem, updateItemQuantity, applyDiscount, setTax.
  - destruct (findIndex _ _); eauto.
  - eauto.
  - destruct (qty <? 1)%Z; [discriminate|].
    destruct (findIndex _ _); [eauto|discriminate].
  - eauto.
  - eauto.
Qed.

Lemma pre_save_consistent now c :
  let c' := pre_save now c in
  items c' = items c
  /\ totalAmount c' == Qsum (map totalPrice (items c'))
  /\ totalItems c' = length (items c')
  /\ totalQuantity c' = Zsum (map quantity (items c'))
  /\ finalAmount c' == totalAmount c' - discountValue c' + taxAmount c'.
Proof.
  unfold pre_save, discountValue.
  cbn [items totalAmount totalItems totalQuantity finalAmount taxAmount
       discount set_totals set_lastActivity set_finalAmount].
  split; [reflexivity|]. split; [apply fold_left_Qsum|].
  split; [reflexivity|]. split; [apply fold_left_Zsum|]. reflexivity.
Qed.

Lemma pre_save_ignores_totals now a n q f c :
  pre_save now (set_finalAmount f (set_totals a n q c)) = pre_save now c.
Proof. reflexivity. Qed.

Lemma save_consistent validate now c c' :
  save validate now c = Ok c' ->
  totalAmount c' == Qsum (map totalPrice (items c'))
  /\ totalItems c' = length (items c')
  /\ totalQuantity c' = Zsum (map quantity (items c'))
  /\ finalAmount c' == totalAmount c' - discountValue c' + taxAmount c'
  /\ Forall (fun i => totalPrice i = inject_Z (quantity i) * unitPrice i)
            (items c').
Proof.
  intros H. apply cart_save_ok in H as (l & Hl & ->).
  destruct (pre_save_consistent now (set_items l c)) as (E & H1 & H2 & H3 & H4).
  repeat (split; [assumption|]).
  rewrite E. cbn [items set_items]. eapply items_pre_save_prices, Hl.
Qed.

(** C7. After every save of a cart, and so after [addItem], [removeItem],
    [updateItemQuantity], [applyDiscount] and [setTax], [totalAmount] is
    the sum of the lines' [totalPrice], [totalItems] the number of lines,
    [totalQuantity] the sum of the quantities and [finalAmount] is
    [totalAmount - discountValue + taxAmount], the discount value being
    [discount.amount] when fixed and [totalAmount * discount.amount / 100]
    when a percentage.  The middleware computes them from the lines: what
    the caller had put in these fields has no effect on what is saved. *)
Theorem cart_totals_recomputed validate now :
  (forall c c',
     save validate now c = Ok c' \/ (exists op, run validate now op c = Ok c') ->
     totalAmount c' == Qsum (map totalPrice (items c'))
     /\ totalItems c' = length (items c')
     /\ totalQuantity c' = Zsum (map quantity (items c'))
     /\ finalAmount c' == totalAmount c' - discountValue c' + taxAmount c'
     /\ (d_type (discount c') = "fixed" ->
         discountValue c' = d_amount (discount c'))
     /\ (d_type (discount c') = "percentage" ->
         discountValue c' = totalAmount c' * d_amount (discount c') / 100))
  /\ (forall a n q f c,
        pre_save now (set_finalAmount f (set_totals a n q c)) = pre_save now c).
Proof.
  split; [|intros; apply pre_save_ignores_totals].
  intros c c' H.
  assert (S : exists c0, save validate now c0 = Ok c').
  { destruct H as [H|[op H]]; [eauto|eapply run_is_save, H]. }
  destruct S as (c0 & S).
  destruct (save_consistent validate now c0 c' S) as (H1 & H2 & H3 & H4 & _).
  repeat (split; [assumption|]).
  unfold discountValue. split; intros ->; reflexivity.
Qed.

Lemma cart_totals_recomputed_witness :
  exists c1 c2 c3,
    addItem (fun _ => true) 1000 "i1" item_A empty_cart = Ok c1
    /\ addItem (fun _ => true) 1000 "i2" item_B c1 = Ok c2
    /\ applyDiscount (fun _ => true) 1000 10 (Some "percentage") (Some "promo")
                     c2 = Ok c3
    /\ totalAmount c2 == 25 /\ totalItems c2 = 2%nat
    /\ totalQuantity c2 = 3%Z
    /\ finalAmount c3 == 25 - 2.5 + taxAmount c3.
Proof.
  do 3 eexists. split; [reflexivity|]. split; [reflexivity|].
  split; [reflexivity|].
  destruct (cart_totals_recomputed (fun _ => true) 1000) as [T _].
  match goal with
  | |- totalAmount ?c2 == _ /\ _ /\ _ /\ finalAmount ?c3 == _ =>
      destruct (T c1_sample c2 (or_intror (ex_intro _ (OpAddItem "i2" item_B) eq_refl)))
        as (A1 & A2 & A3 & _);
      destruct (T c2 c3 (or_intror
                           (ex_intro _ (OpApplyDiscount 10 (Some "percentage")
                                                        (Some "promo"))
                                     eq_refl)))
        as (_ & _ & _ & B4 & _)
  end.
  split; [rewrite A1; reflexivity|]. split; [exact A2|]. split; [exact A3|].
  rewrite B4. reflexivity.
Defined.

(** *** Clearing *)

Lemma clearCart_result validate now c c' :
  clearCart validate now c = Ok c' ->
  c' = pre_save now
         (set_status completed (set_totals 0 0%nat 0%Z (set_items [] c))).
Proof.
  unfold clearCart. intros H. apply cart_save_ok in H as (l & Hl & ->).
  cbn in Hl. inversion Hl. reflexivity.
Qed.

(** C10, the case the claim gets wrong: a cart with a tax of 5 and a fixed
    discount of 5 is cleared to a final amount of 0. *)
Lemma clearCart_final_amount_can_vanish :
  exists c',
    clearCart (fun _ => true) 1000 taxed_discounted_cart = Ok c'
    /\ taxAmount taxed_discounted_cart == 5
    /\ d_type (discount taxed_discounted_cart) = "fixed"
    /\ d_amount (discount taxed_discounted_cart) == 5
    /\ finalAmount c' == 0.
Proof. eexists. repeat split; reflexivity. Qed.

(** C10, as the code has it.  [clearCart] empties the lines, zeroes
    [totalAmount], [totalItems] and [totalQuantity], sets the status to
    completed and leaves [discount] and [taxAmount] as they were; the
    recompute then sets [finalAmount] to [taxAmount - discountValue], the
    discount value being [discount.amount] unless the discount is a
    percentage, in which case it is 0.  That amount is not 0 exactly when
    the tax and the discount value differ. *)
Theorem clearCart_keeps_discount_and_tax validate now c c' :
  clearCart validate now c = Ok c' ->
  items c' = []
  /\ totalAmount c' == 0 /\ totalItems c' = 0%nat /\ totalQuantity c' = 0%Z
  /\ status c' = completed
  /\ discount c' = discount c
  /\ taxAmount c' = taxAmount c
  /\ finalAmount c' == taxAmount c - discountValue c'
  /\ (d_type (discount c) <> "percentage" ->
      discountValue c' = d_amount (discount c))
  /\ (d_type (discount c) = "percentage" -> discountValue c' == 0)
  /\ (~ finalAmount c' == 0 <-> ~ taxAmount c == discountValue c').
Proof.
  intros H. apply clearCart_result in H. subst c'.
  unfold discountValue, pre_save.
  cbn [items totalAmount totalItems totalQuantity finalAmount taxAmount
       discount status set_totals set_lastActivity set_finalAmount
       set_status set_items fold_left length].
  repeat (split; [reflexivity|]).
  destruct (String.eqb_spec (d_type (discount c)) "percentage") as [E|E].
  - split; [unfold Qdiv; lra|].
    split; [intros N; congruence|].
    split; [intros _; unfold Qdiv; lra|].
    unfold Qdiv. split; intros N K; apply N; lra.
  - split; [lra|].
    split; [reflexivity|].
    split; [intros K; congruence|].
    split; intros N K; apply N; lra.
Qed.

Lemma clearCart_keeps_discount_and_tax_witness :
  exists c',
    clearCart (fun _ => true) 1000 taxed_cart = Ok c'
    /\ finalAmount c' == 2
    /\ ~ finalAmount c' == 0.
Proof.
  eexists. split; [reflexivity|].
  destruct (clearCart_keeps_discount_and_tax (fun _ => true) 1000 taxed_cart
              _ eq_refl)
    as (_ & _ & _ & _ & _ & _ & _ & F & _ & _ & NZ).
  split; [rewrite F; reflexivity|].
  apply NZ. cbn. intros K. discriminate K.
Defined.

End CartFacts.

(** ** Checkout *)

Module CheckoutFacts.
Import Checkout CheckoutSamples.

(** *** Stock check *)

Lemma validateStock_passes meds items :
  Forall (inStock meds) items -> validateStock meds items = None.
Proof.
  induction 1 as [|item rest (m & Hm & Hq) _ IH]; cbn [validateStock].
  - reflexivity.
  - rewrite Hm. apply Z.ltb_ge in Hq. rewrite Hq. exact IH.
Qed.

Lemma validateStock_first_failure meds pre item post :
  Forall (inStock meds) pre ->
  (meds !! Transaction.medicineId item = None ->
   validateStock meds (pre ++ item :: post)
   = Some (fail 404 ("Medicine " ++ Transaction.medicineName item
                     ++ " not found")))
  /\ (forall medicine,
        meds !! Transaction.medicineId item = Some medicine ->
        (m_quantity medicine < Transaction.quantity item)%Z ->
        validateStock meds (pre ++ item :: post)
        = Some (fail 400 ("Insufficient stock for " ++ m_name medicine
                          ++ ". Available: "
                          ++ String_ofZ (m_quantity medicine)))).
Proof.
  induction 1 as [|p pre (m & Hm & Hq) _ IH]; cbn [app validateStock].
  - split.
    + intros ->. reflexivity.
    + intros medicine -> Hlt. apply Z.ltb_lt in Hlt. rewrite Hlt. reflexivity.
  - rewrite Hm. apply Z.ltb_ge in Hq. rewrite Hq. exact IH.
Qed.

Lemma length_nonempty {A} (pre : list A) x post :
  (length (pre ++ x :: post)%list =? 0)%nat = false.
Proof. apply Nat.eqb_neq. rewrite length_app. cbn. lia. Qed.

(** C4. In a checkout of a sale that is not a draft, the stock loop runs
    over every line before anything is written: whichever line is the
    first to fail, the request ends there, with 404 and the line's name
    when its medicine does not resolve and with 400, the medicine's name
    and the quantity available when the stock is short, and the
    collections are exactly what they were: no transaction is created or
    finalized, no stock is changed, no payment is asked for. *)
Theorem stock_checked_before_any_write validateTransaction validateCart
    env user body w pharmacyId tid transaction
    (pre : list Transaction.Item) item post :
  pharmacyOf user = Some pharmacyId ->
  orElse (b_transactionType body) "sale" = "sale" ->
  orElse (b_saveAsDraft body) false = false ->
  findOne (pendingFor pharmacyId "sale") (transactions w)
    = Some (tid, transaction) ->
  Transaction.items transaction = (pre ++ item :: post)%list ->
  Forall (inStock (medicines w)) pre ->
  (medicines w !! Transaction.medicineId item = None ->
   processCheckout validateTransaction validateCart env user body w
   = (fail 404 ("Medicine " ++ Transaction.medicineName item ++ " not found"),
      w))
  /\ (forall medicine,
        medicines w !! Transaction.medicineId item = Some medicine ->
        (m_quantity medicine < Transaction.quantity item)%Z ->
        processCheckout validateTransaction validateCart env user body w
        = (fail 400 ("Insufficient stock for " ++ m_name medicine
                     ++ ". Available: " ++ String_ofZ (m_quantity medicine)),
           w)).
Proof.
  intros Hu Ht Hd Hf Hi Hpre.
  destruct (validateStock_first_failure (medicines w) pre item post Hpre)
    as [V404 V400].
  unfold processCheckout. rewrite Hu. cbv zeta. rewrite Ht, Hd, Hf, Hi.
  rewrite length_nonempty.
  change (String.eqb "sale" "sale" && negb false) with true. cbv iota.
  split.
  - intros Hm. rewrite (V404 Hm). reflexivity.
  - intros medicine Hm Hlt. rewrite (V400 medicine Hm Hlt). reflexivity.
Qed.

Lemma stock_checked_before_any_write_witness :
  processCheckout (fun _ => true) (fun _ => true) env0 user0
                  body_cash_discount world_short
  = (fail 400 "Insufficient stock for Aspirin. Available: 1", world_short).
Proof.
  refine (proj2 (stock_checked_before_any_write
                   (fun _ => true) (fun _ => true) env0 user0
                   body_cash_discount world_short "ph1" "t1"
                   pending_sale_of_two []
                   (Transaction.mkItem "m1" "Aspirin" 2 10 (Some 20) None) []
                   eq_refl eq_refl eq_refl _ eq_refl (List.Forall_nil _))
                (mkMedicine "Aspirin" 10 1) _ _).
  - vm_compute. reflexivity.
  - vm_compute. reflexivity.
  - reflexivity.
Defined.

(** *** Payment failure *)

Lemma log_dispatch_frame type amount w :
  medicines (log_dispatch type amount w) = medicines w
  /\ transactions (log_dispatch type amount w) = transactions w
  /\ carts (log_dispatch type amount w) = carts w
  /\ counters (log_dispatch type amount w) = counters w.
Proof. repeat split. Qed.

Lemma payIfAsked_asked env user paymentType paymentMethodId amount w :
  truthy paymentType = true ->
  payIfAsked env user true paymentType paymentMethodId amount w
  = (Some (processPaymentByType env (orElse paymentType "") amount
             (findPaymentMethod w paymentMethodId
                (match user with Some u => u_id u | None => "" end))),
     log_dispatch (orElse paymentType "") amount w).
Proof. intros H. unfold payIfAsked. rewrite H. reflexivity. Qed.

Lemma nonempty_length {A} (l : list A) :
  l <> [] -> (length l =? 0)%nat = false.
Proof. destruct l; [congruence|reflexivity]. Qed.

(** The dispatch fails only in three ways. *)
Lemma processPaymentByType_failure env type amount paymentMethod :
  pr_success (processPaymentByType env type amount paymentMethod) = false ->
  (type = "card" /\ random env < 0.05
   /\ pr_message (processPaymentByType env type amount paymentMethod)
      = Some "Payment declined by bank")
  \/ (type = "digital_wallet" /\ random env < 0.03
      /\ pr_message (processPaymentByType env type amount paymentMethod)
         = Some "Wallet transaction failed")
  \/ (type <> "cash" /\ type <> "card" /\ type <> "bank_transfer"
      /\ type <> "digital_wallet"
      /\ pr_message (processPaymentByType env type amount paymentMethod)
         = Some "Unsupported payment method").
Proof.
  unfold processPaymentByType.
  destruct (String.eqb_spec type "cash") as [->|N1]; [discriminate|].
  destruct (String.eqb_spec type "card") as [->|N2].
  { unfold processCardPayment, mockCardPaymentGateway.
    destruct (Qltb (random env) 0.05) eqn:R; [|discriminate].
    intros _. left. apply Qltb_lt in R. auto. }
  destruct (String.eqb_spec type "bank_transfer") as [->|N3]; [discriminate|].
  destruct (String.eqb_spec type "digital_wallet") as [->|N4].
  { unfold processDigitalWallet, mockDigitalWalletPayment.
    destruct (Qltb (random env) 0.03) eqn:R; [|discriminate].
    intros _. right. left. apply Qltb_lt in R. auto. }
  intros _. right. right. auto.
Qed.

(** C5. When a checkout that is not a draft carries a payment type and
    the dispatch reports failure, the request ends there with status 400
    and the dispatch's message.  Only the request to the dispatch has
    happened: the transactions, the stock, the carts and the sequence
    store are what they were, in [processCheckout] and in [quickCheckout]
    alike. *)
Theorem payment_failure_aborts validateTransaction validateCart
    generateTransactionNumber env user body w pharmacyId :
  pharmacyOf user = Some pharmacyId ->
  truthy (b_paymentType body) = true ->
  let type := orElse (b_paymentType body) "" in
  let doc := findPaymentMethod w (b_paymentMethodId body)
               (match user with Some u => u_id u | None => "" end) in
  (forall tid transaction,
     orElse (b_saveAsDraft body) false = false ->
     findOne (pendingFor pharmacyId (orElse (b_transactionType body) "sale"))
             (transactions w) = Some (tid, transaction) ->
     Transaction.items transaction <> [] ->
     (orElse (b_transactionType body) "sale" = "sale" ->
      Forall (inStock (medicines w)) (Transaction.items transaction)) ->
     let amount :=
       total (calculateTotal (addresses w) (Transaction.items transaction)
                (orElse (b_deliveryOption body) "pickup")
                (b_deliveryAddressId body) None) in
     pr_success (processPaymentByType env type amount doc) = false ->
     processCheckout validateTransaction validateCart env user body w
     = (mkResponse 400 false
          (pr_message (processPaymentByType env type amount doc)) None,
        log_dispatch type amount w))
  /\ (forall transactionItems,
        b_items body <> [] ->
        prepareItems (orElse (b_transactionType body) "sale") (medicines w)
                     (b_items body) = inr transactionItems ->
        let totals :=
          calculateTotal (addresses w) transactionItems
            (orElse (b_deliveryOption body) "pickup")
            (b_deliveryAddressId body) None in
        let amount :=
          Math_max 0 (subtotal totals + tax totals
                      - orElse (b_discount body) 0 + deliveryFee totals) in
        pr_success (processPaymentByType env type amount doc) = false ->
        quickCheckout validateTransaction generateTransactionNumber env user
                      body w
        = (mkResponse 400 false
             (pr_message (processPaymentByType env type amount doc)) None,
           log_dispatch type amount w))
  /\ (forall amount,
        medicines (log_dispatch type amount w) = medicines w
        /\ transactions (log_dispatch type amount w) = transactions w
        /\ carts (log_dispatch type amount w) = carts w
        /\ counters (log_dispatch type amount w) = counters w).
Proof.
  intros Hu Hp type doc. split; [|split; [|intros; apply log_dispatch_frame]].
  - intros tid transaction Hd Hf Hi Hs amount Hr.
    unfold processCheckout. rewrite Hu. cbv zeta. rewrite Hd, Hf.
    rewrite (nonempty_length _ Hi).
    assert (V : (if String.eqb (orElse (b_transactionType body) "sale") "sale"
                    && negb false
                 then validateStock (medicines w) (Transaction.items transaction)
                 else None) = None).
    { destruct (String.eqb_spec (orElse (b_transactionType body) "sale") "sale")
        as [E|E]; [|reflexivity].
      cbn [andb negb]. apply validateStock_passes, Hs, E. }
    rewrite V. cbn [negb]. rewrite (payIfAsked_asked _ _ _ _ _ _ Hp).
    fold type doc amount.
    destruct (processPaymentByType env type amount doc) as [ok d m].
    cbn [pr_success] in Hr. subst ok. reflexivity.
  - intros transactionItems Hi Hprep totals amount Hr.
    unfold quickCheckout. rewrite Hu. cbv zeta.
    rewrite (nonempty_length _ Hi), Hprep.
    rewrite (payIfAsked_asked _ _ _ _ _ _ Hp).
    fold type doc totals amount.
    destruct (processPaymentByType env type amount doc) as [ok d m].
    cbn [pr_success] in Hr. subst ok. reflexivity.
Qed.

Lemma payment_failure_aborts_witness :
  processCheckout (fun _ => true) (fun _ => true) env_declined user0 body_card
                  world0
  = (mkResponse 400 false (Some "Payment declined by bank") None,
     log_dispatch "card" (10 + 10 * 0.08 + 0) world0)
  /\ quickCheckout (fun _ => true) helper0 env_declined user0 body_card world0
     = (mkResponse 400 false (Some "Payment declined by bank") None,
        log_dispatch "card" (Math_max 0 (10 + 10 * 0.08 - 0 + 0)) world0).
Proof.
  destruct (payment_failure_aborts (fun _ => true) (fun _ => true) helper0
              env_declined user0 body_card world0 "ph1" eq_refl eq_refl)
    as (P & Q & _).
  split.
  - rewrite (P "t1" pending_sale eq_refl ltac:(vm_compute; reflexivity)
               ltac:(discriminate)).
    + reflexivity.
    + intros _. constructor; [|constructor].
      exists (mkMedicine "Aspirin" 10 7). split; [reflexivity|cbn; lia].
    + reflexivity.
  - rewrite (Q [Transaction.mkItem "m1" "Aspirin" 1 10 (Some (inject_Z 1 * 10)) None]
               ltac:(discriminate) eq_refl eq_refl).
    reflexivity.
Defined.

(** *** Totals *)

Lemma calculateTotal_spec addresses items deliveryOption deliveryAddressId
    taxRate :
  let totals :=
    calculateTotal addresses items deliveryOption deliveryAddressId taxRate in
  subtotal totals
    == Qsum (map (fun i => Transaction.unitPrice i
                           * inject_Z (Transaction.quantity i)) items)
  /\ (deliveryOption = "delivery" -> deliveryFee totals == 5)
  /\ (deliveryOption <> "delivery" -> deliveryFee totals == 0)
  /\ tax totals == subtotal totals * orElse taxRate 0.08
  /\ total totals == subtotal totals + tax totals + deliveryFee totals.
Proof.
  unfold calculateTotal.
  destruct (String.eqb_spec deliveryOption "delivery") as [E|E];
    cbn [subtotal tax deliveryFee total];
    (split; [apply fold_left_Qsum|]);
    (split; [intros; first [reflexivity|congruence]|]);
    (split; [intros; first [reflexivity|congruence]|]);
    split; reflexivity.
Qed.

(** Both checkouts persist [max(0, subtotal + tax - discount + deliveryFee)],
    and [quickCheckout] asks the dispatch for exactly that amount. *)
Lemma quickCheckout_dispatches_persisted_total body totals :
  Math_max 0 (subtotal totals + tax totals - orElse (b_discount body) 0
              + deliveryFee totals)
  == Qmax 0 (subtotal totals + tax totals + deliveryFee totals
             - orElse (b_discount body) 0).
Proof.
  unfold Math_max.
  destruct (Q.max_spec 0 (subtotal totals + tax totals
                          - orElse (b_discount body) 0 + deliveryFee totals))
    as [[H1 H2]|[H1 H2]];
    destruct (Q.max_spec 0 (subtotal totals + tax totals + deliveryFee totals
                            - orElse (b_discount body) 0))
      as [[H3 H4]|[H3 H4]];
    rewrite H2, H4; lra.
Qed.

(** C6, where the code departs from the claim.  One Aspirin at 10.00,
    home delivery, a discount of 5, paid in cash: [processCheckout]
    persists a total of 10.80 and records a payment of 10.80, but asks the
    dispatch for 15.80, the total before the discount.  [quickCheckout] on
    the same order asks for 10.80. *)
Theorem processCheckout_dispatches_total_before_discount :
  let done :=
    processCheckout (fun _ => true) (fun _ => true) env0 user0
                    body_cash_discount world0 in
  let quick :=
    quickCheckout (fun _ => true) helper0 env0 user0
                  body_quick_cash_discount world0 in
  success (fst done) = true
  /\ (exists asked saved,
        dispatched (snd done) = [("cash", asked)]
        /\ asked == 15.8
        /\ transactions (snd done) !! "t1" = Some saved
        /\ Transaction.status saved = Transaction.completed
        /\ Transaction.totalAmount saved == 10.8
        /\ Transaction.amount (Transaction.payment saved) == 10.8
        /\ ~ asked == Transaction.totalAmount saved)
  /\ (exists asked saved,
        dispatched (snd quick) = [("cash", asked)]
        /\ asked == 10.8
        /\ transactions (snd quick) !! "t2" = Some saved
        /\ Transaction.totalAmount saved == 10.8).
Proof.
  cbv zeta. split; [vm_compute; reflexivity|]. split.
  - eexists. eexists.
    split; [vm_compute; reflexivity|]. split; [reflexivity|].
    split; [vm_compute; reflexivity|]. split; [reflexivity|].
    split; [reflexivity|]. split; [reflexivity|].
    intros K. vm_compute in K. discriminate K.
  - eexists. eexists.
    split; [vm_compute; reflexivity|]. split; [reflexivity|].
    split; [vm_compute; reflexivity|]. reflexivity.
Qed.

End CheckoutFacts.

(** ** Further properties of the transaction model *)

Module TransactionExtras.
Import Transaction Virtuals Samples.

(** X1. [generateUniqueId] returns the candidate of the first attempt whose
    candidate is not taken, and throws exactly when the candidates of all
    three attempts are taken. *)
Theorem generateUniqueId_first_free taken draw prefix :
  let candidate attempt :=
    prefix ++ "-" ++ stamp (draw attempt) ++ "-" ++ rand (draw attempt) in
  (forall uid,
     generateUniqueId taken draw prefix = Ok uid <->
     exists attempt,
       (attempt < 3)%nat /\ uid = candidate attempt
       /\ taken (candidate attempt) = false
       /\ forall earlier, (earlier < attempt)%nat ->
                          taken (candidate earlier) = true)
  /\ (generateUniqueId taken draw prefix
        = Err "Failed to generate unique transaction ID" <->
      forall attempt, (attempt < 3)%nat -> taken (candidate attempt) = true).
Proof.
  intros candidate. unfold generateUniqueId, retryCount. cbn [seq].
  fold (candidate 0%nat) (candidate 1%nat) (candidate 2%nat).
  destruct (taken (candidate 0%nat)) eqn:T0;
    [destruct (taken (candidate 1%nat)) eqn:T1;
     [destruct (taken (candidate 2%nat)) eqn:T2|]|].
  - split.
    + intros uid. split; [discriminate|].
      intros (a & Ha & _ & Hf & _).
      assert (a = 0 \/ a = 1 \/ a = 2)%nat as [-> | [-> | ->]] by lia; congruence.
    + split; [|reflexivity]. intros _ a Ha.
      assert (a = 0 \/ a = 1 \/ a = 2)%nat as [-> | [-> | ->]] by lia; assumption.
  - split.
    + intros uid. split.
      * intros H. inversion H; subst. exists 2%nat.
        repeat split; try lia; try assumption.
        intros b Hb. assert (b = 0 \/ b = 1)%nat as [E|E] by lia;
          subst b; assumption.
      * intros (a & Ha & -> & Hf & He).
        assert (a = 0 \/ a = 1 \/ a = 2)%nat as [-> | [-> | ->]] by lia;
          congruence.
    + split; [discriminate|]. intros H. rewrite (H 2%nat) in T2 by lia.
      discriminate.
  - split.
    + intros uid. split.
      * intros H. inversion H; subst. exists 1%nat.
        repeat split; try lia; try assumption.
        intros b Hb. assert (b = 0)%nat as -> by lia. assumption.
      * intros (a & Ha & -> & Hf & He).
        assert (a = 0 \/ a = 1 \/ a = 2)%nat as [-> | [-> | ->]] by lia;
          try congruence.
        rewrite (He 1%nat) in T1 by lia. discriminate.
    + split; [discriminate|]. intros H. rewrite (H 1%nat) in T1 by lia.
      discriminate.
  - split.
    + intros uid. split.
      * intros H. inversion H; subst. exists 0%nat.
        repeat split; try lia; try assumption.
      * intros (a & Ha & -> & Hf & He).
        assert (a = 0 \/ a = 1 \/ a = 2)%nat as [-> | [-> | ->]] by lia;
          try congruence;
          rewrite (He 0%nat) in T0 by lia; discriminate.
    + split; [discriminate|]. intros H. rewrite (H 0%nat) in T0 by lia.
      discriminate.
Qed.

Lemma generateUniqueId_first_free_witness :
  generateUniqueId (fun uid => String.eqb uid "TXN-LX1-AB12CD")
    (fun attempt => match attempt with
                    | O => mkDraw "LX1" "AB12CD"
                    | _ => mkDraw "LX1" "ZZ99ZZ"
                    end)
    "TXN"
  = Ok "TXN-LX1-ZZ99ZZ".
Proof.
  apply (proj1 (generateUniqueId_first_free _ _ _)).
  exists 1%nat. split; [lia|]. split; [reflexivity|]. split; [reflexivity|].
  intros earlier H. assert (earlier = 0)%nat as -> by lia. reflexivity.
Defined.

(** X2. Running the auto-status rule a second time changes nothing: with the
    same clock reading the document is the same, and with any later
    reading the status is the same. *)
Theorem autoUpdateStatus_idempotent (now now' : Date) (x : t) :
  autoUpdateStatus now (autoUpdateStatus now x) = autoUpdateStatus now x
  /\ status (autoUpdateStatus now' (autoUpdateStatus now x))
     = status (autoUpdateStatus now x).
Proof.
  unfold autoUpdateStatus.
  destruct x as [? ? ? ? ? ? ? ? ? ? ? ? [? ? ? ps ? pa ? ?] st ? ? ? ? ? ? ? ? ? ?].
  destruct ps, st; cbn; split; reflexivity.
Qed.

Lemma Qmax_0_nonpos a : a <= 0 -> Qmax 0 a == 0.
Proof.
  intros H. destruct (Q.max_spec 0 a) as [[H1 H2]|[H1 H2]]; rewrite H2; lra.
Qed.

(** X3. After a save nothing is due: [amountDue] is 0, and [isPaid] holds
    exactly when the payment status is completed. *)
Theorem saved_transaction_has_nothing_due validate env taken counters x x'
    counters' :
  save validate env taken counters x = (Ok x', counters') ->
  amountDue x' == 0
  /\ (isPaid x' = true <-> p_status (payment x') = Pay.completed).
Proof.
  intros H.
  assert (A : amount (payment x') == totalAmount x').
  { apply TransactionFacts.transaction_save_ok in H as (_ & y & Hy & ->).
    apply TransactionFacts.transaction_pre_save_ok in Hy as (x1 & _ & ->).
    eapply (TransactionFacts.ledger_consistent _ (calculateFinancials x1)).
    - etransitivity; [|apply TransactionFacts.ledger_calculateProfit].
      etransitivity; [|apply TransactionFacts.ledger_autoUpdateStatus].
      reflexivity.
    - apply TransactionFacts.calculateFinancials_ledger. }
  split.
  - unfold amountDue, Math_max. apply Qmax_0_nonpos. lra.
  - unfold isPaid. rewrite andb_true_iff, TransactionFacts.pay_eqb_eq,
      Qle_bool_iff.
    split; [tauto|]. intros E. split; [exact E|lra].
Qed.

Lemma saved_transaction_has_nothing_due_witness :
  exists x',
    save (fun _ => true) env0 (fun _ => false) ∅ unsaved_sale
      = (Ok x', <["sale_number" := 1%N]> ∅)
    /\ amountDue x' == 0 /\ isPaid x' = false.
Proof.
  eexists. split; [reflexivity|].
  destruct (saved_transaction_has_nothing_due (fun _ => true) env0
              (fun _ => false) ∅ unsaved_sale _ _ eq_refl) as [D P].
  split; [exact D|]. reflexivity.
Defined.

(** X4. The 90-day window of [canRefund] is the [ageInDays] virtual being
    below 90: a transaction can be refunded exactly when it is completed,
    not fully refunded and less than 90 whole days old. *)
Theorem canRefund_ageInDays (now : Date) (x : t) :
  canRefund now x = true <->
  status x = completed /\ totalRefunded x < totalAmount x
  /\ (ageInDays now x < 90)%Z.
Proof.
  rewrite TransactionFacts.canRefund_iff.
  unfold ageInDays, ninetyDays, msPerDay.
  assert (W : (now - 90 * 24 * 60 * 60 * 1000 < transactionDate x
               <-> (now - transactionDate x) / (1000 * 60 * 60 * 24) < 90)%Z).
  { split; intros H.
    - apply Z.div_lt_upper_bound; lia.
    - destruct (Z.lt_ge_cases (now - 90 * 24 * 60 * 60 * 1000)
                              (transactionDate x)) as [L|G]; [exact L|].
      exfalso.
      assert (90 <= (now - transactionDate x) / (1000 * 60 * 60 * 24))%Z
        by (apply Z.div_le_lower_bound; lia).
      lia. }
  tauto.
Qed.


Lemma Qsum_le {A} (f g : A -> Q) (l : list A) :
  Forall (fun a => f a <= g a) l -> Qsum (map f l) <= Qsum (map g l).
Proof.
  induction 1 as [|a l Ha _ IH]; cbn [map Qsum]; [lra|lra].
Qed.



(** X6. [calculateProfit] counts a line without cost price as sold at no
    cost, sets the margin to 0 when the subtotal is not positive, and
    never reports a margin above 100 when the subtotal is the sum of
    quantity times unit price over lines with non-negative quantities and
    costs. *)
Theorem calculateProfit_margin (x : t) :
  profit (calculateProfit x)
    == Qsum (map (fun i => (unitPrice i - orZero (costPrice i))
                           * inject_Z (quantity i)) (items x))
  /\ (subtotal x <= 0 -> marginPercentage (calculateProfit x) == 0)
  /\ (0 < subtotal x ->
      subtotal x == Qsum (map (fun i => unitPrice i * inject_Z (quantity i))
                              (items x)) ->
      Forall (fun i => 0 <= orZero (costPrice i) /\ (0 <= quantity i)%Z)
             (items x) ->
      marginPercentage (calculateProfit x) <= 100).
Proof.
  unfold calculateProfit. cbn [profit marginPercentage set_profit].
  assert (P : fold_left
                (fun total item =>
                   total + (unitPrice item - orZero (costPrice item))
                           * inject_Z (quantity item)) (items x) 0
              == Qsum (map (fun i => (unitPrice i - orZero (costPrice i))
                                     * inject_Z (quantity i)) (items x)))
    by apply fold_left_Qsum.
  split; [exact P|]. split.
  - intros H. apply Qltb_ge in H. rewrite H. reflexivity.
  - intros H S F. pose proof H as H'. apply Qltb_lt in H'. rewrite H'.
    rewrite P.
    assert (L : Qsum (map (fun i => (unitPrice i - orZero (costPrice i))
                                    * inject_Z (quantity i)) (items x))
                <= subtotal x).
    { rewrite S. apply Qsum_le. eapply List.Forall_impl; [|exact F].
      intros i [Hc Hq]. cbn beta.
      assert (0 <= inject_Z (quantity i))
        by (change 0 with (inject_Z 0); rewrite <- Zle_Qle; exact Hq).
      nra. }
    set (p := Qsum _) in *.
    assert (D : p / subtotal x <= 1).
    { apply Qle_shift_div_r; [exact H|lra]. }
    lra.
Qed.

Lemma calculateProfit_margin_witness :
  marginPercentage (calculateProfit paid_100) <= 100.
Proof.
  apply (calculateProfit_margin paid_100).
  - reflexivity.
  - reflexivity.
  - constructor; [|constructor]. split; [cbn; discriminate|cbn; lia].
Defined.

End TransactionExtras.

(** ** Further properties of the cart model *)

Module CartExtras.
Import Cart CartViews CartSamples.

Lemma items_pre_save_char now l :
  items_pre_save now l
  = if existsb (expired now) l then Err "Expiry date must be in the future"
    else Ok (map repriced l).
Proof.
  induction l as [|i l IH]; [reflexivity|].
  cbn [items_pre_save existsb map]. rewrite IH.
  unfold item_pre_save, expired, repriced.
  cbn [expiryDate set_totalPrice].
  destruct (expiryDate i) as [d|]; [destruct (d <=? now)%Z|];
    cbn [bindR orb]; try reflexivity;
    destruct (existsb _ l); reflexivity.
Qed.

Lemma save_char validate now c :
  save validate now c
  = if validate c then
      if existsb (expired now) (items c)
      then Err "Expiry date must be in the future"
      else Ok (pre_save now (set_items (map repriced (items c)) c))
    else Err "Validation failed".
Proof.
  unfold save. destruct (validate c); [|reflexivity].
  rewrite items_pre_save_char. destruct (existsb _ _); reflexivity.
Qed.

Lemma expired_repriced now l :
  existsb (expired now) (map repriced l) = existsb (expired now) l.
Proof. induction l as [|i l IH]; [reflexivity|]. cbn. now rewrite IH. Qed.

Lemma repriced_twice l : map repriced (map repriced l) = map repriced l.
Proof. rewrite map_map. apply map_ext. intros []; reflexivity. Qed.

(** X7. Saving a cart that was just saved, at the same clock reading, gives
    the same cart again. *)
Theorem save_twice validate now c c' :
  save validate now c = Ok c' ->
  validate c' = true ->
  save validate now c' = Ok c'.
Proof.
  rewrite !save_char. destruct (validate c); [|discriminate].
  destruct (existsb (expired now) (items c)) eqn:E; [discriminate|].
  intros H V. inversion H as [H']. rewrite H', V. subst c'.
  cbn [items pre_save set_items set_totals set_lastActivity set_finalAmount].
  rewrite expired_repriced, E, repriced_twice. reflexivity.
Qed.

Lemma save_twice_witness :
  save (fun _ => true) 1000 c1_sample = Ok c1_sample.
Proof.
  apply (save_twice (fun _ => true) 1000
           (set_totals 7 9%nat 9%Z c1_sample) c1_sample).
  - reflexivity.
  - reflexivity.
Defined.

Lemma findIndex_Some {A} (p : A -> bool) (l : list A) i :
  findIndex p l = Some i -> exists x, l !! i = Some x /\ p x = true.
Proof.
  revert i. induction l as [|a l IH]; intros i; cbn [findIndex];
    [discriminate|].
  destruct (p a) eqn:P.
  - intros H. inversion H. exists a. split; [reflexivity|exact P].
  - destruct (findIndex p l) as [j|]; cbn [option_map]; [|discriminate].
    intros H. inversion H. destruct (IH j eq_refl) as (x & Hx & Px).
    exists x. split; [exact Hx|exact Px].
Qed.

Lemma findIndex_None {A} (p : A -> bool) (l : list A) :
  findIndex p l = None -> List.Forall (fun x => p x = false) l.
Proof.
  induction l as [|a l IH]; cbn [findIndex]; [constructor|].
  destruct (p a) eqn:P; [discriminate|].
  destruct (findIndex p l); cbn [option_map]; [discriminate|].
  intros _. constructor; [exact P|apply IH; reflexivity].
Qed.

Lemma map_alter_same {A B} (g : A -> B) (f : A -> A) i (l : list A) :
  (forall x, g (f x) = g x) -> map g (alter f i l) = map g l.
Proof.
  intros H. revert i. induction l as [|a l IH]; intros i; [reflexivity|].
  destruct i as [|i]; cbn; [rewrite H; reflexivity|].
  f_equal. apply IH.
Qed.

Lemma Zsum_alter {A} (q : A -> Z) (f : A -> A) i (l : list A) x :
  l !! i = Some x ->
  Zsum (map q (alter f i l)) = (Zsum (map q l) - q x + q (f x))%Z.
Proof.
  revert i. induction l as [|a l IH]; intros i; [discriminate|].
  destruct i as [|i]; cbn.
  - intros H. inversion H. lia.
  - intros H. rewrite (IH i H). lia.
Qed.

Lemma medicineId_In_findIndex (id : string) (l : list Item) :
  In id (map medicineId l) <->
  findIndex (fun item => String.eqb (medicineId item) id) l <> None.
Proof.
  induction l as [|a l IH]; cbn [map In findIndex]; [tauto|].
  destruct (String.eqb_spec (medicineId a) id) as [E|E].
  - split; [discriminate|auto].
  - rewrite IH. destruct (findIndex _ l) as [j|]; cbn [option_map].
    + split; intros _; [discriminate|right; discriminate].
    + split; [intros [H|H]; [contradiction|exact H]|intros H; right; exact H].
Qed.

(** What [addItem] saves, by the two branches of the code. *)
Lemma addItem_saved validate now fresh itemData c c' :
  addItem validate now fresh itemData c = Ok c' ->
  exists lines,
    items c' = map repriced lines
    /\ c' = pre_save now (set_items (map repriced lines) c)
    /\ ((exists i line,
           items c !! i = Some line
           /\ medicineId line = id_medicineId itemData
           /\ lines = alter (fun item =>
                               set_totalPrice
                                 (inject_Z (quantity item + id_quantity itemData)
                                  * unitPrice item)
                                 (set_quantity
                                    (quantity item + id_quantity itemData) item))
                            i (items c))
        \/ (~ In (id_medicineId itemData) (map medicineId (items c))
            /\ lines = (items c ++
                        [mkItem fresh (id_medicineId itemData)
                           (id_medicineName itemData) (id_quantity itemData)
                           (id_unitPrice itemData)
                           (inject_Z (id_quantity itemData)
                            * id_unitPrice itemData)
                           (id_expiryDate itemData) (pharmacyId c)])%list)).
Proof.
  unfold addItem.
  destruct (findIndex _ (items c)) as [i|] eqn:F; rewrite save_char;
    destruct (validate _); try discriminate;
    cbn [items set_items];
    destruct (existsb _ _); try discriminate;
    intros H; inversion H; eexists; (split; [reflexivity|]);
    (split; [reflexivity|]).
  - left. destruct (findIndex_Some _ _ _ F) as (line & Hl & Hp).
    exists i, line. split; [exact Hl|]. split; [|reflexivity].
    apply String.eqb_eq, Hp.
  - right. split; [|reflexivity].
    rewrite medicineId_In_findIndex, F. tauto.
Qed.

(** X8. [addItem] keeps the lines of a cart unique by medicine: a medicine
    already in the cart keeps its single line, at the same place and at
    the unit price that line had, and a new medicine is appended as the
    last line. *)
Theorem addItem_keeps_lines_unique validate now fresh itemData c c' :
  addItem validate now fresh itemData c = Ok c' ->
  (In (id_medicineId itemData) (map medicineId (items c)) ->
   map medicineId (items c') = map medicineId (items c)
   /\ map unitPrice (items c') = map unitPrice (items c))
  /\ (~ In (id_medicineId itemData) (map medicineId (items c)) ->
      map medicineId (items c')
      = (map medicineId (items c) ++ [id_medicineId itemData])%list)
  /\ (NoDup (map medicineId (items c)) -> NoDup (map medicineId (items c'))).
Proof.
  intros H. apply addItem_saved in H as (lines & E & _ & B). rewrite E.
  assert (M : map medicineId (map repriced lines) = map medicineId lines)
    by (rewrite map_map; reflexivity).
  assert (U : map unitPrice (map repriced lines) = map unitPrice lines)
    by (rewrite map_map; reflexivity).
  rewrite M, U.
  destruct B as [(i & line & Hl & Hm & ->)|[Hn ->]].
  - rewrite !map_alter_same by reflexivity.
    split; [auto|]. split; [|auto].
    intros Hn. exfalso. apply Hn. rewrite <- Hm.
    apply in_map. apply list_elem_of_In. eapply list_elem_of_lookup_2, Hl.
  - split; [tauto|]. rewrite map_app. cbn [map medicineId].
    split; [auto|]. intros N. apply NoDup_app. split; [exact N|].
    split; [|apply NoDup_singleton].
    intros x Hx Hx'. apply list_elem_of_singleton in Hx'. subst x.
    apply Hn, list_elem_of_In, Hx.
Qed.

Lemma addItem_keeps_lines_unique_witness :
  exists c2,
    addItem (fun _ => true) 1000 "i9" item_A c1_sample = Ok c2
    /\ map medicineId (items c2) = ["m1"]
    /\ map unitPrice (items c2) = [10].
Proof.
  eexists. split; [reflexivity|].
  exact (proj1 (addItem_keeps_lines_unique (fun _ => true) 1000 "i9" item_A
                  c1_sample _ eq_refl)
           (or_introl eq_refl)).
Defined.

(** X9. [addItem] raises the cart's [totalQuantity] by exactly the quantity
    added, whether the medicine's line is merged or appended. *)
Theorem addItem_adds_quantity validate now fresh itemData c c' :
  addItem validate now fresh itemData c = Ok c' ->
  totalQuantity c'
  = (Zsum (map quantity (items c)) + id_quantity itemData)%Z.
Proof.
  intros H. apply addItem_saved in H as (lines & _ & -> & B).
  unfold pre_save.
  cbn [totalQuantity set_finalAmount set_lastActivity set_totals items
       set_items].
  rewrite fold_left_Zsum, map_map.
  change (map (fun x => quantity (repriced x)) lines) with (map quantity lines).
  destruct B as [(i & line & Hl & _ & ->)|[_ ->]].
  - rewrite (Zsum_alter quantity _ i (items c) line Hl).
    cbn [quantity set_totalPrice set_quantity]. lia.
  - rewrite map_app. cbn [map quantity].
    clear. induction (items c) as [|a l IH]; cbn; [lia|].
    cbn in IH. lia.
Qed.

Lemma addItem_adds_quantity_witness :
  exists c2,
    addItem (fun _ => true) 1000 "i9" item_A c1_sample = Ok c2
    /\ totalQuantity c2 = 4%Z.
Proof.
  eexists. split; [reflexivity|].
  exact (addItem_adds_quantity (fun _ => true) 1000 "i9" item_A c1_sample _
           eq_refl).
Defined.



Lemma findIndex_id_None (itemId : string) (l : list Item) :
  findIndex (fun item => String.eqb (_id item) itemId) l = None <->
  ~ In itemId (map _id l).
Proof.
  induction l as [|a l IH]; cbn [map In findIndex]; [tauto|].
  destruct (String.eqb_spec (_id a) itemId) as [E|E].
  - split; [discriminate|tauto].
  - destruct (findIndex _ l) as [j|]; cbn [option_map].
    + split; [discriminate|]. intros H. exfalso.
      assert (K : Some j = (None : option nat))
        by (apply IH; intros I; apply H; right; exact I).
      discriminate K.
    + split; [|reflexivity]. intros _ [H|H]; [contradiction|].
      exact (proj1 IH eq_refl H).
Qed.

Lemma In_map_alter {A B} (g : A -> B) (f : A -> A) i (l : list A) x :
  l !! i = Some x -> In (g (f x)) (map g (alter f i l)).
Proof.
  revert i. induction l as [|a l IH]; intros i; [discriminate|].
  destruct i as [|i]; cbn.
  - intros H. inversion H. left. reflexivity.
  - intros H. right. apply (IH i H).
Qed.

(** X11. [updateItemQuantity] throws 'Quantity must be at least 1' below 1 and
    'Item not found in cart' for an unknown [_id]; when it succeeds the
    lines keep their order, ids and unit prices, and the line asked for
    holds the new quantity and a total price of quantity times unit
    price. *)
Theorem updateItemQuantity_cases validate now itemId qty c :
  ((qty < 1)%Z ->
   updateItemQuantity validate now itemId qty c
   = Err "Quantity must be at least 1")
  /\ ((1 <= qty)%Z -> ~ In itemId (map _id (items c)) ->
      updateItemQuantity validate now itemId qty c
      = Err "Item not found in cart")
  /\ (forall c',
        updateItemQuantity validate now itemId qty c = Ok c' ->
        (1 <= qty)%Z
        /\ map _id (items c') = map _id (items c)
        /\ map unitPrice (items c') = map unitPrice (items c)
        /\ exists line,
             In line (items c') /\ _id line = itemId
             /\ quantity line = qty
             /\ totalPrice line = inject_Z qty * unitPrice line).
Proof.
  unfold updateItemQuantity. split; [|split].
  - intros H. apply Z.ltb_lt in H. rewrite H. reflexivity.
  - intros H N. apply Z.ltb_ge in H. rewrite H.
    apply findIndex_id_None in N. rewrite N. reflexivity.
  - intros c'. destruct (qty <? 1)%Z eqn:Q; [discriminate|].
    apply Z.ltb_ge in Q.
    destruct (findIndex _ (items c)) as [i|] eqn:F; [|discriminate].
    rewrite save_char. destruct (validate _); [|discriminate].
    cbn [items set_items]. destruct (existsb _ _); [discriminate|].
    intros H. inversion H as [H']. clear H H'.
    cbn [items pre_save set_items set_totals set_lastActivity set_finalAmount].
    split; [exact Q|].
    rewrite !map_map.
    change (map (fun x => _id (repriced x))) with (map _id).
    change (map (fun x => unitPrice (repriced x))) with (map unitPrice).
    rewrite !map_alter_same by reflexivity.
    split; [reflexivity|]. split; [reflexivity|].
    destruct (findIndex_Some _ _ _ F) as (x & Hx & Px).
    apply String.eqb_eq in Px.
    exists (repriced (set_totalPrice (inject_Z qty * unitPrice x)
                                     (set_quantity qty x))).
    split; [|split; [exact Px|split; reflexivity]].
    exact (In_map_alter repriced
             (fun item => set_totalPrice (inject_Z qty * unitPrice item)
                                         (set_quantity qty item))
             i (items c) x Hx).
Qed.

Lemma updateItemQuantity_cases_witness :
  updateItemQuantity (fun _ => true) 1000 "i1" 0 c1_sample
  = Err "Quantity must be at least 1"
  /\ updateItemQuantity (fun _ => true) 1000 "zz" 3 c1_sample
     = Err "Item not found in cart".
Proof.
  destruct (updateItemQuantity_cases (fun _ => true) 1000 "i1" 0 c1_sample)
    as (A & _).
  destruct (updateItemQuantity_cases (fun _ => true) 1000 "zz" 3 c1_sample)
    as (_ & B & _).
  split; [apply A; lia|apply B; [lia|]].
  cbn. intros [H|[]]. discriminate H.
Defined.




End CartExtras.

(** ** Further properties of the checkout model *)

Module CheckoutExtras.
Import Checkout CheckoutViews CheckoutSamples.

(** X13. The payment dispatch by type: cash and bank transfer always succeed,
    cash recording the amount as received with no change; the card and
    wallet gateways succeed exactly when their random draw is at least
    0.05 and 0.03; any other type fails with 'Unsupported payment method'.
    Whether it succeeds never depends on the amount or on the stored
    method. *)
Theorem processPaymentByType_outcomes env type amount paymentMethod :
  (type = "cash" ->
   processPaymentByType env type amount paymentMethod
   = mkPaymentResult true (Some (CashData amount 0)) None)
  /\ (type = "bank_transfer" ->
      pr_success (processPaymentByType env type amount paymentMethod) = true)
  /\ (type = "card" ->
      (pr_success (processPaymentByType env type amount paymentMethod) = true
       <-> 0.05 <= random env))
  /\ (type = "digital_wallet" ->
      (pr_success (processPaymentByType env type amount paymentMethod) = true
       <-> 0.03 <= random env))
  /\ (type <> "cash" -> type <> "card" -> type <> "bank_transfer" ->
      type <> "digital_wallet" ->
      processPaymentByType env type amount paymentMethod
      = mkPaymentResult false None (Some "Unsupported payment method"))
  /\ (forall amount' paymentMethod',
        pr_success (processPaymentByType env type amount' paymentMethod')
        = pr_success (processPaymentByType env type amount paymentMethod)).
Proof.
  unfold processPaymentByType, processCardPayment, processDigitalWallet,
    mockCardPaymentGateway, mockDigitalWalletPayment, processBankTransfer,
    processCashPayment.
  split; [|split; [|split; [|split; [|split]]]].
  - intros ->. reflexivity.
  - intros ->. reflexivity.
  - intros ->. cbn. destruct (Qltb (random env) 0.05) eqn:R; cbn.
    + apply Qltb_lt in R. split; [discriminate|]. intros H. lra.
    + apply Qltb_ge in R. split; [intros _; exact R|reflexivity].
  - intros ->. cbn. destruct (Qltb (random env) 0.03) eqn:R; cbn.
    + apply Qltb_lt in R. split; [discriminate|]. intros H. lra.
    + apply Qltb_ge in R. split; [intros _; exact R|reflexivity].
  - intros N1 N2 N3 N4.
    apply String.eqb_neq in N1, N2, N3, N4. rewrite N1, N2, N3, N4.
    reflexivity.
  - intros amount' paymentMethod'.
    destruct (String.eqb type "cash"); [reflexivity|].
    destruct (String.eqb type "card");
      [destruct (Qltb (random env) 0.05); reflexivity|].
    destruct (String.eqb type "bank_transfer"); [reflexivity|].
    destruct (String.eqb type "digital_wallet");
      [destruct (Qltb (random env) 0.03); reflexivity|].
    reflexivity.
Qed.

Lemma processPaymentByType_outcomes_witness :
  pr_success (processPaymentByType env_declined "card" 10 None) = false
  /\ pr_success (processPaymentByType env0 "card" 10 None) = true.
Proof.
  destruct (processPaymentByType_outcomes env0 "card" 10 None)
    as (_ & _ & C & _).
  split; [reflexivity|]. apply (C eq_refl). cbn. discriminate.
Defined.

(** X14. After the stock update every medicine holds what it held minus the
    quantities of all the lines naming it; a line whose medicine does not
    resolve creates nothing, and nothing stops the stock from going
    below 0. *)
Theorem decrementStock_lookup lines meds medicineId :
  decrementStock lines meds !! medicineId
  = (fun med => set_m_quantity (m_quantity med - asked lines medicineId) med)
      <$> meds !! medicineId.
Proof.
  unfold decrementStock, asked. revert meds.
  induction lines as [|[id q] lines IH]; intros meds.
  - cbn. destruct (meds !! medicineId) as [[n p s]|]; cbn; [|reflexivity].
    unfold set_m_quantity. cbn. do 2 f_equal. lia.
  - cbn [fold_left fst snd List.filter]. rewrite IH.
    destruct (String.eqb_spec id medicineId) as [->|N].
    + rewrite lookup_alter_eq.
      destruct (meds !! medicineId) as [[n p s]|]; cbn; [|reflexivity].
      unfold set_m_quantity. cbn. do 2 f_equal. lia.
    + rewrite lookup_alter_ne by exact N. reflexivity.
Qed.

Lemma decrementStock_lookup_witness :
  decrementStock [("m1", 5%Z); ("zz", 1%Z); ("m1", 4%Z)] (medicines world0)
    !! "m1"
  = Some (mkMedicine "Aspirin" 10 (-2)).
Proof.
  rewrite (decrementStock_lookup [("m1", 5%Z); ("zz", 1%Z); ("m1", 4%Z)]
             (medicines world0) "m1").
  reflexivity.
Defined.

(** X15. The lines [quickCheckout] builds: one per line asked, in order, each
    with the medicine's name, the quantity asked, a total price of
    quantity times unit price, and as unit price the one given unless it
    is missing or 0, in which case the catalog price. *)
Theorem prepareItems_lines transactionType meds items built :
  prepareItems transactionType meds items = inr built ->
  Forall2
    (fun item line =>
       exists medicine,
         meds !! bi_medicineId item = Some medicine
         /\ Transaction.medicineId line = bi_medicineId item
         /\ Transaction.medicineName line = m_name medicine
         /\ Transaction.quantity line = bi_quantity item
         /\ Transaction.unitPrice line = priceOf medicine item
         /\ Transaction.totalPrice line
            = Some (inject_Z (bi_quantity item) * priceOf medicine item))
    items built.
Proof.
  revert built. induction items as [|item rest IH]; intros built;
    cbn [prepareItems].
  - intros H. inversion H. constructor.
  - destruct (meds !! bi_medicineId item) as [medicine|] eqn:M;
      [|discriminate].
    destruct (String.eqb transactionType "sale"
              && (m_quantity medicine <? bi_quantity item)%Z);
      [discriminate|].
    destruct (prepareItems transactionType meds rest) as [f|pushed];
      [discriminate|].
    intros H. inversion H. constructor; [|apply IH; reflexivity].
    exists medicine. repeat split; try reflexivity. exact M.
Qed.

Lemma prepareItems_lines_witness :
  Forall2
    (fun item line =>
       exists medicine,
         medicines world0 !! bi_medicineId item = Some medicine
         /\ Transaction.medicineId line = bi_medicineId item
         /\ Transaction.medicineName line = m_name medicine
         /\ Transaction.quantity line = bi_quantity item
         /\ Transaction.unitPrice line = priceOf medicine item
         /\ Transaction.totalPrice line
            = Some (inject_Z (bi_quantity item) * priceOf medicine item))
    [mkBodyItem "m1" 3 (Some 0)]
    [Transaction.mkItem "m1" "Aspirin" 3 10 (Some (inject_Z 3 * 10)) None].
Proof.
  apply (prepareItems_lines "sale" (medicines world0)). reflexivity.
Defined.

Lemma prepareItems_first_failure transactionType meds
    (pre : list BodyItem) item post :
  Forall (accepted transactionType meds) pre ->
  (meds !! bi_medicineId item = None ->
   prepareItems transactionType meds (pre ++ item :: post)%list
   = inl (fail 404 ("Medicine with ID " ++ bi_medicineId item
                    ++ " not found")))
  /\ (forall medicine,
        meds !! bi_medicineId item = Some medicine ->
        transactionType = "sale" ->
        (m_quantity medicine < bi_quantity item)%Z ->
        prepareItems transactionType meds (pre ++ item :: post)%list
        = inl (fail 400 ("Insufficient stock for " ++ m_name medicine
                         ++ ". Available: "
                         ++ String_ofZ (m_quantity medicine)))).
Proof.
  induction 1 as [|p pre (m & Hm & Hq) _ IH]; cbn [app prepareItems].
  - split.
    + intros ->. reflexivity.
    + intros medicine -> -> Hlt. apply Z.ltb_lt in Hlt. rewrite Hlt.
      reflexivity.
  - rewrite Hm.
    assert (G : String.eqb transactionType "sale"
                && (m_quantity m <? bi_quantity p)%Z = false).
    { destruct (String.eqb_spec transactionType "sale") as [E|E];
        [|reflexivity].
      cbn [andb]. apply Z.ltb_ge, Hq, E. }
    rewrite G. destruct IH as [I404 I400]. split.
    + intros H. rewrite (I404 H). reflexivity.
    + intros medicine H E L. rewrite (I400 medicine H E L). reflexivity.
Qed.

(** X16. A quick checkout checks every line before it writes anything: at the
    first line whose medicine does not resolve it answers 404, and, for a
    sale, at the first line asking more than the stock it answers 400
    with the medicine's name and the quantity available; in both cases
    the collections and the dispatch log are what they were. *)
Theorem quickCheckout_rejects_before_writing validateTransaction
    generateTransactionNumber env user body w pharmacyId
    (pre : list BodyItem) item post :
  pharmacyOf user = Some pharmacyId ->
  b_items body = (pre ++ item :: post)%list ->
  Forall (accepted (orElse (b_transactionType body) "sale") (medicines w))
         pre ->
  (medicines w !! bi_medicineId item = None ->
   quickCheckout validateTransaction generateTransactionNumber env user body w
   = (fail 404 ("Medicine with ID " ++ bi_medicineId item ++ " not found"),
      w))
  /\ (forall medicine,
        medicines w !! bi_medicineId item = Some medicine ->
        orElse (b_transactionType body) "sale" = "sale" ->
        (m_quantity medicine < bi_quantity item)%Z ->
        quickCheckout validateTransaction generateTransactionNumber env user
                      body w
        = (fail 400 ("Insufficient stock for " ++ m_name medicine
                     ++ ". Available: " ++ String_ofZ (m_quantity medicine)),
           w)).
Proof.
  intros Hu Hi Hpre.
  destruct (prepareItems_first_failure _ _ pre item post Hpre) as [P404 P400].
  unfold quickCheckout. rewrite Hu. cbv zeta. rewrite Hi.
  rewrite CheckoutFacts.length_nonempty.
  split.
  - intros Hm. rewrite (P404 Hm). reflexivity.
  - intros medicine Hm Ht Hlt. rewrite (P400 medicine Hm Ht Hlt). reflexivity.
Qed.

Lemma quickCheckout_rejects_before_writing_witness :
  quickCheckout (fun _ => true) helper0 env0 user0
    (mkBody None None [mkBodyItem "m1" 1 None; mkBodyItem "m1" 9 None]
            (Some "cash") None None None None None)
    world0
  = (fail 400 "Insufficient stock for Aspirin. Available: 7", world0).
Proof.
  refine (proj2 (quickCheckout_rejects_before_writing
                   (fun _ => true) helper0 env0 user0
                   (mkBody None None
                      [mkBodyItem "m1" 1 None; mkBodyItem "m1" 9 None]
                      (Some "cash") None None None None None)
                   world0 "ph1" [mkBodyItem "m1" 1 None]
                   (mkBodyItem "m1" 9 None) [] eq_refl eq_refl _)
                (mkMedicine "Aspirin" 10 7) _ eq_refl _).
  - constructor; [|constructor].
    exists (mkMedicine "Aspirin" 10 7). split; [reflexivity|].
    intros _. cbn. lia.
  - reflexivity.
  - reflexivity.
Defined.

(** X17. [calculateTotal]: the subtotal is the sum of unit price times
    quantity, the tax is the subtotal times the rate (0.08 when none is
    given), the fee is 5 for delivery and 0 otherwise, and the total is
    their sum, never less than the subtotal for non-negative lines and
    rate.  The delivery address is resolved only for a delivery whose
    address id is non-empty and exists. *)
Theorem calculateTotal_parts addresses items deliveryOption deliveryAddressId
    taxRate :
  let totals :=
    calculateTotal addresses items deliveryOption deliveryAddressId taxRate in
  subtotal totals
    == Qsum (map (fun i => Transaction.unitPrice i
                           * inject_Z (Transaction.quantity i)) items)
  /\ tax totals == subtotal totals * orElse taxRate 0.08
  /\ deliveryFee totals == (if String.eqb deliveryOption "delivery" then 5 else 0)
  /\ total totals == subtotal totals + tax totals + deliveryFee totals
  /\ (0 <= subtotal totals -> 0 <= orElse taxRate 0.08 ->
      subtotal totals <= total totals)
  /\ (forall a,
        deliveryAddress totals = Some a <->
        deliveryOption = "delivery" /\ deliveryAddressId = Some a
        /\ a <> "" /\ a ∈ addresses).
Proof.
  unfold calculateTotal.
  destruct (String.eqb_spec deliveryOption "delivery") as [E|E];
    cbn [subtotal tax deliveryFee total deliveryAddress];
    (split; [apply fold_left_Qsum|]);
    (split; [reflexivity|]); (split; [reflexivity|]);
    (split; [reflexivity|]);
    (split; [intros H1 H2;
             assert (0 <= fold_left
                       (fun total item =>
                          total + Transaction.unitPrice item
                                  * inject_Z (Transaction.quantity item))
                       items 0 * orElse taxRate 0.08)
               by (apply Qmult_le_0_compat; assumption);
             lra|]).
  - intros a. destruct deliveryAddressId as [b|].
    + destruct (String.eqb_spec b "") as [B|B]; cbn [negb andb].
      * split; [discriminate|]. intros (_ & Hb & Hn & _).
        inversion Hb. congruence.
      * destruct (bool_decide_reflect (b ∈ addresses)) as [I|I].
        -- split.
           ++ intros H. inversion H. subst a. auto.
           ++ intros (_ & Hb & _). exact Hb.
        -- split; [discriminate|]. intros (_ & Hb & _ & Ha).
           inversion Hb. subst. contradiction.
    + split; [discriminate|]. intros (_ & Hb & _). discriminate.
  - intros a. split; [discriminate|]. intros (H & _). contradiction.
Qed.

(** The identifier block of the middleware touches the identifiers only. *)
Lemma assignIdentifiers_frame env taken counters x x1 counters' :
  Transaction.assignIdentifiers env taken counters x = (Ok x1, counters') ->
  Transaction.status x1 = Transaction.status x
  /\ Transaction.payment x1 = Transaction.payment x
  /\ Transaction.ledger x1 = Transaction.ledger x.
Proof.
  unfold Transaction.assignIdentifiers.
  destruct (Transaction.isNew x) eqn:N; [|intros H; inversion H; auto].
  destruct x as [nw ph ty tid tnum tref ? ? ? ? ? ? ? ? ? ? ? ? ? ? ? ? ? ?].
  cbn in N. subst nw.
  unfold Transaction.set_transactionId, Transaction.set_transactionNumber,
    Transaction.set_transactionRef, bindR.
  cbn [Transaction.isNew Transaction.transactionId
       Transaction.transactionNumber Transaction.transactionRef
       Transaction.transactionType].
  destruct (Transaction.getNextSequence (ty ++ "_number") counters)
    as [counter cs'] eqn:GN.
  destruct (falsyStr tid);
    [destruct (Transaction.generateUniqueId taken (Transaction.idDraw env) "TXN");
       [|discriminate]|];
    cbn [Transaction.isNew Transaction.transactionId
         Transaction.transactionNumber Transaction.transactionRef
         Transaction.transactionType];
    (destruct (falsyStr tnum);
     cbn [Transaction.isNew Transaction.transactionId
          Transaction.transactionNumber Transaction.transactionRef
          Transaction.transactionType];
     rewrite ?GN;
     cbn [Transaction.isNew Transaction.transactionId
          Transaction.transactionNumber Transaction.transactionRef
          Transaction.transactionType];
     (destruct (falsyStr tref);
      [destruct (Transaction.generateUniqueId taken (Transaction.refDraw env)
                   "REF"); [|discriminate]|];
      intros H; inversion H; subst; repeat split)).
Qed.

Lemma autoUpdateStatus_p_status now x :
  Transaction.p_status (Transaction.payment (Transaction.autoUpdateStatus now x))
  = Transaction.p_status (Transaction.payment x).
Proof.
  unfold Transaction.autoUpdateStatus.
  destruct x as [? ? ? ? ? ? ? ? ? ? ? ? [? ? ? ps ? ? ? ?] st ? ? ? ? ? ? ? ? ? ?].
  destruct ps, st; reflexivity.
Qed.

Lemma autoUpdateStatus_status_congr now x y :
  Transaction.status x = Transaction.status y ->
  Transaction.p_status (Transaction.payment x)
  = Transaction.p_status (Transaction.payment y) ->
  Transaction.status (Transaction.autoUpdateStatus now x)
  = Transaction.status (Transaction.autoUpdateStatus now y).
Proof.
  unfold Transaction.autoUpdateStatus.
  destruct x as [? ? ? ? ? ? ? ? ? ? ? ? [? ? ? ps ? ? ? ?] st ? ? ? ? ? ? ? ? ? ?].
  destruct y as [? ? ? ? ? ? ? ? ? ? ? ? [? ? ? ps' ? ? ? ?] st' ? ? ? ? ? ? ? ? ? ?].
  cbn. intros -> ->. destruct ps', st'; reflexivity.
Qed.

(** What a successful [transaction.save()] stores, seen from the fields
    the checkout cares about. *)
Lemma saved_view validate env taken counters x x' counters' :
  Transaction.save validate env taken counters x = (Ok x', counters') ->
  Transaction.items x' = Transaction.items x
  /\ Transaction.totalAmount x'
     == Qmax 0 (Qsum (map (fun i => orZero (Transaction.totalPrice i))
                          (Transaction.items x))
                + orZero (Transaction.tax x) - orZero (Transaction.discount x)
                + orZero (Transaction.deliveryFee x))
  /\ Transaction.amount (Transaction.payment x') == Transaction.totalAmount x'
  /\ Transaction.p_status (Transaction.payment x')
     = Transaction.p_status (Transaction.payment x)
  /\ Transaction.status x'
     = Transaction.status
         (Transaction.autoUpdateStatus (Transaction.now env) x).
Proof.
  intros H.
  apply TransactionFacts.transaction_save_ok in H as (_ & y & Hy & ->).
  apply TransactionFacts.transaction_pre_save_ok in Hy as (x1 & Hx1 & ->).
  destruct (assignIdentifiers_frame _ _ _ _ _ _ Hx1) as (S & P & L).
  cbn [Transaction.items Transaction.totalAmount Transaction.payment
       Transaction.status Transaction.set_isNew Transaction.set_updatedBy].
  assert (L1 : Transaction.ledger
                 (Transaction.autoUpdateStatus (Transaction.now env)
                    (Transaction.calculateProfit
                       (Transaction.calculateFinancials x1)))
               = Transaction.ledger (Transaction.calculateFinancials x1)).
  { rewrite TransactionFacts.ledger_autoUpdateStatus.
    apply TransactionFacts.ledger_calculateProfit. }
  destruct (TransactionFacts.calculateFinancials_ledger x1)
    as (I & F1 & F2 & F3).
  unfold Transaction.ledger in L, L1.
  injection L as Li Ls Lt Ld Lf La Lp.
  injection L1 as Mi Ms Mt Md Mf Ma Mp.
  assert (I0 : Transaction.items (Transaction.calculateFinancials x1)
               = Transaction.items x1).
  { unfold Transaction.calculateFinancials.
    match goal with |- context [if ?b then _ else _] => destruct b end;
      reflexivity. }
  assert (T0 : Transaction.tax (Transaction.calculateFinancials x1)
               = Transaction.tax x1
               /\ Transaction.discount (Transaction.calculateFinancials x1)
                  = Transaction.discount x1
               /\ Transaction.deliveryFee (Transaction.calculateFinancials x1)
                  = Transaction.deliveryFee x1).
  { unfold Transaction.calculateFinancials.
    match goal with |- context [if ?b then _ else _] => destruct b end;
      repeat split. }
  destruct T0 as (T1 & T2 & T3).
  split; [congruence|].
  split.
  { rewrite Ma, F2, F1, I0, T1, T2, T3, Li, Lt, Ld, Lf. reflexivity. }
  split; [rewrite Mp, Ma; exact F3|].
  assert (PS : Transaction.p_status
                 (Transaction.payment (Transaction.calculateFinancials x1))
               = Transaction.p_status (Transaction.payment x1)
               /\ Transaction.status (Transaction.calculateFinancials x1)
                  = Transaction.status x1
               /\ Transaction.paidAt
                    (Transaction.payment (Transaction.calculateFinancials x1))
                  = Transaction.paidAt (Transaction.payment x1)).
  { unfold Transaction.calculateFinancials.
    match goal with |- context [if ?b then _ else _] => destruct b end;
      repeat split. }
  destruct PS as (PS1 & PS2 & _).
  split.
  - rewrite autoUpdateStatus_p_status.
    change (Transaction.payment (Transaction.calculateProfit
                                   (Transaction.calculateFinancials x1)))
      with (Transaction.payment (Transaction.calculateFinancials x1)).
    rewrite PS1, P. reflexivity.
  - apply autoUpdateStatus_status_congr.
    + change (Transaction.status (Transaction.calculateProfit
                                    (Transaction.calculateFinancials x1)))
        with (Transaction.status (Transaction.calculateFinancials x1)).
      rewrite PS2. exact S.
    + change (Transaction.payment (Transaction.calculateProfit
                                     (Transaction.calculateFinancials x1)))
        with (Transaction.payment (Transaction.calculateFinancials x1)).
      rewrite PS1, P. reflexivity.
Qed.

Lemma saveTransaction_frame validateTransaction env tid x w r w' :
  saveTransaction validateTransaction env tid x w = (r, w') ->
  medicines w' = medicines w /\ carts w' = carts w
  /\ dispatched w' = dispatched w
  /\ match r with
     | Ok saved =>
         transactions w' = <[tid := saved]> (transactions w)
         /\ exists counters',
              Transaction.save validateTransaction (saveEnv env) (idTaken w)
                               (counters w) x = (Ok saved, counters')
     | Err _ => transactions w' = transactions w
     end.
Proof.
  unfold saveTransaction.
  destruct (Transaction.save _ _ _ _ x) as [[saved|m] c]; intros H;
    inversion H; subst; cbn; repeat split; eauto.
Qed.

Lemma autoUpdateStatus_draft now x :
  Transaction.status x = Transaction.draft ->
  Transaction.status (Transaction.autoUpdateStatus now x) = Transaction.draft
  \/ (Transaction.status (Transaction.autoUpdateStatus now x)
      = Transaction.pending
      /\ Transaction.p_status (Transaction.payment x) = Transaction.Pay.failed).
Proof.
  unfold Transaction.autoUpdateStatus.
  destruct x as [? ? ? ? ? ? ? ? ? ? ? ? [? ? ? ps ? ? ? ?] st ? ? ? ? ? ? ? ? ? ?].
  cbn. intros ->. destruct ps; cbn; auto.
Qed.

(** X18. A checkout saved as a draft asks for no payment, changes no stock
    and clears no cart; when it succeeds the pending transaction is stored
    with status draft, or pending if its payment was marked failed. *)
Theorem draft_checkout_touches_nothing validateTransaction validateCart env
    user body w :
  orElse (b_saveAsDraft body) false = true ->
  let done := processCheckout validateTransaction validateCart env user body w in
  medicines (snd done) = medicines w
  /\ carts (snd done) = carts w
  /\ dispatched (snd done) = dispatched w
  /\ (success (fst done) = true ->
      message (fst done) = Some "Transaction saved as draft"
      /\ exists tid saved,
           transactions (snd done) = <[tid := saved]> (transactions w)
           /\ data (fst done) = Some saved
           /\ (Transaction.status saved = Transaction.draft
               \/ (Transaction.status saved = Transaction.pending
                   /\ Transaction.p_status (Transaction.payment saved)
                      = Transaction.Pay.failed))).
Proof.
  intros D. unfold processCheckout. cbv zeta.
  destruct (pharmacyOf user) as [ph|]; [|cbn; repeat split; discriminate].
  destruct (findOne _ (transactions w)) as [[tid tx]|];
    [|cbn; repeat split; discriminate].
  destruct (length (Transaction.items tx) =? 0)%nat;
    [cbn; repeat split; discriminate|].
  rewrite D. rewrite andb_false_r. unfold payIfAsked. cbn [negb andb].
  destruct (saveTransaction validateTransaction env tid _ w) as [r w2] eqn:S.
  destruct (saveTransaction_frame _ _ _ _ _ _ _ S) as (M & C & L & T).
  destruct r as [saved|m]; [|cbn; repeat split; try assumption; discriminate].
  cbn [fst snd]. split; [exact M|]. split; [exact C|]. split; [exact L|].
  intros _. split; [reflexivity|]. destruct T as (T & counters' & Sv).
  exists tid, saved. split; [exact T|].
  split; [cbn [data]; rewrite T; apply lookup_insert_eq|].
  destruct (saved_view _ _ _ _ _ _ _ Sv) as (_ & _ & _ & Ps & St).
  rewrite St, Ps. apply autoUpdateStatus_draft.
  unfold applyCheckout, Transaction.set_transactionRef. rewrite D.
  cbn [Transaction.isNew]. destruct (Transaction.isNew tx); reflexivity.
Qed.

Lemma draft_checkout_touches_nothing_witness :
  let done :=
    processCheckout (fun _ => true) (fun _ => true) env0 user0
      (mkBody None None [] (Some "cash") None None (Some "delivery") None
              (Some true))
      world_short in
  medicines (snd done) = medicines world_short
  /\ success (fst done) = true.
Proof.
  destruct (draft_checkout_touches_nothing (fun _ => true) (fun _ => true)
              env0 user0
              (mkBody None None [] (Some "cash") None None (Some "delivery")
                      None (Some true))
              world_short eq_refl) as (M & _).
  split; [exact M|]. vm_compute. reflexivity.
Defined.

Lemma validateStock_outcome meds items :
  match validateStock meds items with
  | Some failure => success failure = false
  | None => Forall (inStock meds) items
  end.
Proof.
  induction items as [|item rest IH]; cbn [validateStock]; [constructor|].
  destruct (meds !! Transaction.medicineId item) as [m|] eqn:M;
    [|reflexivity].
  destruct (m_quantity m <? Transaction.quantity item)%Z eqn:Q;
    [reflexivity|].
  destruct (validateStock meds rest); [exact IH|].
  constructor; [|exact IH]. exists m. split; [exact M|].
  apply Z.ltb_ge, Q.
Qed.

Lemma clearActiveCart_outcome validateCart env pharmacyId transactionType w w' :
  clearActiveCart validateCart env pharmacyId transactionType w = Ok w' ->
  medicines w' = medicines w /\ transactions w' = transactions w
  /\ dispatched w' = dispatched w
  /\ match findOne (activeCartFor pharmacyId transactionType) (carts w) with
     | Some (cid, _) =>
         exists cart',
           carts w' = <[cid := cart']> (carts w)
           /\ Cart.items cart' = [] /\ Cart.status cart' = Cart.completed
           /\ Cart.totalAmount cart' == 0
     | None => carts w' = carts w
     end.
Proof.
  unfold clearActiveCart.
  destruct (findOne _ (carts w)) as [[cid cart]|];
    [|intros H; inversion H; auto].
  rewrite CartExtras.save_char.
  destruct (validateCart _); [|discriminate]. cbn [bindR Cart.items Cart.set_items
    Cart.set_totals Cart.set_status existsb map].
  intros H. inversion H. cbn. repeat split.
  eexists. repeat split.
Qed.

(** X19. A checkout that is not a draft and succeeds: for a sale every line
    was in stock and the stock of each medicine went down by the
    quantities of its lines; the pending transaction is stored with its
    lines unchanged and the discounted, floored total, completed and paid
    when a payment type was given; and the active cart of the pharmacy, if
    there is one, is left empty and completed. *)
Theorem completed_checkout validateTransaction validateCart env user body w
    pharmacyId tid transaction response w' :
  pharmacyOf user = Some pharmacyId ->
  orElse (b_saveAsDraft body) false = false ->
  findOne (pendingFor pharmacyId (orElse (b_transactionType body) "sale"))
          (transactions w) = Some (tid, transaction) ->
  processCheckout validateTransaction validateCart env user body w
    = (response, w') ->
  success response = true ->
  let type := orElse (b_transactionType body) "sale" in
  let totals :=
    calculateTotal (addresses w) (Transaction.items transaction)
      (orElse (b_deliveryOption body) "pickup") (b_deliveryAddressId body)
      None in
  code response = 201%nat
  /\ (type = "sale" ->
      Forall (inStock (medicines w)) (Transaction.items transaction))
  /\ medicines w'
     = (if String.eqb type "sale"
        then decrementStock (lines_of (Transaction.items transaction))
                            (medicines w)
        else medicines w)
  /\ (exists saved,
        transactions w' = <[tid := saved]> (transactions w)
        /\ data response = Some saved
        /\ Transaction.items saved = Transaction.items transaction
        /\ Transaction.totalAmount saved
           == Qmax 0 (Qsum (map (fun i => orZero (Transaction.totalPrice i))
                                (Transaction.items transaction))
                      + tax totals - orElse (b_discount body) 0
                      + deliveryFee totals)
        /\ (truthy (b_paymentType body) = true ->
            Transaction.status saved = Transaction.completed
            /\ Transaction.p_status (Transaction.payment saved)
               = Transaction.Pay.completed))
  /\ match findOne (activeCartFor pharmacyId type) (carts w) with
     | Some (cid, _) =>
         exists cart',
           carts w' = <[cid := cart']> (carts w)
           /\ Cart.items cart' = [] /\ Cart.status cart' = Cart.completed
           /\ Cart.totalAmount cart' == 0
     | None => carts w' = carts w
     end.
Proof.
  intros Hu Hd Hf. unfold processCheckout. rewrite Hu. cbv zeta.
  rewrite Hf, Hd.
  destruct (length (Transaction.items transaction) =? 0)%nat;
    [intros H; inversion H; subst; discriminate|].
  cbn [negb]. rewrite andb_true_r.
  pose proof (validateStock_outcome (medicines w)
                (Transaction.items transaction)) as V.
  set (type := orElse (b_transactionType body) "sale") in *.
  set (totals := calculateTotal _ _ _ _ _).
  assert (Stock : type = "sale" ->
                  (if String.eqb type "sale"
                   then validateStock (medicines w)
                          (Transaction.items transaction)
                   else None) = None ->
                  Forall (inStock (medicines w))
                         (Transaction.items transaction)).
  { intros E. apply String.eqb_eq in E. rewrite E.
    intros N. rewrite N in V. exact V. }
  destruct (if String.eqb type "sale"
            then validateStock (medicines w) (Transaction.items transaction)
            else None) as [failure|] eqn:VS.
  { intros H. inversion H; subst. intros Sx. exfalso.
    destruct (String.eqb type "sale"); [|discriminate].
    rewrite VS in V. congruence. }
  unfold payIfAsked. cbn [andb].
  destruct (truthy (b_paymentType body)) eqn:TP.
  - set (pr := processPaymentByType _ _ _ _).
    destruct pr as [ok pd pm] eqn:PR.
    destruct ok; [|intros H; inversion H; subst; discriminate].
    destruct (saveTransaction validateTransaction env tid _ _) as [r w2] eqn:S.
    destruct (saveTransaction_frame _ _ _ _ _ _ _ S) as (M & C & L & T).
    destruct r as [saved|m]; [|intros H; inversion H; subst; discriminate].
    destruct T as (T & counters' & Sv).
    set (w3 := if String.eqb type "sale" then _ else w2).
    destruct (clearActiveCart validateCart env pharmacyId type w3)
      as [w4|m] eqn:CC; [|intros H; inversion H; subst; discriminate].
    destruct (clearActiveCart_outcome _ _ _ _ _ _ CC) as (M4 & T4 & _ & C4).
    intros H _. injection H as <- <-.
    split; [reflexivity|]. split; [intros E; apply (Stock E eq_refl)|].
    assert (M3 : medicines w3
                 = if String.eqb type "sale"
                   then decrementStock
                          (lines_of (Transaction.items transaction))
                          (medicines w)
                   else medicines w).
    { unfold w3. destruct (saved_view _ _ _ _ _ _ _ Sv) as (I & _).
      rewrite I. destruct (String.eqb type "sale"); cbn [medicines set_medicines];
        rewrite M; [|reflexivity].
      unfold applyCheckout, Transaction.set_transactionRef.
      rewrite Hd. cbn [Transaction.isNew].
      destruct (Transaction.isNew transaction); reflexivity. }
    assert (C3 : carts w3 = carts w).
    { unfold w3. destruct (String.eqb type "sale"); cbn; exact C. }
    assert (T3 : transactions w3 = transactions w2).
    { unfold w3. destruct (String.eqb type "sale"); reflexivity. }
    split; [rewrite M4; exact M3|]. split.
    + exists saved. rewrite T4, T3. split; [exact T|].
      split; [cbn [data]; rewrite ?T4, ?T3, T; apply lookup_insert_eq|].
      destruct (saved_view _ _ _ _ _ _ _ Sv) as (I & A & _ & Ps & St).
      split.
      { rewrite I. unfold applyCheckout, Transaction.set_transactionRef.
        rewrite Hd. cbn [Transaction.isNew negb].
        destruct (Transaction.isNew transaction); reflexivity. }
      split.
      { rewrite A. unfold applyCheckout, Transaction.set_transactionRef.
        rewrite Hd. cbn [Transaction.isNew negb].
        destruct (Transaction.isNew transaction); reflexivity. }
      intros _. rewrite St, Ps.
      unfold applyCheckout, Transaction.set_transactionRef.
      rewrite Hd. cbn [Transaction.isNew negb].
      destruct (Transaction.isNew transaction); split; reflexivity.
    + rewrite C3 in C4. exact C4.
  - destruct (saveTransaction validateTransaction env tid _ _) as [r w2] eqn:S.
    destruct (saveTransaction_frame _ _ _ _ _ _ _ S) as (M & C & L & T).
    destruct r as [saved|m]; [|intros H; inversion H; subst; discriminate].
    destruct T as (T & counters' & Sv).
    set (w3 := if String.eqb type "sale" then _ else w2).
    destruct (clearActiveCart validateCart env pharmacyId type w3)
      as [w4|m] eqn:CC; [|intros H; inversion H; subst; discriminate].
    destruct (clearActiveCart_outcome _ _ _ _ _ _ CC) as (M4 & T4 & _ & C4).
    intros H _. injection H as <- <-.
    split; [reflexivity|]. split; [intros E; apply (Stock E eq_refl)|].
    assert (M3 : medicines w3
                 = if String.eqb type "sale"
                   then decrementStock
                          (lines_of (Transaction.items transaction))
                          (medicines w)
                   else medicines w).
    { unfold w3. destruct (saved_view _ _ _ _ _ _ _ Sv) as (I & _).
      rewrite I. destruct (String.eqb type "sale"); cbn [medicines set_medicines];
        rewrite M; [|reflexivity].
      unfold applyCheckout, Transaction.set_transactionRef.
      rewrite Hd. cbn [Transaction.isNew].
      destruct (Transaction.isNew transaction); reflexivity. }
    assert (C3 : carts w3 = carts w).
    { unfold w3. destruct (String.eqb type "sale"); cbn; exact C. }
    assert (T3 : transactions w3 = transactions w2).
    { unfold w3. destruct (String.eqb type "sale"); reflexivity. }
    split; [rewrite M4; exact M3|]. split.
    + exists saved. rewrite T4, T3. split; [exact T|].
      split; [cbn [data]; rewrite ?T4, ?T3, T; apply lookup_insert_eq|].
      destruct (saved_view _ _ _ _ _ _ _ Sv) as (I & A & _ & Ps & St).
      split.
      { rewrite I. unfold applyCheckout, Transaction.set_transactionRef.
        rewrite Hd. cbn [Transaction.isNew negb].
        destruct (Transaction.isNew transaction); reflexivity. }
      split.
      { rewrite A. unfold applyCheckout, Transaction.set_transactionRef.
        rewrite Hd. cbn [Transaction.isNew negb].
        destruct (Transaction.isNew transaction); reflexivity. }
      discriminate.
    + rewrite C3 in C4. exact C4.
Qed.

Lemma completed_checkout_witness :
  exists response w',
    processCheckout (fun _ => true) (fun _ => true) env0 user0
                    body_cash_discount world0 = (response, w')
    /\ code response = 201%nat
    /\ medicines w' !! "m1" = Some (mkMedicine "Aspirin" 10 6).
Proof.
  eexists. eexists. split; [reflexivity|].
  destruct (completed_checkout (fun _ => true) (fun _ => true) env0 user0
              body_cash_discount world0 "ph1" "t1" pending_sale _ _
              eq_refl eq_refl ltac:(vm_compute; reflexivity) eq_refl
              ltac:(vm_compute; reflexivity))
    as (C & _ & M & _).
  split; [exact C|].
  etransitivity; [exact (f_equal (fun m => m !! "m1") M)|].
  vm_compute. reflexivity.
Defined.

End CheckoutExtras.

(** ** Paying and re-routing an existing transaction *)

Module CheckoutLaterExtras.
Import Checkout CheckoutLater CheckoutSamples.

Lemma assignIdentifiers_routing env taken counters x x1 counters' :
  Transaction.assignIdentifiers env taken counters x = (Ok x1, counters') ->
  routing x1 = routing x.
Proof.
  unfold Transaction.assignIdentifiers.
  destruct (Transaction.isNew x) eqn:N; [|intros H; inversion H; auto].
  destruct x as [nw ph ty tid tnum tref ? ? ? ? ? ? ? ? ? ? ? ? ? ? ? ? ? ?].
  cbn in N. subst nw.
  unfold Transaction.set_transactionId, Transaction.set_transactionNumber,
    Transaction.set_transactionRef, bindR.
  cbn [Transaction.isNew Transaction.transactionId
       Transaction.transactionNumber Transaction.transactionRef
       Transaction.transactionType].
  destruct (Transaction.getNextSequence (ty ++ "_number") counters)
    as [counter cs'] eqn:GN.
  destruct (falsyStr tid);
    [destruct (Transaction.generateUniqueId taken (Transaction.idDraw env) "TXN");
       [|discriminate]|];
    cbn [Transaction.isNew Transaction.transactionId
         Transaction.transactionNumber Transaction.transactionRef
         Transaction.transactionType];
    (destruct (falsyStr tnum);
     cbn [Transaction.isNew Transaction.transactionId
          Transaction.transactionNumber Transaction.transactionRef
          Transaction.transactionType];
     rewrite ?GN;
     cbn [Transaction.isNew Transaction.transactionId
          Transaction.transactionNumber Transaction.transactionRef
          Transaction.transactionType];
     (destruct (falsyStr tref);
      [destruct (Transaction.generateUniqueId taken (Transaction.refDraw env)
                   "REF"); [|discriminate]|];
      intros H; inversion H; subst; reflexivity)).
Qed.

Lemma autoUpdateStatus_routing now x :
  routing (Transaction.autoUpdateStatus now x) = routing x.
Proof.
  unfold Transaction.autoUpdateStatus.
  destruct x as [? ? ? ? ? ? ? ? ? ? ? ? [? ? ? ps ? ? ? ?] st ? ? ? ? ? ? ? ? ? ?].
  destruct ps, st; reflexivity.
Qed.

Lemma calculateFinancials_routing x :
  routing (Transaction.calculateFinancials x) = routing x.
Proof.
  unfold Transaction.calculateFinancials.
  match goal with |- context [if ?b then _ else _] => destruct b end;
    reflexivity.
Qed.

Lemma save_routing validate env taken counters x x' counters' :
  Transaction.save validate env taken counters x = (Ok x', counters') ->
  routing x' = routing x.
Proof.
  intros H.
  apply TransactionFacts.transaction_save_ok in H as (_ & y & Hy & ->).
  apply TransactionFacts.transaction_pre_save_ok in Hy as (x1 & Hx1 & ->).
  apply assignIdentifiers_routing in Hx1. rewrite <- Hx1.
  rewrite <- (calculateFinancials_routing x1).
  transitivity (routing (Transaction.autoUpdateStatus (Transaction.now env)
                           (Transaction.calculateProfit
                              (Transaction.calculateFinancials x1))));
    [reflexivity|].
  rewrite autoUpdateStatus_routing. reflexivity.
Qed.

Lemma autoUpdateStatus_paid now x :
  Transaction.status x = Transaction.completed ->
  Transaction.p_status (Transaction.payment x) = Transaction.Pay.completed ->
  Transaction.status (Transaction.autoUpdateStatus now x)
  = Transaction.completed.
Proof.
  unfold Transaction.autoUpdateStatus.
  destruct x as [? ? ? ? ? ? ? ? ? ? ? ? [? ? ? ps ? ? ? ?] st ? ? ? ? ? ? ? ? ? ?].
  cbn. intros -> ->. reflexivity.
Qed.

Lemma applyPayment_view env body amount r x :
  let y := applyPayment env body amount r x in
  Transaction.items y = Transaction.items x
  /\ Transaction.status y = Transaction.completed
  /\ Transaction.p_status (Transaction.payment y) = Transaction.Pay.completed
  /\ routing y = routing x.
Proof.
  unfold applyPayment, Transaction.set_transactionRef.
  match goal with |- context [if falsyStr ?t then _ else _] =>
    destruct (falsyStr t) end;
    cbn [Transaction.isNew Transaction.set_status Transaction.set_payment];
    [destruct (Transaction.isNew x)|]; repeat split.
Qed.

(** X20. A payment request answered with 400 or 404 has written nothing:
    medicines, transactions, carts and the sequence store are as they
    were. *)
Theorem processPayment_refusal_writes_nothing validateTransaction validateCart
    env user body w response w' :
  processPayment validateTransaction validateCart env user body w
    = (response, w') ->
  code response = 400%nat \/ code response = 404%nat ->
  success response = false
  /\ medicines w' = medicines w /\ transactions w' = transactions w
  /\ carts w' = carts w /\ counters w' = counters w.
Proof.
  unfold processPayment.
  destruct (pb_transactionId body) as [transactionId|];
    [|intros H _; inversion H; subst; repeat split].
  destruct (String.eqb transactionId "");
    [intros H _; inversion H; subst; repeat split|].
  destruct (transactions w !! transactionId) as [transaction|];
    [|intros H _; inversion H; subst; repeat split].
  destruct (negb (payable (Transaction.status transaction)));
    [intros H _; inversion H; subst; repeat split|].
  destruct (negb (pr_success _));
    [intros H _; inversion H; subst; repeat split|].
  destruct (saveTransaction _ _ _ _ _) as [[saved|m] w2];
    [|intros H C; inversion H; subst; cbn in C; destruct C; discriminate].
  destruct (clearActiveCart _ _ _ _ _);
    intros H C; inversion H; subst; cbn in C; destruct C; discriminate.
Qed.

Lemma processPayment_refusal_writes_nothing_witness :
  exists response,
    processPayment (fun _ => true) (fun _ => true) env0 user0
                   (mkPaymentBody (Some "t9") (Some "cash") None) world0
    = (response, world0)
    /\ code response = 404%nat.
Proof.
  eexists. split; [vm_compute; reflexivity|].
  destruct (processPayment_refusal_writes_nothing
              (fun _ => true) (fun _ => true) env0 user0
              (mkPaymentBody (Some "t9") (Some "cash") None) world0
              _ _ eq_refl (or_intror eq_refl)) as (S & _).
  reflexivity.
Defined.

(** X21. A payment request answered with 200.  The transaction was pending
    or a draft; the payment side was asked for the total stored on it; it
    is stored completed and paid with its lines unchanged; for a sale the
    stock of every line went down by its quantity, whatever the stock was;
    and the active cart of the pharmacy and type, if any, is left empty
    and completed. *)
Theorem processPayment_success validateTransaction validateCart env user body
    w response w' :
  processPayment validateTransaction validateCart env user body w
    = (response, w') ->
  code response = 200%nat ->
  exists transactionId transaction saved,
    pb_transactionId body = Some transactionId
    /\ transactions w !! transactionId = Some transaction
    /\ payable (Transaction.status transaction) = true
    /\ dispatched w'
       = (orElse (pb_paymentType body) "",
          Transaction.totalAmount transaction) :: dispatched w
    /\ transactions w' = <[transactionId := saved]> (transactions w)
    /\ data response = Some saved
    /\ Transaction.items saved = Transaction.items transaction
    /\ Transaction.status saved = Transaction.completed
    /\ Transaction.p_status (Transaction.payment saved)
       = Transaction.Pay.completed
    /\ medicines w'
       = (if String.eqb (Transaction.transactionType transaction) "sale"
          then decrementStock (lines_of (Transaction.items transaction))
                              (medicines w)
          else medicines w)
    /\ match findOne (activeCartFor (Transaction.pharmacyId transaction)
                        (Transaction.transactionType transaction))
                     (carts w) with
       | Some (cid, _) =>
           exists cart',
             carts w' = <[cid := cart']> (carts w)
             /\ Cart.items cart' = [] /\ Cart.status cart' = Cart.completed
             /\ Cart.totalAmount cart' == 0
       | None => carts w' = carts w
       end.
Proof.
  unfold processPayment.
  destruct (pb_transactionId body) as [transactionId|];
    [|intros H; inversion H; subst; discriminate].
  destruct (String.eqb transactionId "");
    [intros H; inversion H; subst; discriminate|].
  destruct (transactions w !! transactionId) as [transaction|] eqn:T;
    [|intros H; inversion H; subst; discriminate].
  destruct (payable (Transaction.status transaction)) eqn:P;
    [|intros H; inversion H; subst; discriminate].
  cbn [negb].
  set (pr := processPaymentByType _ _ _ _).
  destruct (pr_success pr);
    [|intros H; inversion H; subst; discriminate].
  cbn [negb].
  destruct (saveTransaction _ _ _ _ _) as [r w2] eqn:S.
  destruct (CheckoutExtras.saveTransaction_frame _ _ _ _ _ _ _ S)
    as (M & C & L & Tx).
  destruct r as [saved|m]; [|intros H; inversion H; subst; discriminate].
  destruct Tx as (Tx & counters' & Sv).
  destruct (applyPayment_view env body (Transaction.totalAmount transaction)
              pr transaction) as (AI & AS & AP & AR).
  destruct (CheckoutExtras.saved_view _ _ _ _ _ _ _ Sv)
    as (I & _ & _ & Ps & St).
  pose proof (save_routing _ _ _ _ _ _ _ Sv) as R.
  rewrite AR in R. rewrite AI in I. rewrite AP in Ps.
  injection R as Rp Rt _ _ _. rewrite Rp, Rt, I.
  set (w3 := if String.eqb (Transaction.transactionType transaction) "sale"
             then _ else w2).
  destruct (clearActiveCart _ _ _ _ w3) as [w4|m] eqn:CC;
    [|intros H; inversion H; subst; discriminate].
  destruct (CheckoutExtras.clearActiveCart_outcome _ _ _ _ _ _ CC)
    as (M4 & T4 & L4 & C4).
  intros H _. injection H as <- <-.
  exists transactionId, transaction, saved.
  assert (M3 : medicines w3
               = if String.eqb (Transaction.transactionType transaction) "sale"
                 then decrementStock
                        (lines_of (Transaction.items transaction))
                        (medicines w)
                 else medicines w).
  { unfold w3.
    destruct (String.eqb (Transaction.transactionType transaction) "sale");
      cbn [medicines set_medicines]; rewrite M; reflexivity. }
  assert (F3 : carts w3 = carts w2 /\ transactions w3 = transactions w2
               /\ dispatched w3 = dispatched w2).
  { unfold w3.
    destruct (String.eqb (Transaction.transactionType transaction) "sale");
      repeat split. }
  destruct F3 as (C3 & T3 & L3).
  split; [reflexivity|]. split; [exact T|]. split; [exact P|].
  split; [rewrite L4, L3, L; reflexivity|].
  split; [rewrite T4, T3; exact Tx|].
  split; [cbn [data]; rewrite T4, T3, Tx; apply lookup_insert_eq|].
  split; [exact I|].
  split.
  { rewrite St. apply autoUpdateStatus_paid; assumption. }
  split; [exact Ps|].
  split; [rewrite M4; exact M3|].
  rewrite C3, C in C4. exact C4.
Qed.

Lemma processPayment_success_witness :
  let '(response, w') :=
    processPayment (fun _ => true) (fun _ => true) env0 user0
                   (mkPaymentBody (Some "t1") (Some "cash") None) world_short
  in
  code response = 200%nat
  /\ medicines world_short !! "m1" = Some (mkMedicine "Aspirin" 10 1)
  /\ medicines w' !! "m1" = Some (mkMedicine "Aspirin" 10 (-1)).
Proof.
  destruct (processPayment (fun _ => true) (fun _ => true) env0 user0
              (mkPaymentBody (Some "t1") (Some "cash") None) world_short)
    as [response w'] eqn:H.
  assert (C : code response = 200%nat).
  { replace response with (fst (response, w')) by reflexivity.
    rewrite <- H. vm_compute. reflexivity. }
  split; [exact C|]. split; [vm_compute; reflexivity|].
  destruct (processPayment_success _ _ _ _ _ _ _ _ H C)
    as (i & x & saved & Hi & Hx & _ & _ & _ & _ & _ & _ & _ & M & _).
  injection Hi as <-.
  assert (E : Some x = Some pending_sale_of_two)
    by (rewrite <- Hx; vm_compute; reflexivity).
  injection E as ->.
  rewrite M. vm_compute. reflexivity.
Defined.

(** X22. [updateDeliveryOption] never touches stock, carts or payments, and
    stores nothing unless it answers 200.  Schema validation enforces the
    enum of [deliveryStatus], which has no "not_applicable": so an answer
    of 200 means the request was a delivery to a known address.  The
    transaction was then pending or a draft and is stored with its lines
    unchanged, that address, the delivery status "pending" and the total
    [max(0, sum of totalPrice + tax - discount + 5)], where the tax is
    that of [calculateTotal]. *)
Theorem updateDeliveryOption_outcome validateTransaction env body w
    response w' :
  (forall x, validateTransaction x = true ->
             TransactionSchema.deliveryStatusValid x = true) ->
  updateDeliveryOption validateTransaction env body w = (response, w') ->
  medicines w' = medicines w /\ carts w' = carts w
  /\ dispatched w' = dispatched w
  /\ (code response <> 200%nat -> transactions w' = transactions w)
  /\ (code response = 200%nat ->
      exists transaction saved a,
        transactions w !! db_transactionId body = Some transaction
        /\ payable (Transaction.status transaction) = true
        /\ db_deliveryOption body = "delivery"
        /\ db_deliveryAddressId body = Some a
        /\ a ∈ addresses w
        /\ transactions w'
           = <[db_transactionId body := saved]> (transactions w)
        /\ Transaction.items saved = Transaction.items transaction
        /\ Transaction.deliveryOption saved = "delivery"
        /\ Transaction.deliveryAddress saved = Some a
        /\ Transaction.deliveryStatus saved = "pending"
        /\ Transaction.totalAmount saved
           == Qmax 0 (Qsum (map (fun i => orZero (Transaction.totalPrice i))
                                (Transaction.items transaction))
                      + tax (calculateTotal (addresses w)
                               (Transaction.items transaction)
                               "delivery" (Some a) None)
                      - orZero (Transaction.discount transaction)
                      + 5)).
Proof.
  intros Enum.
  unfold updateDeliveryOption, findEditable.
  destruct (transactions w !! db_transactionId body) as [transaction|] eqn:T.
  2:{ intros H; inversion H; subst.
      split; [reflexivity|]. split; [reflexivity|]. split; [reflexivity|].
      split; [reflexivity|]. intros X. cbn in X. discriminate X. }
  destruct (payable (Transaction.status transaction)) eqn:P.
  2:{ intros H; inversion H; subst.
      split; [reflexivity|]. split; [reflexivity|]. split; [reflexivity|].
      split; [reflexivity|]. intros X. cbn in X. discriminate X. }
  cbv zeta.
  set (totals := calculateTotal _ _ _ _ _).
  destruct (saveTransaction _ _ _ _ _) as [r w2] eqn:S.
  destruct (CheckoutExtras.saveTransaction_frame _ _ _ _ _ _ _ S)
    as (M & C & L & Tx).
  destruct r as [saved|m].
  2:{ intros H; inversion H; subst.
      split; [exact M|]. split; [exact C|]. split; [exact L|].
      split; [intros _; exact Tx|]. intros X. cbn in X. discriminate X. }
  destruct Tx as (Tx & counters' & Sv).
  intros H. injection H as <- <-.
  split; [exact M|]. split; [exact C|]. split; [exact L|].
  split; [intros N; exfalso; apply N; reflexivity|].
  intros _.
  destruct (CheckoutExtras.saved_view _ _ _ _ _ _ _ Sv) as (I & A & _).
  pose proof (save_routing _ _ _ _ _ _ _ Sv) as R.
  injection R as _ _ Ra Ro Rs.
  apply TransactionFacts.transaction_save_ok in Sv as (V & _).
  apply Enum in V.
  unfold TransactionSchema.deliveryStatusValid in V.
  cbn [applyDelivery Transaction.deliveryAddress Transaction.deliveryStatus
       Transaction.deliveryOption Transaction.items Transaction.tax
       Transaction.discount Transaction.deliveryFee orZero] in *.
  unfold totals, calculateTotal in V, Ra, Rs, A.
  destruct (String.eqb (db_deliveryOption body) "delivery") eqn:D;
    [|discriminate V].
  apply String.eqb_eq in D.
  destruct (db_deliveryAddressId body) as [a|]; [|discriminate V].
  destruct (negb (String.eqb a "")) eqn:NE; [|discriminate V].
  destruct (bool_decide (a ∈ addresses w)) eqn:IN; [|discriminate V].
  cbn [andb deliveryAddress subtotal tax deliveryFee] in *.
  exists transaction, saved, a.
  split; [reflexivity|]. split; [exact P|]. split; [exact D|].
  split; [reflexivity|].
  split; [apply bool_decide_eq_true in IN; exact IN|].
  split; [exact Tx|]. split; [exact I|].
  split; [rewrite Ro; exact D|]. split; [exact Ra|]. split; [exact Rs|].
  rewrite A. unfold calculateTotal. cbn [String.eqb Ascii.eqb Bool.eqb tax].
  apply Q.max_compat; [reflexivity|].
  apply Qplus_comp; [reflexivity|]. vm_compute. reflexivity.
Qed.

Lemma updateDeliveryOption_outcome_witness :
  let '(response, w') :=
    updateDeliveryOption TransactionSchema.deliveryStatusValid env0
      (mkDeliveryBody "t1" "delivery" (Some "a1"))
      SalesSamples.world_address in
  code response = 200%nat
  /\ exists saved,
       transactions w' !! "t1" = Some saved
       /\ Transaction.totalAmount saved == 15.8
       /\ Transaction.deliveryStatus saved = "pending".
Proof.
  destruct (updateDeliveryOption TransactionSchema.deliveryStatusValid env0
              (mkDeliveryBody "t1" "delivery" (Some "a1"))
              SalesSamples.world_address)
    as [response w'] eqn:H.
  assert (C : code response = 200%nat).
  { replace response with (fst (response, w')) by reflexivity.
    rewrite <- H. vm_compute. reflexivity. }
  split; [exact C|].
  destruct (updateDeliveryOption_outcome _ _ _ _ _ _ (fun x V => V) H)
    as (_ & _ & _ & _ & Ok200).
  destruct (Ok200 C)
    as (x & saved & a & Hx & _ & _ & Ha & _ & T & _ & _ & _ & D & A).
  assert (E : Some x = Some pending_sale)
    by (rewrite <- Hx; vm_compute; reflexivity).
  injection E as ->. injection Ha as <-.
  exists saved. split; [rewrite T; apply lookup_insert_eq|].
  split; [|exact D].
  rewrite A. vm_compute. reflexivity.
Defined.

End CheckoutLaterExtras.

(** ** The sale handlers *)

Module SalesExtras.
Import Checkout Sales CheckoutSamples.

Lemma cartLines_outcome meds items :
  match cartLines meds items with
  | inl failure =>
      success failure = false
      /\ (code failure = 400%nat \/ code failure = 404%nat)
  | inr built =>
      lines_of built
      = map (fun i => (Cart.medicineId i, Cart.quantity i)) items
      /\ map (fun i => orZero (Transaction.totalPrice i)) built
         = map Cart.totalPrice items
      /\ Forall (fun i => exists medicine,
                   meds !! Cart.medicineId i = Some medicine
                   /\ (Cart.quantity i <= m_quantity medicine)%Z)
                items
  end.
Proof.
  induction items as [|i rest IH]; cbn [cartLines].
  - repeat split. constructor.
  - destruct (meds !! Cart.medicineId i) as [m|] eqn:M;
      [|split; [reflexivity|right; reflexivity]].
    destruct (m_quantity m <? Cart.quantity i)%Z eqn:Q;
      [split; [reflexivity|left; reflexivity]|].
    destruct (cartLines meds rest) as [failure|built]; [exact IH|].
    destruct IH as (L & P & F).
    cbn [lines_of map Transaction.medicineId Transaction.quantity
         Transaction.totalPrice orZero].
    split; [f_equal; exact L|]. split; [f_equal; exact P|].
    constructor; [|exact F]. exists m. split; [exact M|].
    apply Z.ltb_ge, Q.
Qed.

(** What the shared tail of the two handlers leaves behind. *)
Lemma recordSale_outcome validateTransaction generateTransactionNumber env
    userId pharmacyId body defaultDescription transactionItems w r w' :
  recordSale validateTransaction generateTransactionNumber env userId
             pharmacyId body defaultDescription transactionItems w = (r, w') ->
  carts w' = carts w /\ dispatched w' = dispatched w
  /\ match r with
     | Err _ => medicines w' = medicines w /\ transactions w' = transactions w
     | Ok saved =>
         transactions w' = <[freshId env := saved]> (transactions w)
         /\ medicines w'
            = decrementStock (lines_of transactionItems) (medicines w)
         /\ Transaction.items saved = transactionItems
         /\ Transaction.status saved = Transaction.completed
         /\ Transaction.p_status (Transaction.payment saved)
            = Transaction.Pay.pending
         /\ Transaction.deliveryStatus saved = "pending"
         /\ Transaction.totalAmount saved
            == Qmax 0 (Qsum (map (fun i => orZero (Transaction.totalPrice i))
                                 transactionItems)
                       + orElse (sb_tax body) 0
                       - orElse (sb_discount body) 0
                       + (if String.eqb (orElse (sb_deliveryOption body)
                                                "pickup") "delivery"
                          then 5 else 0))
     end.
Proof.
  unfold recordSale.
  destruct (generateTransactionNumber "sale" (counters w))
    as [transactionNumber counters'].
  destruct (saveTransaction _ _ _ _ _) as [r0 w2] eqn:S.
  destruct (CheckoutExtras.saveTransaction_frame _ _ _ _ _ _ _ S)
    as (M & C & L & Tx).
  destruct r0 as [saved|m]; intros H; injection H as <- <-.
  2:{ split; [exact C|]. split; [exact L|]. split; [exact M|exact Tx]. }
  destruct Tx as (Tx & counters2 & Sv).
  destruct (CheckoutExtras.saved_view _ _ _ _ _ _ _ Sv)
    as (I & A & _ & Ps & St).
  pose proof (CheckoutLaterExtras.save_routing _ _ _ _ _ _ _ Sv) as R.
  injection R as _ _ _ _ Rs.
  split; [exact C|]. split; [exact L|].
  split; [exact Tx|].
  split; [cbn [medicines set_medicines]; rewrite M; reflexivity|].
  split; [exact I|]. split; [rewrite St; reflexivity|].
  split; [exact Ps|]. split; [exact Rs|].
  rewrite A.
  cbn [saleDocument Transaction.items Transaction.tax Transaction.discount
       Transaction.deliveryFee orZero].
  apply Q.max_compat; [reflexivity|].
  apply Qplus_comp; [reflexivity|].
  destruct (String.eqb (orElse (sb_deliveryOption body) "pickup") "delivery");
    [vm_compute|]; reflexivity.
Qed.

(** The item loop run for a sale. *)
Lemma prepareItems_sale_outcome meds items :
  match prepareItems "sale" meds items with
  | inl failure =>
      success failure = false
      /\ (code failure = 400%nat \/ code failure = 404%nat)
  | inr built =>
      lines_of built
      = map (fun item => (bi_medicineId item, bi_quantity item)) items
      /\ Forall (fun item => exists medicine,
                   meds !! bi_medicineId item = Some medicine
                   /\ (bi_quantity item <= m_quantity medicine)%Z)
                items
  end.
Proof.
  induction items as [|i rest IH]; cbn [prepareItems].
  - repeat split. constructor.
  - destruct (meds !! bi_medicineId i) as [m|] eqn:M;
      [|split; [reflexivity|right; reflexivity]].
    cbn [String.eqb Ascii.eqb Bool.eqb andb].
    destruct (m_quantity m <? bi_quantity i)%Z eqn:Q;
      [split; [reflexivity|left; reflexivity]|].
    cbn [andb].
    destruct (prepareItems "sale" meds rest) as [failure|built]; [exact IH|].
    destruct IH as (L & F).
    cbn [lines_of map Transaction.medicineId Transaction.quantity].
    split; [f_equal; exact L|].
    constructor; [|exact F]. exists m. split; [exact M|].
    apply Z.ltb_ge, Q.
Qed.

(** X23. [processFullSale] never asks the payment side for anything, and an
    answer other than 201 and 500 has written nothing.  When it answers
    201 the pharmacy had an active cart whose every line was in stock; the
    stock of each line went down by its quantity; the sale is stored
    completed with its payment still pending, the delivery status
    "pending" whatever the delivery option, and the total
    [max(0, sum of the cart's line totals + tax - discount + fee)] with a
    fee of 5 for a delivery; and the cart is left empty and completed. *)
Theorem processFullSale_outcome validateTransaction validateCart
    generateTransactionNumber env user body w response w' :
  processFullSale validateTransaction validateCart generateTransactionNumber
                  env user body w = (response, w') ->
  dispatched w' = dispatched w
  /\ (code response <> 201%nat -> code response <> 500%nat -> w' = w)
  /\ (code response = 201%nat ->
      exists userId pharmacyId cid cart saved cart',
        authorised user = Some (userId, pharmacyId)
        /\ findOne (activeCartOf pharmacyId) (carts w) = Some (cid, cart)
        /\ Forall (fun i => exists medicine,
                     medicines w !! Cart.medicineId i = Some medicine
                     /\ (Cart.quantity i <= m_quantity medicine)%Z)
                  (Cart.items cart)
        /\ medicines w'
           = decrementStock
               (map (fun i => (Cart.medicineId i, Cart.quantity i))
                    (Cart.items cart))
               (medicines w)
        /\ transactions w' = <[freshId env := saved]> (transactions w)
        /\ Transaction.status saved = Transaction.completed
        /\ Transaction.p_status (Transaction.payment saved)
           = Transaction.Pay.pending
        /\ Transaction.deliveryStatus saved = "pending"
        /\ Transaction.totalAmount saved
           == Qmax 0 (Qsum (map Cart.totalPrice (Cart.items cart))
                      + orElse (sb_tax body) 0
                      - orElse (sb_discount body) 0
                      + (if String.eqb (orElse (sb_deliveryOption body)
                                               "pickup") "delivery"
                         then 5 else 0))
        /\ carts w' = <[cid := cart']> (carts w)
        /\ Cart.items cart' = []
        /\ Cart.status cart' = Cart.completed).
Proof.
  unfold processFullSale.
  destruct (authorised user) as [[userId pharmacyId]|].
  2:{ intros H; injection H as <- <-. split; [reflexivity|].
      split; [reflexivity|]. intros X; cbn in X; discriminate X. }
  destruct (findOne _ (carts w)) as [[cid cart]|] eqn:FC.
  2:{ intros H; injection H as <- <-. split; [reflexivity|].
      split; [reflexivity|]. intros X; cbn in X; discriminate X. }
  destruct (length (Cart.items cart) =? 0)%nat.
  { intros H; injection H as <- <-. split; [reflexivity|].
    split; [reflexivity|]. intros X; cbn in X; discriminate X. }
  pose proof (cartLines_outcome (medicines w) (Cart.items cart)) as CL.
  destruct (cartLines (medicines w) (Cart.items cart))
    as [failure|transactionItems].
  { destruct CL as (_ & CL). intros H; injection H as <- <-.
    split; [reflexivity|]. split; [reflexivity|].
    intros X. destruct CL as [E|E]; rewrite E in X; discriminate X. }
  destruct CL as (Ln & Pr & St).
  destruct (recordSale _ _ _ _ _ _ _ _ _) as [r w3] eqn:RS.
  destruct (recordSale_outcome _ _ _ _ _ _ _ _ _ _ _ RS) as (C & L & O).
  destruct r as [saved|m].
  2:{ intros H; injection H as <- <-. split; [exact L|].
      split; [intros _ N; exfalso; apply N; reflexivity|].
      intros X; cbn in X; discriminate X. }
  destruct O as (Tx & M & I & S & P & D & A).
  unfold Cart.clearCart. rewrite CartExtras.save_char.
  destruct (validateCart _).
  2:{ intros H; injection H as <- <-. split; [exact L|].
      split; [intros _ N; exfalso; apply N; reflexivity|].
      intros X; cbn in X; discriminate X. }
  cbn [Cart.items Cart.set_items Cart.set_totals Cart.set_status existsb map].
  intros H; injection H as <- <-.
  split; [exact L|]. split; [intros N; exfalso; apply N; reflexivity|].
  intros _. exists userId, pharmacyId, cid, cart, saved. eexists.
  split; [reflexivity|]. split; [exact FC|]. split; [exact St|].
  split; [cbn [medicines set_carts]; rewrite M, Ln; reflexivity|].
  split; [exact Tx|]. split; [exact S|]. split; [exact P|].
  split; [exact D|].
  split; [rewrite A, Pr; reflexivity|].
  split; [cbn [carts set_carts]; rewrite C; reflexivity|].
  split; reflexivity.
Qed.

Lemma processFullSale_outcome_witness :
  let '(response, w') :=
    processFullSale (fun _ => true) (fun _ => true) helper0 env0 user0
                    SalesSamples.body_sale SalesSamples.world_cart in
  code response = 201%nat
  /\ dispatched w' = []
  /\ medicines w' !! "m1" = Some (mkMedicine "Aspirin" 10 5).
Proof.
  destruct (processFullSale (fun _ => true) (fun _ => true) helper0 env0
              user0 SalesSamples.body_sale SalesSamples.world_cart)
    as [response w'] eqn:H.
  assert (C : code response = 201%nat).
  { replace response with (fst (response, w')) by reflexivity.
    rewrite <- H. vm_compute. reflexivity. }
  split; [exact C|].
  destruct (processFullSale_outcome _ _ _ _ _ _ _ _ _ H) as (L & _ & Ok201).
  split; [exact L|].
  destruct (Ok201 C)
    as (u & ph & cid & cart & saved & cart' & Hu & Hc & _ & M & _).
  assert (Eu : Some (u, ph) = Some ("u1", "ph1"))
    by (rewrite <- Hu; vm_compute; reflexivity).
  injection Eu as -> ->.
  assert (Ec : Some (cid, cart) = Some ("c1", CartSamples.taxed_cart))
    by (rewrite <- Hc; vm_compute; reflexivity).
  injection Ec as -> ->.
  rewrite M. vm_compute. reflexivity.
Defined.

(** X24. [processPerMedicineSale] touches no cart and asks the payment side
    for nothing, and an answer other than 201 and 500 has written nothing.
    When it answers 201 every requested line named a known medicine and
    was, on its own, within the stock; the stock of each line went down by
    its quantity; and the sale is stored completed with its payment
    pending and the total
    [max(0, sum of the line totals + tax - discount + fee)]. *)
Theorem processPerMedicineSale_outcome validateTransaction
    generateTransactionNumber env user body w response w' :
  processPerMedicineSale validateTransaction generateTransactionNumber
                         env user body w = (response, w') ->
  carts w' = carts w /\ dispatched w' = dispatched w
  /\ (code response <> 201%nat -> code response <> 500%nat -> w' = w)
  /\ (code response = 201%nat ->
      exists items built saved,
        sb_items body = Some items
        /\ prepareItems "sale" (medicines w) items = inr built
        /\ Forall (fun item => exists medicine,
                     medicines w !! bi_medicineId item = Some medicine
                     /\ (bi_quantity item <= m_quantity medicine)%Z)
                  items
        /\ medicines w'
           = decrementStock
               (map (fun item => (bi_medicineId item, bi_quantity item))
                    items)
               (medicines w)
        /\ transactions w' = <[freshId env := saved]> (transactions w)
        /\ Transaction.items saved = built
        /\ Transaction.status saved = Transaction.completed
        /\ Transaction.p_status (Transaction.payment saved)
           = Transaction.Pay.pending
        /\ Transaction.totalAmount saved
           == Qmax 0 (Qsum (map (fun i => orZero (Transaction.totalPrice i))
                                built)
                      + orElse (sb_tax body) 0
                      - orElse (sb_discount body) 0
                      + (if String.eqb (orElse (sb_deliveryOption body)
                                               "pickup") "delivery"
                         then 5 else 0))).
Proof.
  unfold processPerMedicineSale.
  destruct (authorised user) as [[userId pharmacyId]|].
  2:{ intros H; injection H as <- <-. split; [reflexivity|].
      split; [reflexivity|]. split; [reflexivity|].
      intros X; cbn in X; discriminate X. }
  destruct (sb_items body) as [[|item items]|].
  1,3: intros H; injection H as <- <-; (split; [reflexivity|]);
       (split; [reflexivity|]); (split; [reflexivity|]);
       intros X; cbn in X; discriminate X.
  pose proof (prepareItems_sale_outcome (medicines w) (item :: items)) as PI.
  destruct (prepareItems "sale" (medicines w) (item :: items))
    as [failure|built] eqn:PE.
  { destruct PI as (_ & PI). intros H; injection H as <- <-.
    split; [reflexivity|]. split; [reflexivity|]. split; [reflexivity|].
    intros X. destruct PI as [E|E]; rewrite E in X; discriminate X. }
  destruct PI as (Ln & St).
  destruct (recordSale _ _ _ _ _ _ _ _ _) as [r w3] eqn:RS.
  destruct (recordSale_outcome _ _ _ _ _ _ _ _ _ _ _ RS) as (C & L & O).
  destruct r as [saved|m]; intros H; injection H as <- <-.
  2:{ split; [exact C|]. split; [exact L|].
      split; [intros _ N; exfalso; apply N; reflexivity|].
      intros X; cbn in X; discriminate X. }
  destruct O as (Tx & M & I & S & P & D & A).
  split; [exact C|]. split; [exact L|].
  split; [intros N; exfalso; apply N; reflexivity|].
  intros _. exists (item :: items), built, saved.
  split; [reflexivity|]. split; [exact PE|]. split; [exact St|].
  split; [rewrite M, Ln; reflexivity|].
  split; [exact Tx|]. split; [exact I|]. split; [exact S|].
  split; [exact P|]. exact A.
Qed.

Lemma processPerMedicineSale_outcome_witness :
  let '(response, w') :=
    processPerMedicineSale (fun _ => true) helper0 env0 user0
                           SalesSamples.body_sale_twice
                           SalesSamples.world_cart in
  code response = 201%nat
  /\ medicines SalesSamples.world_cart !! "m1"
     = Some (mkMedicine "Aspirin" 10 7)
  /\ medicines w' !! "m1" = Some (mkMedicine "Aspirin" 10 (-3)).
Proof.
  destruct (processPerMedicineSale (fun _ => true) helper0 env0 user0
              SalesSamples.body_sale_twice SalesSamples.world_cart)
    as [response w'] eqn:H.
  assert (C : code response = 201%nat).
  { replace response with (fst (response, w')) by reflexivity.
    rewrite <- H. vm_compute. reflexivity. }
  split; [exact C|]. split; [vm_compute; reflexivity|].
  destruct (processPerMedicineSale_outcome _ _ _ _ _ _ _ _ H)
    as (_ & _ & _ & Ok201).
  destruct (Ok201 C) as (items & built & saved & Hi & _ & _ & M & _).
  injection Hi as <-.
  rewrite M. vm_compute. reflexivity.
Defined.

End SalesExtras.

(** ** Pickups against the enum of [deliveryStatus] *)

Module PickupExtras.
Import Checkout CheckoutSamples.

Lemma applyCheckout_deliveryStatus env body totals paymentResult x :
  Transaction.deliveryStatus (applyCheckout env body totals paymentResult x)
  = if String.eqb (orElse (b_deliveryOption body) "pickup") "delivery"
    then "pending" else "not_applicable".
Proof.
  unfold applyCheckout, Transaction.set_transactionRef.
  cbn [Transaction.isNew].
  destruct paymentResult as [r|];
    [destruct (negb (orElse (b_saveAsDraft body) false))|];
    destruct (Transaction.isNew x); reflexivity.
Qed.

(** A document whose delivery status is "not_applicable" is refused by
    [save] before anything is written. *)
Lemma saveTransaction_refused validateTransaction env tid x w :
  (forall x, validateTransaction x = true ->
             TransactionSchema.deliveryStatusValid x = true) ->
  Transaction.deliveryStatus x = "not_applicable" ->
  exists m,
    saveTransaction validateTransaction env tid x w
    = (Err m, set_counters (counters w) w).
Proof.
  intros Enum D. unfold saveTransaction, Transaction.save.
  destruct (validateTransaction x) eqn:V.
  - apply Enum in V. unfold TransactionSchema.deliveryStatusValid in V.
    rewrite D in V. discriminate V.
  - eexists. reflexivity.
Qed.

(** X25. Schema validation enforces the enum of [deliveryStatus], which has
    no "not_applicable".  So a checkout whose delivery option is not
    "delivery" never succeeds and leaves medicines, transactions and carts
    as they were. *)
Theorem pickup_checkout_is_never_stored validateTransaction validateCart env
    user body w response w' :
  (forall x, validateTransaction x = true ->
             TransactionSchema.deliveryStatusValid x = true) ->
  String.eqb (orElse (b_deliveryOption body) "pickup") "delivery" = false ->
  processCheckout validateTransaction validateCart env user body w
    = (response, w') ->
  success response = false
  /\ medicines w' = medicines w /\ transactions w' = transactions w
  /\ carts w' = carts w.
Proof.
  intros Enum D. unfold processCheckout.
  destruct (pharmacyOf user) as [pharmacyId|];
    [|intros H; injection H as <- <-; repeat split].
  cbv zeta.
  destruct (findOne _ (transactions w)) as [[tid transaction]|];
    [|intros H; injection H as <- <-; repeat split].
  destruct (length (Transaction.items transaction) =? 0)%nat;
    [intros H; injection H as <- <-; repeat split|].
  pose proof (CheckoutExtras.validateStock_outcome (medicines w)
                (Transaction.items transaction)) as VS.
  destruct (if _ && _ then validateStock _ _ else None) as [failure|] eqn:E.
  { intros H; injection H as <- <-.
    split; [|repeat split].
    destruct (_ && _); [|discriminate E]. rewrite E in VS. exact VS. }
  unfold payIfAsked.
  set (totals := calculateTotal _ _ _ _ _).
  destruct (negb (orElse (b_saveAsDraft body) false)
            && truthy (b_paymentType body)).
  - set (pr := processPaymentByType _ _ _ _).
    destruct pr as [ok pd pm] eqn:PR.
    destruct ok; [|intros H; injection H as <- <-; repeat split].
    destruct (saveTransaction_refused validateTransaction env tid
                (applyCheckout env body totals
                   (Some (mkPaymentResult true pd pm)) transaction)
                (log_dispatch (orElse (b_paymentType body) "")
                              (total totals) w) Enum) as (m & S).
    { rewrite applyCheckout_deliveryStatus, D. reflexivity. }
    rewrite S. intros H; injection H as <- <-. repeat split.
  - destruct (saveTransaction_refused validateTransaction env tid
                (applyCheckout env body totals None transaction) w Enum)
      as (m & S).
    { rewrite applyCheckout_deliveryStatus, D. reflexivity. }
    rewrite S. intros H; injection H as <- <-. repeat split.
Qed.

Lemma pickup_checkout_is_never_stored_witness :
  let '(response, w') :=
    processCheckout TransactionSchema.deliveryStatusValid (fun _ => true)
      env0 user0
      (mkBody None None [] (Some "cash") None None None None None) world0 in
  success response = false
  /\ medicines w' = medicines world0
  /\ dispatched world0 = []
  /\ length (dispatched w') = 1%nat.
Proof.
  destruct (processCheckout TransactionSchema.deliveryStatusValid
              (fun _ => true) env0 user0
              (mkBody None None [] (Some "cash") None None None None None)
              world0) as [response w'] eqn:H.
  destruct (pickup_checkout_is_never_stored
              TransactionSchema.deliveryStatusValid (fun _ => true) env0
              user0
              (mkBody None None [] (Some "cash") None None None None None)
              world0 response w' (fun x V => V) eq_refl H) as (S & M & _).
  split; [exact S|]. split; [exact M|]. split; [reflexivity|].
  replace w' with (snd (response, w')) by reflexivity.
  rewrite <- H. vm_compute. reflexivity.
Defined.

Lemma prepareItems_failure transactionType meds items failure :
  prepareItems transactionType meds items = inl failure ->
  success failure = false.
Proof.
  revert failure. induction items as [|i rest IH]; cbn [prepareItems];
    intros failure; [discriminate|].
  destruct (meds !! bi_medicineId i) as [m|];
    [|intros H; injection H as <-; reflexivity].
  destruct (_ && _); [intros H; injection H as <-; reflexivity|].
  destruct (prepareItems transactionType meds rest) as [f|built];
    [|discriminate].
  intros H; injection H as <-. apply IH. reflexivity.
Qed.

(** X26. Schema validation enforces the enum of [deliveryStatus], which
    has no "not_applicable".  So a quick checkout whose delivery option is
    not "delivery" never succeeds and leaves medicines, transactions and
    carts as they were. *)
Theorem pickup_quickCheckout_is_never_stored validateTransaction
    generateTransactionNumber env user body w response w' :
  (forall x, validateTransaction x = true ->
             TransactionSchema.deliveryStatusValid x = true) ->
  String.eqb (orElse (b_deliveryOption body) "pickup") "delivery" = false ->
  quickCheckout validateTransaction generateTransactionNumber env user body w
    = (response, w') ->
  success response = false
  /\ medicines w' = medicines w /\ transactions w' = transactions w
  /\ carts w' = carts w.
Proof.
  intros Enum D. unfold quickCheckout.
  destruct (pharmacyOf user) as [pharmacyId|];
    [|intros H; injection H as <- <-; repeat split].
  cbv zeta.
  destruct (length (b_items body) =? 0)%nat;
    [intros H; injection H as <- <-; repeat split|].
  destruct (prepareItems _ (medicines w) (b_items body))
    as [failure|transactionItems] eqn:PI.
  { intros H; injection H as <- <-. split; [|repeat split].
    eapply prepareItems_failure, PI. }
  unfold payIfAsked. cbn [andb].
  destruct (truthy (b_paymentType body)).
  - set (pr := processPaymentByType _ _ _ _).
    destruct pr as [ok pd pm] eqn:PR.
    destruct ok; [|intros H; injection H as <- <-; repeat split].
    destruct (generateTransactionNumber _ _) as [transactionNumber counters'].
    match goal with
    | |- context [saveTransaction ?v ?e ?i ?x ?w0] =>
        destruct (saveTransaction_refused v e i x w0 Enum) as (m & S);
          [cbn [Transaction.deliveryStatus]; rewrite D; reflexivity|]
    end.
    rewrite S. intros H; injection H as <- <-. repeat split.
  - destruct (generateTransactionNumber _ _) as [transactionNumber counters'].
    match goal with
    | |- context [saveTransaction ?v ?e ?i ?x ?w0] =>
        destruct (saveTransaction_refused v e i x w0 Enum) as (m & S);
          [cbn [Transaction.deliveryStatus]; rewrite D; reflexivity|]
    end.
    rewrite S. intros H; injection H as <- <-. repeat split.
Qed.

Lemma pickup_quickCheckout_is_never_stored_witness :
  let '(response, w') :=
    quickCheckout TransactionSchema.deliveryStatusValid helper0 env0 user0
                  body_card world0 in
  success response = false
  /\ medicines w' = medicines world0
  /\ dispatched world0 = []
  /\ length (dispatched w') = 1%nat.
Proof.
  destruct (quickCheckout TransactionSchema.deliveryStatusValid helper0 env0
              user0 body_card world0) as [response w'] eqn:H.
  destruct (pickup_quickCheckout_is_never_stored
              TransactionSchema.deliveryStatusValid helper0 env0 user0
              body_card world0 response w' (fun x V => V) eq_refl H)
    as (S & M & _).
  split; [exact S|]. split; [exact M|]. split; [reflexivity|].
  replace w' with (snd (response, w')) by reflexivity.
  rewrite <- H. vm_compute. reflexivity.
Defined.

End PickupExtras.

(** ** Payment methods *)

Module PaymentMethodExtras.
Import Checkout PaymentMethods PaymentMethodSamples CheckoutSamples.

Lemma unsetDefaults_lookup user s i :
  unsetDefaults user s !! i
  = (fun d => if String.eqb (userId d) user && isDefault d
              then set_isDefault false d else d) <$> (s !! i).
Proof. unfold unsetDefaults. apply lookup_fmap. Qed.

(** After [unsetDefaults] no method of the user is the default, and the
    methods of everybody else are as they were. *)
Lemma unsetDefaults_spec user s i d :
  unsetDefaults user s !! i = Some d ->
  (userId d = user -> isDefault d = false)
  /\ (userId d <> user -> s !! i = Some d)
  /\ exists d0, s !! i = Some d0 /\ userId d0 = userId d.
Proof.
  rewrite unsetDefaults_lookup.
  destruct (s !! i) as [d0|]; [|discriminate].
  cbn [fmap option_fmap option_map].
  destruct (String.eqb (userId d0) user) eqn:U; cbn [andb].
  - apply String.eqb_eq in U.
    destruct (isDefault d0) eqn:D; intros H; injection H as <-.
    + split; [reflexivity|]. split; [|exists d0; split; reflexivity].
      intros N. exfalso. apply N. exact U.
    + split; [intros _; exact D|]. split; [reflexivity|].
      exists d0; split; reflexivity.
  - apply String.eqb_neq in U. intros H; injection H as <-.
    split; [intros E; contradiction|]. split; [reflexivity|].
    exists d0; split; reflexivity.
Qed.

(** X27. After [setDefaultPaymentMethod] the only method of the user that
    can be the default is the requested one, and it is only when the
    answer is 200; in particular an answer of 404 leaves the user without
    any default.  The methods of other users are as they were, and a
    200 means the requested method is the user's and is now the
    default. *)
Theorem setDefaultPaymentMethod_outcome u id s reply s' :
  setDefaultPaymentMethod (Some u) id s = (reply, s') ->
  (forall i d, s' !! i = Some d -> userId d = u_id u -> isDefault d = true ->
               i = id /\ r_code reply = 200%nat)
  /\ (forall i d, s !! i = Some d -> userId d <> u_id u -> s' !! i = Some d)
  /\ (r_code reply = 200%nat ->
      exists d, s' !! id = Some d /\ userId d = u_id u
                /\ isDefault d = true).
Proof.
  unfold setDefaultPaymentMethod, findOneAndUpdate.
  destruct (unsetDefaults (u_id u) s !! id) as [d0|] eqn:T.
  - destruct (String.eqb (userId d0) (u_id u)) eqn:U;
      intros H; injection H as <- <-.
    + apply String.eqb_eq in U. split; [|split].
      * intros i d L Ud Dd. destruct (decide (i = id)) as [->|N];
          [split; reflexivity|].
        rewrite lookup_insert_ne in L by congruence.
        apply unsetDefaults_spec in L as (F & _). rewrite (F Ud) in Dd.
        discriminate Dd.
      * intros i d L Ud. destruct (decide (i = id)) as [->|N].
        { apply unsetDefaults_spec in T as (_ & _ & d1 & L1 & U1).
          rewrite L in L1. injection L1 as <-. congruence. }
        rewrite lookup_insert_ne by congruence.
        rewrite unsetDefaults_lookup, L. cbn.
        destruct (String.eqb (userId d) (u_id u)) eqn:E;
          [apply String.eqb_eq in E; contradiction|reflexivity].
      * intros _. eexists. split; [apply lookup_insert_eq|].
        split; [exact U|reflexivity].
    + split; [|split].
      * intros i d L Ud Dd.
        apply unsetDefaults_spec in L as (F & _). rewrite (F Ud) in Dd.
        discriminate Dd.
      * intros i d L Ud. rewrite unsetDefaults_lookup, L. cbn.
        destruct (String.eqb (userId d) (u_id u)) eqn:E;
          [apply String.eqb_eq in E; contradiction|reflexivity].
      * intros X. cbn in X. discriminate X.
  - intros H; injection H as <- <-. split; [|split].
    + intros i d L Ud Dd.
      apply unsetDefaults_spec in L as (F & _). rewrite (F Ud) in Dd.
      discriminate Dd.
    + intros i d L Ud. rewrite unsetDefaults_lookup, L. cbn.
      destruct (String.eqb (userId d) (u_id u)) eqn:E;
        [apply String.eqb_eq in E; contradiction|reflexivity].
    + intros X. cbn in X. discriminate X.
Qed.

Lemma setDefaultPaymentMethod_outcome_witness :
  let '(reply, s') :=
    setDefaultPaymentMethod (Some (mkUser (Some "ph1") (Some "u1") "u1"))
                            "p9" methods0 in
  r_code reply = 404%nat
  /\ (isDefault <$> methods0 !! "p1") = Some true
  /\ (isDefault <$> s' !! "p1") = Some false.
Proof.
  destruct (setDefaultPaymentMethod
              (Some (mkUser (Some "ph1") (Some "u1") "u1")) "p9" methods0)
    as [reply s'] eqn:H.
  assert (C : r_code reply = 404%nat).
  { replace reply with (fst (reply, s')) by reflexivity.
    rewrite <- H. vm_compute. reflexivity. }
  split; [exact C|]. split; [vm_compute; reflexivity|].
  destruct (setDefaultPaymentMethod_outcome _ _ _ _ _ H) as (One & _ & _).
  destruct (s' !! "p1") as [d|] eqn:L.
  2:{ exfalso. replace s' with (snd (reply, s')) in L by reflexivity.
      rewrite <- H in L. vm_compute in L. discriminate L. }
  cbn. f_equal. destruct (isDefault d) eqn:D; [|reflexivity].
  assert (U : userId d = "u1").
  { replace s' with (snd (reply, s')) in L by reflexivity.
    rewrite <- H in L. vm_compute in L. injection L as <-. reflexivity. }
  destruct (One "p1" d L U D) as (_ & C200). rewrite C in C200.
  discriminate C200.
Defined.

(** X28. [deletePaymentMethod] changes nothing unless it answers 200.  When
    it does, the method was the user's; it stays in the collection,
    inactive and with its default flag as it was; every other method is
    as it was; and no checkout, of any user, finds it any more. *)
Theorem deletePaymentMethod_outcome user id s reply s' :
  deletePaymentMethod user id s = (reply, s') ->
  (r_code reply <> 200%nat -> s' = s)
  /\ (r_code reply = 200%nat ->
      (exists u d, user = Some u /\ s !! id = Some d /\ userId d = u_id u
                   /\ s' !! id = Some (set_isActive false d))
      /\ (forall i, i <> id -> s' !! i = s !! i)
      /\ (forall w who,
            findPaymentMethod (stored s' w) (Some id) who = None)).
Proof.
  unfold deletePaymentMethod, findOneAndUpdate.
  destruct user as [u|].
  2:{ intros H; injection H as <- <-. split; [reflexivity|].
      intros X; cbn in X; discriminate X. }
  destruct (s !! id) as [d|] eqn:L.
  2:{ intros H; injection H as <- <-. split; [reflexivity|].
      intros X; cbn in X; discriminate X. }
  destruct (String.eqb (userId d) (u_id u)) eqn:U.
  2:{ intros H; injection H as <- <-. split; [reflexivity|].
      intros X; cbn in X; discriminate X. }
  intros H; injection H as <- <-.
  split; [intros N; exfalso; apply N; reflexivity|].
  intros _. split; [|split].
  - exists u, d. split; [reflexivity|]. split; [reflexivity|].
    split; [apply String.eqb_eq, U|apply lookup_insert_eq].
  - intros i N. apply lookup_insert_ne. congruence.
  - intros w who. unfold findPaymentMethod, stored.
    cbn [paymentMethods].
    destruct (String.eqb id ""); [reflexivity|].
    rewrite lookup_fmap, lookup_insert_eq. cbn.
    rewrite andb_false_r. reflexivity.
Qed.

Lemma deletePaymentMethod_outcome_witness :
  let '(reply, s') := deletePaymentMethod user0 "p1" methods0 in
  r_code reply = 200%nat
  /\ (isDefault <$> s' !! "p1") = Some true
  /\ findPaymentMethod (stored methods0 world0) (Some "p1") "u1" <> None
  /\ findPaymentMethod (stored s' world0) (Some "p1") "u1" = None.
Proof.
  destruct (deletePaymentMethod user0 "p1" methods0) as [reply s'] eqn:H.
  assert (C : r_code reply = 200%nat).
  { replace reply with (fst (reply, s')) by reflexivity.
    rewrite <- H. vm_compute. reflexivity. }
  split; [exact C|].
  destruct (deletePaymentMethod_outcome _ _ _ _ _ H) as (_ & Ok200).
  destruct (Ok200 C) as ((u & d & _ & Ld & _ & L') & _ & Gone).
  split.
  - rewrite L'. assert (E : Some d = methods0 !! "p1") by (symmetry; exact Ld).
    vm_compute in E. injection E as ->. reflexivity.
  - split; [vm_compute; discriminate|apply Gone].
Defined.

End PaymentMethodExtras.
